(** * NAIF PDS4 Bundler: release resolution, product versioning, inventories

    A shallow embedding of the increment and versioning engine of the
    NAIF PDS4 Bundler (NPB) and the properties its specification states
    about it.  Python strings are [string], Python [int] is [Z], lists are
    lists, exceptions are an explicit [result], the log and the console are
    an explicit list of entries threaded through every call, and the file
    system is read through a directory-listing and a file-reading oracle. *)

From Stdlib Require Import ZArith List String Ascii Bool Lia.
From Stdlib Require Import DecimalString DecimalPos DecimalZ.
Import ListNotations.
Local Open Scope list_scope.
Local Open Scope string_scope.

(** ** Python primitives used by the bundler *)

Module Py.

(** [sub in s] *)
Fixpoint contains (sub s : string) : bool :=
  prefix sub s ||
  match s with
  | "" => false
  | String _ s' => contains sub s'
  end.

(** [s[n:]] for [0 <= n] *)
Fixpoint drop (n : nat) (s : string) : string :=
  match n, s with
  | O, _ => s
  | S _, "" => ""
  | S k, String _ s' => drop k s'
  end.

(** [s[0:n]] for [0 <= n] *)
Fixpoint take (n : nat) (s : string) : string :=
  match n, s with
  | O, _ => ""
  | S _, "" => ""
  | S k, String c s' => String c (take k s')
  end.

Definition endswith (s p : string) : bool :=
  (length p <=? length s)%nat && String.eqb (drop (length s - length p) s) p.

(** [s.split(sep)] for a non-empty separator (the only use in the
    bundler): pieces between non-overlapping occurrences of [sep],
    scanned left to right.  [skip] counts the characters of a separator
    occurrence that are still to be passed over. *)
Fixpoint split_go (sep s cur : string) (skip : nat) : list string :=
  match s with
  | "" => [cur]
  | String c s' =>
      match skip with
      | S k => split_go sep s' cur k
      | O =>
          if prefix sep s
          then cur :: split_go sep s' "" (length sep - 1)
          else split_go sep s' (cur ++ String c "") 0
      end
  end.

Definition split (s sep : string) : list string := split_go sep s "" 0.

(** [s.replace(old, new)] for a non-empty [old]: every non-overlapping
    occurrence, left to right. *)
Fixpoint replace_go (old new s : string) (skip : nat) : string :=
  match s with
  | "" => ""
  | String c s' =>
      match skip with
      | S k => replace_go old new s' k
      | O =>
          if prefix old s
          then new ++ replace_go old new s' (length old - 1)
          else String c (replace_go old new s' 0)
      end
  end.

(** With an empty [old] Python puts [new] before every character and at
    the end. *)
Fixpoint intersperse (new s : string) : string :=
  match s with
  | "" => new
  | String c s' => new ++ String c (intersperse new s')
  end.

Definition replace (s old new : string) : string :=
  match old with
  | "" => intersperse new s
  | _ => replace_go old new s 0
  end.

(** Characters [str.strip()] and [int()] discard at both ends (ASCII). *)
Definition is_space (c : ascii) : bool :=
  let n := nat_of_ascii c in
  ((9 <=? n) && (n <=? 13) || (28 <=? n) && (n <=? 32))%nat.

(** [s.split()]: the words between runs of white space. *)
Fixpoint split_ws_go (s cur : string) : list string :=
  match s with
  | "" => match cur with "" => [] | _ => [cur] end
  | String c s' =>
      if is_space c
      then match cur with
           | "" => split_ws_go s' ""
           | _ => cur :: split_ws_go s' ""
           end
      else split_ws_go s' (cur ++ String c "")
  end.

Definition split_ws (s : string) : list string := split_ws_go s "".

(** [l[0]] and [l[-1]] of the result of a [split], which is never empty. *)
Definition first (l : list string) : string := hd "" l.
Definition final (l : list string) : string := last l "".

(** [l[-1]] of an arbitrary list: [None] stands for [IndexError]. *)
Definition last_item {A : Type} (l : list A) : option A :=
  match l with
  | [] => None
  | x :: l' => Some (last l' x)
  end.

(** [s[-1]]: [None] stands for [IndexError]. *)
Fixpoint last_char (s : string) : option ascii :=
  match s with
  | "" => None
  | String c "" => Some c
  | String _ s' => last_char s'
  end.

Fixpoint lstrip (s : string) : string :=
  match s with
  | "" => ""
  | String c s' => if is_space c then lstrip s' else s
  end.

Fixpoint rstrip (s : string) : string :=
  match s with
  | "" => ""
  | String c s' =>
      match rstrip s' with
      | "" => if is_space c then "" else String c ""
      | r => String c r
      end
  end.

Definition strip (s : string) : string := lstrip (rstrip s).

(** No character of [s] is white space. *)
Fixpoint no_space (s : string) : bool :=
  match s with
  | "" => true
  | String c s' => negb (is_space c) && no_space s'
  end.

Definition is_digit (c : ascii) : bool :=
  let n := nat_of_ascii c in ((48 <=? n) && (n <=? 57))%nat.

Definition digit_val (c : ascii) : Z := Z.of_nat (nat_of_ascii c - 48).

(** Decimal digits with single underscores allowed between digits. *)
Fixpoint digits (s : string) (acc : Z) (after_digit : bool) : option Z :=
  match s with
  | "" => if after_digit then Some acc else None
  | String c s' =>
      if is_digit c then digits s' (acc * 10 + digit_val c) true
      else if Ascii.eqb c "_" then
        if after_digit then
          match s' with
          | "" => None
          | _ => digits s' acc false
          end
        else None
      else None
  end.

(** [int(s)]: [None] stands for [ValueError]. *)
Definition int (s : string) : option Z :=
  match strip s with
  | String "-" r => option_map Z.opp (digits r 0 false)
  | String "+" r => digits r 0 false
  | r => digits r 0 false
  end.

(** [str(n)] *)
Definition str (n : Z) : string := NilZero.string_of_int (Z.to_int n).

Fixpoint zeros (n : nat) : string :=
  match n with
  | O => ""
  | S k => String "0" (zeros k)
  end.

(** [f"{n:0w}"]: sign-aware zero padding to width [w]. *)
Definition zfill (w : nat) (n : Z) : string :=
  if (n <? 0)%Z
  then let d := str (Z.opp n) in
       String "-" (zeros (w - 1 - length d) ++ d)
  else let d := str n in zeros (w - length d) ++ d.

(** [s[:-1]] *)
Fixpoint drop_last (s : string) : string :=
  match s with
  | "" => ""
  | String c "" => ""
  | String c s' => String c (drop_last s')
  end.

(** [s.lower()] (ASCII) *)
Definition lower_char (c : ascii) : ascii :=
  let n := nat_of_ascii c in
  if ((65 <=? n) && (n <=? 90))%nat then ascii_of_nat (n + 32) else c.

Fixpoint lower (s : string) : string :=
  match s with
  | "" => ""
  | String c s' => String (lower_char c) (lower s')
  end.

(** [c * n] for a one-character string *)
Fixpoint repeat_char (c : ascii) (n : nat) : string :=
  match n with
  | O => ""
  | S k => String c (repeat_char c k)
  end.

(** [list.sort()] on strings: insertion into code-point order. *)
Fixpoint insert_sorted (x : string) (l : list string) : list string :=
  match l with
  | [] => [x]
  | y :: l' => if String.leb x y then x :: l else y :: insert_sorted x l'
  end.

Definition sorted (l : list string) : list string :=
  fold_right insert_sorted [] l.

(** [list(OrderedDict.fromkeys(l))]: the first occurrence of every
    element, in order of first occurrence. *)
Fixpoint fromkeys_go (seen l : list string) : list string :=
  match l with
  | [] => []
  | x :: l' =>
      if existsb (String.eqb x) seen then fromkeys_go seen l'
      else x :: fromkeys_go (x :: seen) l'
  end.

Definition fromkeys (l : list string) : list string := fromkeys_go [] l.

End Py.

(** ** Exceptions, the log and the file system *)

Inductive exn : Type :=
| ValueError
| IndexError
| AttributeError
| FileNotFoundError
| Exception (msg : string).

Inductive result (A : Type) : Type :=
| Ok (a : A)
| Raise (e : exn).

Arguments Ok {A} a.
Arguments Raise {A} e.

(** Entries of the run log ([logging.info], [logging.warning],
    [logging.error]) and of the console ([print], the prompt of
    [input]). *)
Inductive level : Type := INFO | WARNING | ERROR | STDOUT.

Definition entry : Type := (level * string)%type.

(** The file system: every text file with the strings it was written
    with, under its path with repeated slashes collapsed.  Directories are
    the prefixes of the paths. *)
Definition FS : Type := list (string * list string).

Fixpoint norm_go (after_slash : bool) (s : string) : string :=
  match s with
  | "" => ""
  | String c s' =>
      if Ascii.eqb c "/"
      then if after_slash then norm_go true s' else String c (norm_go true s')
      else String c (norm_go false s')
  end.

Definition normpath (path : string) : string := norm_go false path.

(** Whether the scan of [s] ends just after a slash, when it starts in
    the state [after_slash]. *)
Fixpoint end_slash (after_slash : bool) (s : string) : bool :=
  match s with
  | "" => after_slash
  | String c s' => end_slash (Ascii.eqb c "/") s'
  end.

Fixpoint lookup (key : string) (fs : FS) : option (list string) :=
  match fs with
  | [] => None
  | (k, v) :: fs' => if String.eqb k key then Some v else lookup key fs'
  end.

Fixpoint update (key : string) (v : list string) (fs : FS) : FS :=
  match fs with
  | [] => [(key, v)]
  | (k, v') :: fs' =>
      if String.eqb k key then (k, v) :: fs' else (k, v') :: update key v fs'
  end.

Definition content (fs : FS) (path : string) : option (list string) :=
  lookup (normpath path) fs.

(** The name of the file [key] in the directory [dir], when it lies
    directly in it. *)
Definition name_in (dir key : string) : option string :=
  let d := normpath (dir ++ "/") in
  if prefix d key
  then let name := Py.drop (length d) key in
       if Py.contains "/" name || String.eqb name "" then None else Some name
  else None.

(** [os.listdir(dir)], files only. *)
Fixpoint listdir (fs : FS) (dir : string) : list string :=
  match fs with
  | [] => []
  | (k, _) :: fs' =>
      match name_in dir k with
      | Some name => name :: listdir fs' dir
      | None => listdir fs' dir
      end
  end.

(** What a run acts on: the file system, the log, and the catalog, which
    holds the collection and the name of every product registered. *)
Record World : Type := {
  w_fs : FS;
  w_log : list entry;
  w_catalog : list (string * string)
}.

(** A computation returns its result with the world it leaves: what was
    logged or written before an exception stays logged and written. *)
Definition M (A : Type) : Type := World -> result A * World.

Definition ret {A : Type} (a : A) : M A := fun w => (Ok a, w).

Definition bind {A B : Type} (m : M A) (k : A -> M B) : M B :=
  fun w =>
    match m w with
    | (Ok a, w') => k a w'
    | (Raise e, w') => (Raise e, w')
    end.

Definition raise {A : Type} (e : exn) : M A := fun w => (Raise e, w).

Definition logging (lv : level) (msg : string) : M unit :=
  fun w => (Ok tt, {| w_fs := w_fs w;
                      w_log := (w_log w ++ [(lv, msg)])%list;
                      w_catalog := w_catalog w |}).

(** [try: body except: handler] with a bare [except:], which catches
    every exception. *)
Definition try_except {A : Type} (body : M A) (handler : exn -> M A) : M A :=
  fun w =>
    match body w with
    | (Ok a, w') => (Ok a, w')
    | (Raise e, w') => handler e w'
    end.

(** An operation that raises [e] where the model returns [None]. *)
Definition or_raise {A : Type} (e : exn) (o : option A) : M A :=
  match o with
  | Some a => ret a
  | None => raise e
  end.

Notation "x <- c1 ;; c2" := (bind c1 (fun x => c2))
  (at level 61, c1 at next level, right associativity).
Notation "c1 ;;; c2" := (bind c1 (fun _ => c2))
  (at level 61, right associativity).

(** [for x in l: body x] *)
Fixpoint for_each {A : Type} (l : list A) (body : A -> M unit) : M unit :=
  match l with
  | [] => ret tt
  | x :: l' => body x ;;; for_each l' body
  end.

(** [acc = f(acc, x)] for every [x] of [l], in order. *)
Fixpoint fold_m {A B : Type} (l : list A) (acc : B) (f : B -> A -> M B)
  : M B :=
  match l with
  | [] => ret acc
  | x :: l' => acc' <- f acc x ;; fold_m l' acc' f
  end.

(** [fnmatch] of a name against the pattern [pre*post], where [pre] and
    [post] hold no wildcard: the patterns of the bundler have one [*].
    A name that starts with a dot is matched only by a pattern that does. *)
Definition fnmatch_star (pre post name : string) : bool :=
  prefix pre name && Py.endswith name post
  && (length pre + length post <=? length name)%nat
  && (negb (prefix "." name) || prefix "." pre).

(** [glob.glob(dir + "/" + pre + "*" + post)]: the matching names of the
    directory, each joined to the directory as the pattern spells it. *)
Definition glob_fs (fs : FS) (dir pre post : string) : list string :=
  map (fun name => dir ++ "/" ++ name)
      (filter (fnmatch_star pre post) (listdir fs dir)).

Definition get_fs : M FS := fun w => (Ok (w_fs w), w).

Definition glob (dir pre post : string) : M (list string) :=
  fun w => (Ok (glob_fs (w_fs w) dir pre post), w).

Definition CRLF : string := String "013" (String "010" "").
Definition LF : string := String "010" "".

(** Reading a text file line by line: the lines are the strings the file
    was written with, one line a string, and universal newlines turn the
    CRLF that ends a line into LF. *)
Definition universal_newline (line : string) : string :=
  if Py.endswith line CRLF
  then Py.take (length line - 2) line ++ LF
  else line.

(** [open(path, "r")] and the lines read from it. *)
Definition read_lines (path : string) : M (list string) :=
  fun w =>
    match content (w_fs w) path with
    | Some lines => (Ok (map universal_newline lines), w)
    | None => (Raise FileNotFoundError, w)
    end.

Definition set_content (fs : FS) (path : string) (lines : list string) : FS :=
  update (normpath path) lines fs.

(** [open(path, "w+")]: the file is created or emptied. *)
Definition open_write (path : string) : M unit :=
  fun w => (Ok tt, {| w_fs := set_content (w_fs w) path [];
                      w_log := w_log w;
                      w_catalog := w_catalog w |}).

(** [f.write(line)] on the file opened at [path]. *)
Definition write (path line : string) : M unit :=
  fun w =>
    let old := match content (w_fs w) path with
               | Some lines => lines
               | None => []
               end in
    (Ok tt, {| w_fs := set_content (w_fs w) path (old ++ [line])%list;
               w_log := w_log w;
               w_catalog := w_catalog w |}).

(** [collection.add(product)] as the catalog records it. *)
Definition register (collection product : string) : M unit :=
  fun w => (Ok tt, {| w_fs := w_fs w;
                      w_log := w_log w;
                      w_catalog := (w_catalog w ++ [(collection, product)])%list |}).

(** [input(prompt)] when the run is interactive. *)
Definition input_if (interactive : bool) (prompt : string) : M unit :=
  if interactive then logging STDOUT prompt else ret tt.

(** A computation is quiet when all it does to the world is to extend
    the log: it writes no file and registers no product. *)
Definition quiet {A : Type} (m : M A) : Prop :=
  forall w r w',
    m w = (r, w') ->
    w_fs w' = w_fs w /\ w_catalog w' = w_catalog w
    /\ exists l, w_log w' = (w_log w ++ l)%list.

(** A computation keeps the file at [path] when it leaves its content
    as it is. *)
Definition keeps {A : Type} (path : string) (m : M A) : Prop :=
  forall w r w', m w = (r, w') -> content (w_fs w') path = content (w_fs w) path.

(** A computation registers nothing when it leaves the catalog as it
    is. *)
Definition registers_nothing {A : Type} (m : M A) : Prop :=
  forall w r w', m w = (r, w') -> w_catalog w' = w_catalog w.

Definition world0 (fs : FS) : World :=
  {| w_fs := fs; w_log := []; w_catalog := [] |}.

Definition run {A : Type} (fs : FS) (m : M A) : result A * World :=
  m (world0 fs).

(** ** Release resolution: [Setup.set_release]
    (src/naif_pds4_bundler/classes/setup.py) *)

Module SetupPy.

Record Args : Type := {
  clear : string;        (* "" when the argument is not given *)
  kerlist : string;      (* "" when the argument is not given *)
  plan : string;         (* "" when the argument is not given *)
  faucet : string;
  silent : bool;
  verbose : bool
}.

Record Setup : Type := {
  args : Args;
  step : nat;
  run_type : string;
  mission_acronym : string;
  mission_name : string;
  bundle_directory : string;
  working_directory : string;
  release : string;
  current_release : string;
  increment : bool
}.

Definition truthy (s : string) : bool := negb (String.eqb s "").

(** The three values [set_release] assigns at its end. *)
Record Release : Type := {
  r_release : string;
  r_current_release : string;
  r_increment : bool
}.

(** The number read in the name of the latest bundle label:
    [int(releases[-1].split("_spice_v")[-1].split(".")[0])]. *)
Definition bundle_label_number (latest : string) : option Z :=
  Py.int (Py.first (Py.split (Py.final (Py.split latest "_spice_v")) ".")).

(** The number read in the name of the latest kernel list:
    [int(releases[-1].split("_{self.run_type}_")[-1].split(".")[0])].
    The separator of the first [split] is the string the source writes,
    which is not an f-string. *)
Definition kernel_list_number (latest : string) : option Z :=
  Py.int (Py.first (Py.split (Py.final (Py.split latest "_{self.run_type}_"))
                             ".")).

Definition bundle_labels (fs : FS) (self : Setup) : list string :=
  glob_fs fs (bundle_directory self ++ "/" ++ mission_acronym self ++ "_spice")
          ("bundle_" ++ mission_acronym self ++ "_spice_v") "".

Definition kernel_lists (fs : FS) (self : Setup) : list string :=
  glob_fs fs (working_directory self)
          (mission_acronym self ++ "_" ++ run_type self ++ "_") ".kernel_list".

(** The number read in the name of the file list to clear:
    [int(release.split(".file_list")[0].split(f"_{self.run_type}_")[-1])]. *)
Definition file_list_number (self : Setup) : option Z :=
  let release := clear (args self) in
  let release := Py.first (Py.split release ".file_list") in
  Py.int (Py.final (Py.split release ("_" ++ run_type self ++ "_"))).

(** The branch taken when [args.clear] is set: no [try] protects it. *)
Definition release_from_clear (self : Setup) : M Release :=
  release <- or_raise ValueError (file_list_number self) ;;
  let current_release := (release - 1)%Z in
  let release := Py.zfill 3 release in
  let current_release := Py.zfill 3 current_release in
  logging INFO ("     Generating release " ++ release ++ " as obtained from "
                ++ "file list from previous run: " ++ clear (args self)) ;;;
  ret {| r_release := release; r_current_release := current_release;
         r_increment := true |}.

(** The body of the outer [try]: the latest bundle label. *)
Definition release_from_bundle_label (self : Setup) : M Release :=
  fs <- get_fs ;;
  let releases := Py.sorted (bundle_labels fs self) in
  latest <- or_raise IndexError (Py.last_item releases) ;;
  current_release <- or_raise ValueError (bundle_label_number latest) ;;
  let current_release := Py.zfill 3 current_release in
  n <- or_raise ValueError (Py.int current_release) ;;
  let release := Py.zfill 3 (n + 1)%Z in
  logging INFO ("     Generating release " ++ release ++ ".") ;;;
  ret {| r_release := release; r_current_release := current_release;
         r_increment := true |}.

(** The body of the inner [try]: the latest kernel list of the working
    directory.  [e] is the exception being handled, which the bare
    [raise] raises again. *)
Definition release_from_kernel_list (self : Setup) (e : exn) : M Release :=
  (if truthy (kerlist (args self))
   then logging WARNING ("-- Kernel list provided as input. "
                         ++ "Release number cannot be obtained.") ;;;
        raise e
   else ret tt) ;;;
  fs <- get_fs ;;
  let releases := Py.sorted (kernel_lists fs self) in
  latest <- or_raise IndexError (Py.last_item releases) ;;
  current_release <- or_raise ValueError (kernel_list_number latest) ;;
  let current_release := Py.zfill 3 current_release in
  n <- or_raise ValueError (Py.int current_release) ;;
  let release := Py.zfill 3 (n + 1)%Z in
  logging INFO ("     Generating release " ++ release) ;;;
  ret {| r_release := release; r_current_release := current_release;
         r_increment := true |}.

Definition first_release : M Release :=
  logging WARNING "     This is the first release." ;;;
  ret {| r_release := "001"; r_current_release := ""; r_increment := false |}.

Definition label_warning : entry :=
  (WARNING, "-- Bundle label not found. Checking previous kernel list.").

Definition first_warning : entry :=
  (WARNING, "     This is the first release.").

Definition resolve_release (self : Setup) : M Release :=
  if truthy (clear (args self))
  then release_from_clear self
  else
    try_except (release_from_bundle_label self)
      (fun e =>
         logging WARNING
           "-- Bundle label not found. Checking previous kernel list." ;;;
         try_except (release_from_kernel_list self e)
                    (fun _ => first_release)).

Definition set_release (self : Setup) : M Setup :=
  let line := "Step " ++ Py.str (Z.of_nat (step self))
              ++ " - Setup the archive generation" in
  logging INFO "" ;;;
  logging INFO "" ;;;
  logging INFO line ;;;
  logging INFO (Py.repeat_char "-" (length line)) ;;;
  logging INFO "" ;;;
  (if negb (silent (args self)) && negb (verbose (args self))
   then logging STDOUT ("-- " ++ Py.final (Py.split line " - ") ++ ".")
   else ret tt) ;;;
  logging INFO "-- Checking existence of previous release." ;;;
  r <- resolve_release self ;;
  logging INFO "" ;;;
  ret {| args := args self;
         step := S (step self);
         run_type := run_type self;
         mission_acronym := mission_acronym self;
         mission_name := mission_name self;
         bundle_directory := bundle_directory self;
         working_directory := working_directory self;
         release := r_release r;
         current_release := r_current_release r;
         increment := r_increment r |}.

End SetupPy.

(** ** Products: npb/classes/product.py *)

Module ProductPy.

Record Setup : Type := {
  mission_accronym : string;
  national_agency : string;
  archiving_agency : string;
  root_dir : string;
  final_directory : string;
  staging_directory : string;
  working_directory : string;
  pds : string;
  increment : bool;
  interactive : bool;
  diff : string
}.

(** The attributes of a label that an inventory reads. *)
Record Label : Type := {
  PRODUCT_LID : string;
  PRODUCT_VID : string
}.

(** The attributes of a product object that the code below reads or sets.
    An attribute a class never assigns is [None]: reading it raises
    [AttributeError]. *)
Record Product : Type := {
  name : string;
  path : string;
  lid : string;
  vid : string;
  version : option Z;
  path_current : string;
  new_product : option bool;
  label : option Label
}.

Module Collection.
Record t : Type := {
  name : string;
  type : string;
  product : list Product
}.
End Collection.

Definition truthy (s : string) : bool := negb (String.eqb s "").

(** Modelled from the spec: [Collection.add] of npb/classes/collection.py,
    which is not among the sources: the product joins the ordered list of
    the collection and is never removed. *)
Definition add (collection : Collection.t) (p : Product) : M Collection.t :=
  register (Collection.name collection) (name p) ;;;
  ret {| Collection.name := Collection.name collection;
         Collection.type := Collection.type collection;
         Collection.product := (Collection.product collection ++ [p])%list |}.

(** Modelled from the spec: [add_carriage_return] of npb/utils/files.py,
    which is not among the sources: a line ends in CRLF whatever the
    platform. *)
Definition add_carriage_return (line : string) : string :=
  if Py.endswith line CRLF then line
  else if Py.endswith line LF then Py.take (length line - 1) line ++ CRLF
  else line ++ CRLF.

(** *** SpiceKernelProduct *)

Definition SpiceKernelProduct_product_lid (setup : Setup) (type name : string)
  : string :=
  "urn:" ++ national_agency setup ++ ":" ++ archiving_agency setup ++ ":"
  ++ mission_accronym setup ++ ".spice:spice_kernels:" ++ type ++ "_" ++ name.

Definition SpiceKernelProduct_product_vid : string := "1.0".

(** *** MetaKernelProduct *)

Definition mk_directory (setup : Setup) : string :=
  final_directory setup ++ "/" ++ mission_accronym setup
  ++ "_spice/spice_kernels/mk".

(** [self.version = int(self.name.split('.')[0][-1])] in [__init__] *)
Definition MetaKernelProduct_version (kernel : string) : M Z :=
  c <- or_raise IndexError (Py.last_char (Py.first (Py.split kernel "."))) ;;
  or_raise ValueError (Py.int (String c "")).

(** The number [check_version] reads in the name of a meta-kernel:
    [int(name.split('v')[-1].split('.')[0])]. *)
Definition version_in_name (name : string) : option Z :=
  Py.int (Py.first (Py.split (Py.final (Py.split name "v")) ".")).

Definition check_version (setup : Setup) (name : string) (version : Z)
  : M unit :=
  logging INFO ("-- Meta-kernel version " ++ Py.str version
                ++ " from kernel list.") ;;;
  if negb (increment setup) then ret tt
  else
    logging INFO "-- Check version from previous increment." ;;;
    versions <- glob (mk_directory setup) (Py.first (Py.split name "v"))
                     (if String.eqb (pds setup) "4" then ".tm" else "") ;;
    let versions := Py.sorted versions in
    match match Py.last_item versions with
          | Some latest => version_in_name latest
          | None => None
          end with
    | None =>
        logging ERROR
          "    Meta-kernel from previous increment is not available." ;;;
        logging ERROR
          "    It is recommended to stop the execution and fix the issue." ;;;
        logging ERROR ("    Version from kernel list will be used: "
                       ++ Py.str version ++ ".") ;;;
        input_if (interactive setup) ">> Press Enter to continue..."
    | Some previous =>
        let expected := (previous + 1)%Z in
        (if (expected =? version)%Z
         then logging INFO
                ("     Version from kernel list and from previous increment agree: "
                 ++ Py.str expected ++ ".")
         else
           logging ERROR ("    Version discrepancy. From kernel list: "
                          ++ Py.str version ++ ". From increment: "
                          ++ Py.str expected ++ ".") ;;;
           logging ERROR
             "    It is recommended to stop the execution and fix the issue." ;;;
           logging ERROR ("    Version from kernel list will be used: "
                          ++ Py.str version ++ ".")) ;;;
        input_if (interactive setup) ">> Press Enter to continue..."
    end.

Definition MetaKernelProduct_product_lid (setup : Setup) (type name : string)
  : string :=
  let name := if String.eqb type "mk" then Py.first (Py.split name "_v")
              else name in
  "urn:" ++ national_agency setup ++ ":" ++ archiving_agency setup ++ ":"
  ++ mission_accronym setup ++ ".spice:spice_kernels:" ++ type ++ "_" ++ name.

Definition MetaKernelProduct_product_vid (version : Z) : string :=
  Py.str version ++ ".0".

(** [__init__] up to the assignment of the VID: the version read in the
    name given by the kernel list, the name (that of [product] when a
    meta-kernel is handed in), the check of the version, the VID.  It
    returns the name, the version and the VID.  The attributes assigned in
    between (template, type, paths, dates, author) and the creation of the
    directory play no part in the version. *)
Definition MetaKernelProduct_init (setup : Setup) (kernel product : string)
  : M (string * Z * string) :=
  logging INFO "" ;;;
  logging INFO ("-- Generate meta-kernel: " ++ kernel) ;;;
  version <- MetaKernelProduct_version kernel ;;
  let name := if truthy product then Py.final (Py.split product "/")
              else kernel in
  check_version setup name version ;;;
  ret (name, version, MetaKernelProduct_product_vid version).

(** The [while match_flag:] loop of [compare]: its variables, one
    iteration, and the loop run for at most [fuel] iterations ([None]:
    it has not ended by then). *)
Record search_state : Type := {
  match_flag : bool;
  i : Z;
  val_mk : string
}.

Definition search_step (fs : FS) (val_mk_path val_mk_name : string)
  (st : search_state) : search_state :=
  if (i st <? Z.of_nat (length val_mk_name) - 1)%Z
  then
    match glob_fs fs val_mk_path (Py.take (Z.to_nat (i st)) val_mk_name) ".tm"
    with
    | [] => {| match_flag := false; i := (i st + 1)%Z; val_mk := val_mk st |}
    | val_mks =>
        {| match_flag := true; i := (i st + 1)%Z;
           val_mk := Py.final (Py.sorted val_mks) |}
    end
  else st.

Fixpoint search_loop (fuel : nat) (fs : FS) (val_mk_path val_mk_name : string)
  (st : search_state) : option search_state :=
  if match_flag st
  then match fuel with
       | O => None
       | S fuel' =>
           search_loop fuel' fs val_mk_path val_mk_name
                       (search_step fs val_mk_path val_mk_name st)
       end
  else Some st.

Definition search_start : search_state :=
  {| match_flag := true; i := 1%Z; val_mk := "" |}.

(** The variables of the loop after [n] iterations of its body. *)
Fixpoint search_iterate (n : nat) (fs : FS) (val_mk_path val_mk_name : string)
  (st : search_state) : search_state :=
  match n with
  | O => st
  | S n' =>
      search_iterate n' fs val_mk_path val_mk_name
                     (search_step fs val_mk_path val_mk_name st)
  end.

Section Compare.

(** [compare_files] of npb/utils/files.py is not among the sources. *)
Variable compare_files : string -> string -> string -> string -> M unit.

(** [MetaKernelProduct.compare]; [None] when the search has not ended
    within [fuel] iterations. *)
Definition MetaKernelProduct_compare (fuel : nat) (setup : Setup)
  (name path : string) : M (option unit) :=
  fun w =>
    let val_mk_name := Py.final (Py.split name "/") in
    match search_loop fuel (w_fs w) (mk_directory setup) val_mk_name
                      search_start with
    | None => (Ok None, w)
    | Some st =>
        (val_mk <-
           (if truthy (val_mk st) then ret (val_mk st)
            else
              logging WARNING ("-- No other version of " ++ name
                               ++ " has been found.") ;;;
              logging WARNING "-- Comparing with meta-kernel template." ;;;
              ret (root_dir setup ++ "/config/" ++ mission_accronym setup
                   ++ "_metakernel.tm")) ;;
         logging INFO "" ;;;
         compare_files val_mk path (working_directory setup) "all" ;;;
         input_if (interactive setup) ">> Press enter to continue..." ;;;
         ret (Some tt)) w
    end.

End Compare.

Definition kernel_type_list : list string :=
  ["lsk"; "pck"; "fk"; "ik"; "sclk"; "spk"; "ck"; "dsk"].

(** The later of two names under a key, the second on a tie. *)
Definition later (key : string -> string) (a b : string) : string :=
  if String.leb (key a) (key b) then b else a.

Fixpoint latest (key : string -> string) (l : list string) : option string :=
  match l with
  | [] => None
  | x :: l' =>
      match latest key l' with
      | None => Some x
      | Some y => Some (later key x y)
      end
  end.

Section Manifest.

(** Of npb/utils/files.py, which is not among the sources: the table of
    the extensions of a kernel type, the match of a name against a
    pattern of the grammar, the date a name embeds, and the kernels a
    meta-kernel file lists. *)
Variable type2extension : string -> list string.
Variable re_match : string -> string -> bool.
Variable embedded_date : string -> string.
Variable mk2list : list string -> list string.

Definition candidates (fs : FS) (kernel_type : string)
  (paths mks : list string) : list string :=
  List.app
    (flat_map (fun p => listdir fs (p ++ "/" ++ kernel_type)) paths)
    (flat_map (fun mk => match content fs mk with
                         | Some lines => mk2list lines
                         | None => []
                         end) mks).

Definition excluded (excluded_kernels : list string) (kernel : string)
  : bool :=
  existsb (fun pattern => re_match pattern kernel) excluded_kernels.

(** Modelled from the spec: [get_latest_kernel] of npb/utils/files.py,
    which is not among the sources.  The candidates are the kernels of the
    staging area and those the meta-kernels of prior releases list; of
    those that match the token, an excluded one is never selected, however
    recent; the single most recent one is selected, by the embedded date
    when the token has the date qualifier, else by the order of the file
    names. *)
Definition get_latest_kernel (fs : FS) (kernel_type : string)
  (paths : list string) (pattern : string) (dates : bool)
  (excluded_kernels mks : list string) : list string :=
  let matching := filter (re_match pattern)
                         (candidates fs kernel_type paths mks) in
  let allowed := filter (fun k => negb (excluded excluded_kernels k))
                        matching in
  match latest (if dates then embedded_date else fun k => k) allowed with
  | Some kernel => [kernel]
  | None => []
  end.

(** An entry of the list of the kernels of a meta-kernel that is clear of
    the patterns: one of the kernel types and a kernel that none of them
    matches. *)
Definition clear_of (patterns : list string) (entry : string) : Prop :=
  exists kernel_type kernel,
    entry = kernel_type ++ "/" ++ kernel
    /\ In kernel_type kernel_type_list
    /\ forall pattern, In pattern patterns -> re_match pattern kernel = false.

(** The patterns of the [exclude:] lines of the grammar. *)
Definition excludes (kernel_grammar_list : list string) : list string :=
  map (fun g => Py.final (Py.split g "exclude:"))
      (filter (Py.contains "exclude:") kernel_grammar_list).

(** The body of the inner loop of [write_product] over the grammar. *)
Definition match_grammar (setup : Setup) (name kernel_type : string)
  (excluded_kernels : list string) (mkgen_kernels : list string)
  (kernel_grammar : string) : M (list string) :=
  let dates := Py.contains "date:" kernel_grammar in
  let kernel_grammar :=
    if dates then Py.final (Py.split kernel_grammar "date:")
    else kernel_grammar in
  if existsb (String.eqb (Py.lower (Py.final (Py.split kernel_grammar "."))))
             (type2extension kernel_type)
  then
    let paths := [staging_directory setup
                  ++ (if String.eqb (pds setup) "3" then "/DATA"
                      else "/spice_kernels")] in
    mks <- glob (mk_directory setup) (Py.first (Py.split name "_v")) ".tm" ;;
    fs <- get_fs ;;
    let latest_kernel :=
      get_latest_kernel fs kernel_type paths kernel_grammar dates
                        excluded_kernels mks in
    for_each latest_kernel
             (fun kernel => logging INFO ("        Matched: " ++ kernel)) ;;;
    ret (List.app mkgen_kernels
           (map (fun kernel => kernel_type ++ "/" ++ kernel) latest_kernel))
  else ret mkgen_kernels.

(** The body of the outer loop over the kernel types: the list of
    excluded kernels grows by the [exclude:] lines once more, then every
    line of the grammar is matched. *)
Definition match_kernel_type (setup : Setup) (name : string)
  (kernel_grammar_list : list string) (acc : list string * list string)
  (kernel_type : string) : M (list string * list string) :=
  let excluded_kernels := (fst acc ++ excludes kernel_grammar_list)%list in
  logging INFO ("     Matching " ++ kernel_type
                ++ " with meta-kernel grammar.") ;;;
  mkgen_kernels <-
    fold_m kernel_grammar_list (snd acc)
           (match_grammar setup name kernel_type excluded_kernels) ;;
  ret (excluded_kernels, mkgen_kernels).

Definition read_grammar (setup : Setup) : M (list string) :=
  let mk_grammar := root_dir setup ++ "/config/" ++ mission_accronym setup
                    ++ "_metakernel.grammar" in
  logging INFO ("-- Writing meta-kernel using: " ++ mk_grammar) ;;;
  lines <- read_lines mk_grammar ;;
  ret (map (fun line => Py.first (Py.split line LF))
           (filter (fun line => negb (String.eqb (Py.strip line) "")) lines)).

(** [MetaKernelProduct.write_product] up to the list of the kernels of
    the meta-kernel, [mkgen_kernels], which the rest of the function
    formats into the template. *)
Definition MetaKernelProduct_mkgen_kernels (setup : Setup) (name : string)
  : M (list string) :=
  kernel_grammar_list <- read_grammar setup ;;
  acc <- fold_m kernel_type_list ([], [])
                (match_kernel_type setup name kernel_grammar_list) ;;
  ret (Py.fromkeys (snd acc)).

End Manifest.

(** *** InventoryProduct *)

Definition InventoryProduct_product_lid (setup : Setup) : string :=
  "urn:" ++ national_agency setup ++ ":" ++ archiving_agency setup ++ ":"
  ++ mission_accronym setup ++ "_spice:document:spiceds".

Definition InventoryProduct_product_vid (version : Z) : string :=
  Py.str version ++ ".0".

(** A line of the previous inventory as it is written again. *)
Definition carry_forward (line : string) : string :=
  add_carriage_return
    (if Py.contains "P,urn" line then Py.replace line "P,urn" "S,urn"
     else line).

Definition prev_collection_path (setup : Setup) (self : Product)
  (collection : Collection.t) (version : Z) : string :=
  final_directory setup ++ "/" ++ mission_accronym setup ++ "_spice/"
  ++ Collection.name collection ++ "/"
  ++ Py.replace (name self) (Py.str version) (Py.str (version - 1)).

(** The body of the [try] of [write_product]. *)
Definition copy_previous (setup : Setup) (self : Product)
  (collection : Collection.t) : M unit :=
  version <- or_raise AttributeError (version self) ;;
  lines <- read_lines (prev_collection_path setup self collection version) ;;
  for_each lines (fun line => write (path self) (carry_forward line)).

Definition primary_line (lb : Label) : string :=
  add_carriage_return
    ("P," ++ PRODUCT_LID lb ++ "::" ++ PRODUCT_VID lb ++ CRLF).

Definition write_new (self : Product) (p : Product) : M unit :=
  new <- or_raise AttributeError (new_product p) ;;
  if (new : bool)
  then lb <- or_raise AttributeError (label p) ;;
       write (path self) (primary_line lb)
  else ret tt.

(** The [with open(self.path, "w+")] block of [write_product]. *)
Definition write_entries (setup : Setup) (self : Product)
  (collection : Collection.t) : M unit :=
  open_write (path self) ;;;
  (if increment setup
   then try_except (copy_previous setup self collection)
          (fun _ => logging ERROR ("-- A previous collection was expected. "
                      ++ "The generated collection might be incorrect."))
   else ret tt) ;;;
  for_each (Collection.product collection) (write_new self).

(** The entries of an inventory in the words of the specification: an
    entry is the line [<P|S>,<LID>::<VID>] ended by CRLF; the new
    inventory has one primary entry for every product that is new in the
    release, in the order of the collection. *)
Definition spec_entry (status lid vid : string) : string :=
  status ++ "," ++ lid ++ "::" ++ vid ++ CRLF.

Definition spec_primary_entries (products : list Product) : list string :=
  flat_map (fun p => match new_product p, label p with
                     | Some true, Some lb =>
                         [spec_entry "P" (PRODUCT_LID lb) (PRODUCT_VID lb)]
                     | _, _ => []
                     end) products.

(** The body of the loop of [validate]; [products_found] is the flag the
    source keeps, and never reads. *)
Definition check_product (self : Product) (products_found : bool)
  (p : Product) : M bool :=
  lines <- read_lines (path self) ;;
  if existsb (Py.contains (lid p)) lines then ret products_found
  else
    logging ERROR ("      Product " ++ lid p
                   ++ " not found. Consider increment re-generation.") ;;;
    ret false.

Definition not_found (p : Product) : entry :=
  (ERROR, "      Product " ++ lid p
          ++ " not found. Consider increment re-generation.").

(** The LID of the product is in no line read from the file. *)
Definition missing (p : Product) (written : list string) : bool :=
  negb (existsb (Py.contains (lid p)) (map universal_newline written)).

Definition InventoryProduct_validate (setup : Setup) (self : Product)
  (collection : Collection.t) : M unit :=
  logging INFO ("-- Validating " ++ name self ++ "...") ;;;
  logging INFO "      Check that all the products are in the collection." ;;;
  _ <- fold_m (Collection.product collection) true (check_product self) ;;
  logging INFO "      OK" ;;;
  logging INFO "" ;;;
  input_if (interactive setup) ">> Press enter to continue...".

Section Inventory.

Variable compare_files : string -> string -> string -> string -> M unit.

Definition InventoryProduct_compare (setup : Setup) (self : Product)
  (collection : Collection.t) : M unit :=
  logging INFO ("-- Comparing " ++ name self ++ "...") ;;;
  (if truthy (path_current self)
   then compare_files (path_current self) (path self)
                      (working_directory setup) (diff setup)
   else
     logging WARNING "-- Comparing with InSight test inventory product." ;;;
     fromfiles <-
       glob (root_dir setup ++ "tests/functional/data/insight/insight_spice/"
             ++ Collection.type collection)
            ("collection_" ++ Collection.name collection ++ "_inventory_")
            ".csv" ;;
     fromfile <- or_raise IndexError (Py.last_item (Py.sorted fromfiles)) ;;
     compare_files fromfile (path self) (working_directory setup)
                   (diff setup)) ;;;
  logging INFO "" ;;;
  input_if (interactive setup) ">> Press enter to continue...".

Definition InventoryProduct_write_product (setup : Setup) (self : Product)
  (collection : Collection.t) : M unit :=
  write_entries setup self collection ;;;
  input_if (interactive setup) ">> Press Enter to continue..." ;;;
  logging INFO ("-- Generated " ++ path self) ;;;
  InventoryProduct_validate setup self collection ;;;
  if truthy (diff setup)
  then InventoryProduct_compare setup self collection
  else ret tt.

(** The version and the previous inventory, as [__init__] determines
    them for a PDS4 archive. *)
Definition inventory_version (setup : Setup) (collection : Collection.t)
  : M (Z * string) :=
  if increment setup
  then
    inventory_files <-
      glob (final_directory setup ++ "/" ++ mission_accronym setup
            ++ "_spice/" ++ "/" ++ Collection.name collection)
           ("collection_" ++ Collection.name collection ++ "_inventory_v")
           ".csv" ;;
    let inventory_files := Py.sorted inventory_files in
    try_except
      (latest_file <- or_raise IndexError (Py.last_item inventory_files) ;;
       let latest_version :=
         Py.first (Py.split (Py.final (Py.split latest_file "_v")) ".") in
       n <- or_raise ValueError (Py.int latest_version) ;;
       logging INFO ("-- Previous inventory file is: " ++ latest_file) ;;;
       logging INFO ("-- Generate version " ++ Py.str (n + 1) ++ ".") ;;;
       ret ((n + 1)%Z, latest_file))
      (fun _ =>
         logging ERROR "-- Previous inventory file not found." ;;;
         logging ERROR "-- Default to version 1." ;;;
         logging ERROR "-- The version of this file might be incorrect." ;;;
         input_if (interactive setup) ">> Press Enter to continue..." ;;;
         ret (1%Z, ""))
  else
    logging WARNING "-- Default to version 1." ;;;
    logging WARNING "-- Make sure this is the first release of the archive." ;;;
    input_if (interactive setup) ">> Press Enter to continue..." ;;;
    ret (1%Z, "").

(** [InventoryProduct.__init__].  Outside PDS4 no version is assigned and
    [product_vid] raises.  The step banner, the size and checksum stamped
    by [Product.__init__] and the label file are left out: the label of an
    inventory defines no [PRODUCT_LID], and the class assigns no
    [new_product]. *)
Definition InventoryProduct (setup : Setup) (collection : Collection.t)
  : M Product :=
  if String.eqb (pds setup) "4"
  then
    vp <- inventory_version setup collection ;;
    let version := fst vp in
    let name := "collection_" ++ Collection.name collection ++ "_inventory_v"
                ++ Py.zfill 3 version ++ ".csv" in
    let self :=
      {| name := name;
         path := staging_directory setup ++ "/" ++ Collection.name collection
                 ++ "/" ++ name;
         lid := InventoryProduct_product_lid setup;
         vid := InventoryProduct_product_vid version;
         version := Some version;
         path_current := snd vp;
         new_product := None;
         label := None |} in
    InventoryProduct_write_product setup self collection ;;;
    ret self
  else raise AttributeError.

End Inventory.

(** *** SpicedsProduct *)

Definition SpicedsProduct_product_lid (setup : Setup) : string :=
  "urn:" ++ national_agency setup ++ ":" ++ archiving_agency setup ++ ":"
  ++ mission_accronym setup ++ ".spice:document:spiceds".

Definition SpicedsProduct_product_vid (version : Z) : string :=
  Py.str version ++ ".0".

End ProductPy.

(** ** The kernel list: [KernelList.validate]
    (src/pds/naif_pds4_bundler/classes/list.py) *)

Module KernelListPy.

Import SetupPy.

(** The attributes of the list object that the validation reads. *)
Record KernelList : Type := {
  list_name : string;
  kernel_list : list string;
  json_formatted_lst : list string
}.

(** [error_message] of classes/log.py, which is not among the sources,
    logs the message as an error and raises. *)
Definition error_message {A : Type} (msg : string) : M A :=
  logging ERROR msg ;;; raise (Exception msg).

(** What the first loop of [validate] accumulates. *)
Record Counts : Type := {
  num_file : Z;
  num_opti : Z;
  num_desc : Z;
  ker_in_list : list string;
  opt_in_list : list string
}.

Definition counts0 : Counts :=
  {| num_file := 0; num_opti := 0; num_desc := 0;
     ker_in_list := []; opt_in_list := [] |}.

(** [line.split("=")[-1].strip()] is a non-empty string. *)
Definition has_value (line : string) : bool :=
  negb (String.eqb (Py.strip (Py.final (Py.split line "="))) "").

(** The body of the loop over the lines of the list. *)
Definition count_line (c : Counts) (line : string) : Counts :=
  if Py.contains "FILE" line && has_value line
  then {| num_file := num_file c + 1;
          num_opti := num_opti c;
          num_desc := num_desc c;
          ker_in_list :=
            (ker_in_list c
             ++ [Py.strip (Py.final (Py.split line "/"))])%list;
          opt_in_list := opt_in_list c |}
  else if Py.contains "OPTIONS" line
  then {| num_file := num_file c;
          num_opti := num_opti c + 1;
          num_desc := num_desc c;
          ker_in_list := ker_in_list c;
          opt_in_list :=
            (opt_in_list c
             ++ filter (fun option => negb (String.eqb option "None"))
                       (Py.split_ws (Py.final (Py.split line "="))))%list |}
  else if Py.contains "DESCRIPTION" line && has_value line
  then {| num_file := num_file c;
          num_opti := num_opti c;
          num_desc := num_desc c + 1;
          ker_in_list := ker_in_list c;
          opt_in_list := opt_in_list c |}
  else c.

Definition count_lines (lines : list string) : Counts :=
  fold_left count_line lines counts0.

Definition balanced (c : Counts) : bool :=
  (num_file c =? num_opti c)%Z && (num_opti c =? num_desc c)%Z.

Definition count_error : string :=
  "List does not have the same number of entries".

(** [check_list_duplicates] of utils/files.py, which is not among the
    sources: some element occurs twice. *)
Fixpoint check_list_duplicates (l : list string) : bool :=
  match l with
  | [] => false
  | x :: l' => existsb (String.eqb x) l' || check_list_duplicates l'
  end.

Definition list_path (setup : Setup) (self : KernelList) : string :=
  working_directory setup ++ "/" ++ list_name self.

Section Validate.

(** The checks of [validate] that follow the check for duplicates: they
    report the presence of the kernels and the options used, look for
    duplicates in the lists of all releases and compare the list with the
    previous one. *)
Variable validate_report : Setup -> KernelList -> Counts -> M unit.

Definition validate (setup : Setup) (self : KernelList) : M unit :=
  lines <- read_lines (list_path setup self) ;;
  let c := count_lines lines in
  (if negb (balanced c)
   then
     logging ERROR (count_error ++ " for:") ;;;
     logging ERROR ("   FILE             (" ++ Py.str (num_file c) ++ ")") ;;;
     logging ERROR ("   MAKLABEL_OPTIONS (" ++ Py.str (num_opti c) ++ ")") ;;;
     logging ERROR ("   DESCRIPTION      (" ++ Py.str (num_desc c) ++ ")") ;;;
     logging ERROR "" ;;;
     logging ERROR ("-- Display " ++ mission_name setup ++ " kernel list "
                    ++ "configuration file to double-check.") ;;;
     for_each (json_formatted_lst self) (logging INFO) ;;;
     logging ERROR "" ;;;
     raise (Exception count_error)
   else ret tt) ;;;
  for_each (ker_in_list c)
    (fun ker => if existsb (String.eqb ker) (kernel_list self) then ret tt
                else error_message ("   " ++ ker ++ " not in list.")) ;;;
  (if check_list_duplicates (ker_in_list c)
   then error_message "List contains duplicates."
   else ret tt) ;;;
  validate_report setup self c.

End Validate.

End KernelListPy.

(** ** The pipeline up to the registration of the kernels: [main]
    (src/pds/naif_pds4_bundler/__main__.py) *)

Module MainPy.

Import SetupPy KernelListPy.

(** A step that acts on the file system and on the log, and not on the
    catalog: what the pipeline does before it creates products. *)
Definition Step (A : Type) : Type :=
  FS -> list entry -> result A * (FS * list entry).

Definition lift {A : Type} (s : Step A) : M A :=
  fun w =>
    match s (w_fs w) (w_log w) with
    | (r, (fs, l)) =>
        (r, {| w_fs := fs; w_log := l; w_catalog := w_catalog w |})
    end.

(** [shutil.copy2(src, dst)], where copying a file onto itself is
    passed over. *)
Definition copy2 (src dst : string) : M unit :=
  fun w =>
    match content (w_fs w) src with
    | Some lines =>
        (Ok tt, {| w_fs := set_content (w_fs w) dst lines;
                   w_log := w_log w;
                   w_catalog := w_catalog w |})
    | None => (Raise FileNotFoundError, w)
    end.

Section Pipeline.

(** The parts of the pipeline taken as given.  Those that run before
    the products are created are steps; the constructors of the products
    are steps too, and the registration of what they build is explicit. *)
Variable check_configuration : Setup -> Step unit.
Variable clear_run : Setup -> Step unit.
Variable read_config : Setup -> Step (list string).
Variable write_plan : Setup -> Step (bool * list string).
Variable read_plan : Setup -> string -> Step (list string).
Variable fill_list : Setup -> list string -> string -> Step unit.
Variable validate_report : Setup -> KernelList -> Counts -> M unit.
Variable prepare_bundle : Setup -> KernelList -> Step unit.
Variable OrbnumFileProduct : Setup -> string -> Step unit.
Variable SpiceKernelProduct : Setup -> string -> Step unit.
Variable rest_of_pipeline : Setup -> KernelList -> M unit.

(** [KernelList.__init__]: the banner, the release identifier and the
    configuration; no kernel is listed yet. *)
Definition KernelList_init (setup : Setup) : M (Setup * KernelList) :=
  let line := "Step " ++ Py.str (Z.of_nat (step setup))
              ++ " - Kernel List generation" in
  logging INFO "" ;;;
  logging INFO line ;;;
  logging INFO (Py.repeat_char "-" (length line)) ;;;
  logging INFO "" ;;;
  (if negb (silent (args setup)) && negb (verbose (args setup))
   then logging STDOUT ("-- " ++ Py.final (Py.split line " - ") ++ ".")
   else ret tt) ;;;
  _ <- or_raise ValueError (Py.int (release setup)) ;;
  json <- lift (read_config setup) ;;
  ret ({| args := args setup;
          step := S (step setup);
          run_type := run_type setup;
          mission_acronym := mission_acronym setup;
          mission_name := mission_name setup;
          bundle_directory := bundle_directory setup;
          working_directory := working_directory setup;
          release := release setup;
          current_release := current_release setup;
          increment := increment setup |},
       {| list_name := ""; kernel_list := []; json_formatted_lst := json |}).

Definition kernel_list_name (setup : Setup) : M string :=
  n <- or_raise ValueError (Py.int (release setup)) ;;
  ret (mission_acronym setup ++ "_" ++ run_type setup ++ "_"
       ++ Py.zfill 2 n ++ ".kernel_list").

(** [write_list] up to its call of [validate]; the list also joins the
    files the setup keeps track of. *)
Definition write_list_file (setup : Setup) (self : KernelList)
  : M KernelList :=
  name <- kernel_list_name setup ;;
  lift (fill_list setup (kernel_list self)
                  (working_directory setup ++ "/" ++ name)) ;;;
  ret {| list_name := name; kernel_list := kernel_list self;
         json_formatted_lst := json_formatted_lst self |}.

(** [read_list] up to its call of [validate]. *)
Definition read_list_file (setup : Setup) (self : KernelList)
  (kerlist : string) : M KernelList :=
  name <- kernel_list_name setup ;;
  let kernel_list := working_directory setup ++ "/" ++ name in
  copy2 kerlist kernel_list ;;;
  lines <- read_lines kernel_list ;;
  ret {| list_name := Py.final (Py.split kernel_list "/");
         kernel_list :=
           map (fun line => Py.drop_last (Py.final (Py.split line "/")))
               (filter (Py.contains "FILE             =") lines);
         json_formatted_lst := json_formatted_lst self |}.

Definition write_list (setup : Setup) (self : KernelList) : M KernelList :=
  self <- write_list_file setup self ;;
  validate validate_report setup self ;;;
  ret self.

Definition read_list (setup : Setup) (self : KernelList) (kerlist : string)
  : M KernelList :=
  self <- read_list_file setup self kerlist ;;
  validate validate_report setup self ;;;
  ret self.

(** The pipeline from the check of the configuration to the release
    plan; [None] when the run ends at a faucet.  The arguments are those
    [main] has put in lower case; the setup and the log objects are
    built. *)
Definition plan_phase (setup0 : Setup) : M (option (Setup * KernelList)) :=
  lift (check_configuration setup0) ;;;
  setup <- set_release setup0 ;;
  (if truthy (clear (args setup)) then lift (clear_run setup) else ret tt) ;;;
  if String.eqb (faucet (args setup)) "clear" then ret None
  else
    sl <- KernelList_init setup ;;
    let setup := fst sl in
    let lst := snd sl in
    planned <-
      (if negb (truthy (kerlist (args setup)))
       then
         if negb (truthy (plan (args setup)))
            || negb (Py.contains ".plan" (plan (args setup)))
         then
           wp <- lift (write_plan setup) ;;
           if negb (fst wp) && String.eqb (faucet (args setup)) "labels"
           then ret None
           else ret (Some (snd wp))
         else
           kernels <- lift (read_plan setup (plan (args setup))) ;;
           ret (Some kernels)
       else ret (Some (kernel_list lst))) ;;
    match planned with
    | None => ret None
    | Some kernels =>
        if String.eqb (faucet (args setup)) "plan" then ret None
        else ret (Some (setup,
                        {| list_name := list_name lst;
                           kernel_list := kernels;
                           json_formatted_lst := json_formatted_lst lst |}))
    end.

(** The list as it is written or read, before it is validated. *)
Definition list_file (setup : Setup) (lst : KernelList) : M KernelList :=
  if negb (truthy (kerlist (args setup)))
  then write_list_file setup lst
  else read_list_file setup lst (kerlist (args setup)).

(** What precedes the validation of the list. *)
Definition before_validation (setup0 : Setup)
  : M (option (Setup * KernelList)) :=
  planned <- plan_phase setup0 ;;
  match planned with
  | None => ret None
  | Some (setup, lst) =>
      lst <- list_file setup lst ;;
      ret (Some (setup, lst))
  end.

(** The loop of [main] over the kernels of the list: every kernel that
    is not a meta-kernel becomes a product and is added to its
    collection. *)
Definition register_kernel (setup : Setup) (kernel : string) : M unit :=
  if Py.contains ".nrb" (Py.lower kernel)
     || Py.contains ".orb" (Py.lower kernel)
  then lift (OrbnumFileProduct setup kernel) ;;;
       register "miscellaneous" kernel
  else if negb (Py.contains ".tm" (Py.lower kernel))
  then lift (SpiceKernelProduct setup kernel) ;;;
       register "spice_kernels" kernel
  else ret tt.

Definition main (setup0 : Setup) : M unit :=
  planned <- plan_phase setup0 ;;
  match planned with
  | None => ret tt
  | Some (setup, lst) =>
      lst <- (if negb (truthy (kerlist (args setup)))
              then write_list setup lst
              else read_list setup lst (kerlist (args setup))) ;;
      if String.eqb (faucet (args setup)) "list" then ret tt
      else
        lift (prepare_bundle setup lst) ;;;
        for_each (kernel_list lst) (register_kernel setup) ;;;
        rest_of_pipeline setup lst
  end.

End Pipeline.

End MainPy.

(** ** The miscellaneous collection: [main] (npb/main.py) *)

Module NpbMainPy.

Import ProductPy.

(** The files of the staging area. *)
Definition staged (setup : Setup) (fs : FS) : FS :=
  filter (fun kv => prefix (normpath (staging_directory setup ++ "/")) (fst kv))
         fs.

(** Modelled from the spec: [ChecksumProduct] of npb/classes/product.py,
    which is not among the sources.  The product is initialised so that
    its name and identifiers are known before its table is generated; it
    is new in the release, and its label gives its LID and VID. *)
Definition ChecksumProduct (setup : Setup) (collection : Collection.t)
  (name lid vid : string) : Product :=
  {| ProductPy.name := name;
     path := staging_directory setup ++ "/" ++ Collection.name collection
             ++ "/checksum/" ++ name;
     ProductPy.lid := lid;
     ProductPy.vid := vid;
     version := None;
     path_current := "";
     new_product := Some true;
     label := Some {| PRODUCT_LID := lid; PRODUCT_VID := vid |} |}.

Section Miscellaneous.

(** [md5] of npb/utils/files.py, the comparison of two files, and
    [bundle.write_readme()], whose label class is not among the
    sources. *)
Variable md5 : list string -> string.
Variable compare_files : string -> string -> string -> string -> M unit.
Variable write_readme : Setup -> M unit.

(** The comparison of two files leaves the second one as it is. *)
Definition compare_keeps : Prop :=
  forall fromfile tofile dir mode,
    keeps tofile (compare_files fromfile tofile dir mode).

(** [bundle.write_readme()] leaves the files of the directory of a
    collection as they are. *)
Definition readme_keeps (setup : Setup) (collection : string) : Prop :=
  forall name,
    keeps (staging_directory setup ++ "/" ++ collection ++ "/" ++ name)
          (write_readme setup).

(** The line of the checksum table for a staged file: its path in the
    staging area and the checksum of its content. *)
Definition checksum_line (setup : Setup) (file : string * list string)
  : string :=
  Py.drop (length (normpath (staging_directory setup ++ "/"))) (fst file)
  ++ " " ++ md5 (snd file) ++ CRLF.

Definition other_than (self : Product) (file : string * list string) : bool :=
  negb (String.eqb (fst file) (normpath (path self))).

(** Modelled from the spec: [ChecksumProduct.generate], which is not
    among the sources.  The table has one line for every file of the
    staging area; it never lists itself. *)
Definition ChecksumProduct_generate (setup : Setup) (self : Product)
  : M unit :=
  fs <- get_fs ;;
  let files := filter (other_than self) (staged setup fs) in
  open_write (path self) ;;;
  for_each files (fun file => write (path self) (checksum_line setup file)).

(** The statements of [main] on the miscellaneous collection.  The
    identifiers of the checksum product are those its constructor
    assigns. *)
Definition miscellaneous_phase (setup : Setup)
  (miscellaneous_collection : Collection.t) (name lid vid : string)
  : M (Collection.t * Product * Product) :=
  let checksum := ChecksumProduct setup miscellaneous_collection name lid vid in
  miscellaneous_collection <- add miscellaneous_collection checksum ;;
  miscellaneous_collection_inventory <-
    InventoryProduct compare_files setup miscellaneous_collection ;;
  miscellaneous_collection <-
    add miscellaneous_collection miscellaneous_collection_inventory ;;
  write_readme setup ;;;
  ChecksumProduct_generate setup checksum ;;;
  miscellaneous_collection <- add miscellaneous_collection checksum ;;
  ret (miscellaneous_collection, checksum, miscellaneous_collection_inventory).

End Miscellaneous.

End NpbMainPy.

(** ** Scenarios *)

Module Scenario.

(** A run of the newer pipeline for the InSight archive, with no
    argument but those given. *)
Definition release_setup (clear kerlist : string) : SetupPy.Setup :=
  {| SetupPy.args := {| SetupPy.clear := clear; SetupPy.kerlist := kerlist;
                        SetupPy.plan := ""; SetupPy.faucet := "";
                        SetupPy.silent := true; SetupPy.verbose := false |};
     SetupPy.step := 2;
     SetupPy.run_type := "release";
     SetupPy.mission_acronym := "insight";
     SetupPy.mission_name := "InSight";
     SetupPy.bundle_directory := "insight";
     SetupPy.working_directory := "working";
     SetupPy.release := "";
     SetupPy.current_release := "";
     SetupPy.increment := false |}.

(** The working directory after release 7; no bundle label is left. *)
Definition after_release_7 : FS :=
  [("working/insight_release_07.kernel_list", []);
   ("working/insight_release_07.plan", [])].

(** A bundle directory with the labels of releases 7 and 8. *)
Definition bundle_of_release_8 : FS :=
  [("insight/insight_spice/bundle_insight_spice_v007.xml", []);
   ("insight/insight_spice/bundle_insight_spice_v008.xml", []);
   ("insight/insight_spice/readme.txt", [])].

(** A bundle directory whose only label has no number in its name. *)
Definition bundle_label_without_number : FS :=
  [("insight/insight_spice/bundle_insight_spice_vNEW.xml", [])].

(** A run of the older pipeline for the InSight archive. *)
Definition setup (increment : bool) : ProductPy.Setup :=
  {| ProductPy.mission_accronym := "insight";
     ProductPy.national_agency := "nasa";
     ProductPy.archiving_agency := "pds";
     ProductPy.root_dir := "npb";
     ProductPy.final_directory := "final";
     ProductPy.staging_directory := "staging";
     ProductPy.working_directory := "working";
     ProductPy.pds := "4";
     ProductPy.increment := increment;
     ProductPy.interactive := false;
     ProductPy.diff := "" |}.

Definition no_compare : string -> string -> string -> string -> M unit :=
  fun _ _ _ _ => ret tt.

Definition kernel_lid (type name : string) : string :=
  ProductPy.SpiceKernelProduct_product_lid (setup false) type name.

(** A kernel as [SpiceKernelProduct] builds it; [new] tells whether it
    was copied to the staging area in this run. *)
Definition kernel (type name : string) (new : bool) : ProductPy.Product :=
  {| ProductPy.name := name;
     ProductPy.path := "staging/spice_kernels/" ++ type ++ "/" ++ name;
     ProductPy.lid := kernel_lid type name;
     ProductPy.vid := ProductPy.SpiceKernelProduct_product_vid;
     ProductPy.version := None;
     ProductPy.path_current := "";
     ProductPy.new_product := Some new;
     ProductPy.label :=
       Some {| ProductPy.PRODUCT_LID := kernel_lid type name;
               ProductPy.PRODUCT_VID := "1.0" |} |}.

Definition spice_kernels (products : list ProductPy.Product)
  : ProductPy.Collection.t :=
  {| ProductPy.Collection.name := "spice_kernels";
     ProductPy.Collection.type := "spice_kernels";
     ProductPy.Collection.product := products |}.

Definition miscellaneous (products : list ProductPy.Product)
  : ProductPy.Collection.t :=
  {| ProductPy.Collection.name := "miscellaneous";
     ProductPy.Collection.type := "miscellaneous";
     ProductPy.Collection.product := products |}.

(** The archive after nine releases of the kernels collection: the
    inventory of version 9 lists one kernel as primary. *)
Definition inventory_v009 : string :=
  "final/insight_spice/spice_kernels/collection_spice_kernels_inventory_v009.csv".

Definition entry_v05 (status : string) : string :=
  status ++ "," ++ kernel_lid "fk" "insight_v05.tf" ++ "::1.0" ++ CRLF.

Definition archive_v009 : FS := [(inventory_v009, [entry_v05 "P"])].

(** The meta-kernel directory of the archive with version 1 and a kept
    copy of version 2. *)
Definition archive_mk : FS :=
  [("final/insight_spice/spice_kernels/mk/insight_v01.tm", []);
   ("final/insight_spice/spice_kernels/mk/insight_v02.bak.tm", [])].

(** The archive with version 9 of the meta-kernel. *)
Definition archive_mk_v009 : FS :=
  [("final/insight_spice/spice_kernels/mk/insight_v009.tm", [])].

(** The inventory of the kernels collection in a first release, as its
    constructor names it. *)
Definition inventory_v001 : ProductPy.Product :=
  {| ProductPy.name := "collection_spice_kernels_inventory_v001.csv";
     ProductPy.path :=
       "staging/spice_kernels/collection_spice_kernels_inventory_v001.csv";
     ProductPy.lid := ProductPy.InventoryProduct_product_lid (setup false);
     ProductPy.vid := "1.0";
     ProductPy.version := Some 1%Z;
     ProductPy.path_current := "";
     ProductPy.new_product := None;
     ProductPy.label := None |}.

(** The two inventories of a first release, built one after the other
    as [main] does. *)
Definition two_inventories : M (ProductPy.Product * ProductPy.Product) :=
  kernels <- ProductPy.InventoryProduct no_compare (setup false)
               (spice_kernels [kernel "fk" "insight_v06.tf" true]) ;;
  misc <- ProductPy.InventoryProduct no_compare (setup false)
            (miscellaneous []) ;;
  ret (kernels, misc).

(** A grammar with a token for the frames kernels and an excluded
    name, and two frames kernels in the staging area. *)
Definition type2extension (kernel_type : string) : list string :=
  if String.eqb kernel_type "lsk" then ["tls"]
  else if String.eqb kernel_type "pck" then ["tpc"; "bpc"]
  else if String.eqb kernel_type "fk" then ["tf"]
  else if String.eqb kernel_type "ik" then ["ti"]
  else if String.eqb kernel_type "sclk" then ["tsc"]
  else if String.eqb kernel_type "spk" then ["bsp"]
  else if String.eqb kernel_type "ck" then ["bc"]
  else if String.eqb kernel_type "dsk" then ["bds"]
  else [].

Definition re_match (pattern name : string) : bool :=
  match Py.split pattern "*" with
  | [pre; post] => fnmatch_star pre post name
  | _ => String.eqb pattern name
  end.

Definition grammar_file : string := "npb/config/insight_metakernel.grammar".

Definition staged_frames (grammar : list string) : FS :=
  [(grammar_file, grammar);
   ("staging/spice_kernels/fk/insight_v08.tf", []);
   ("staging/spice_kernels/fk/insight_v09.tf", [])].

Definition grammar_with_exclude : list string :=
  ["insight_v*.tf" ++ LF; "exclude:insight_v09.tf" ++ LF].

Definition mkgen_kernels : M (list string) :=
  ProductPy.MetaKernelProduct_mkgen_kernels type2extension re_match
    (fun name => name) (fun _ => []) (setup false) "insight_v01.tm".

(** A pipeline whose steps do nothing but give the plan and write a
    kernel list with a [FILE] and a [MAKLABEL_OPTIONS] entry and no
    [DESCRIPTION]. *)
Definition idle {A : Type} (a : A) : MainPy.Step A :=
  fun fs l => (Ok a, (fs, l)).

Definition unbalanced_list : list string :=
  ["FILE             = spice_kernels/fk/insight_v06.tf" ++ LF;
   "MAKLABEL_OPTIONS = " ++ LF].

Definition fill_unbalanced (setup : SetupPy.Setup) (kernels : list string)
  (path : string) : MainPy.Step unit :=
  fun fs l => (Ok tt, (set_content fs path unbalanced_list, l)).

Definition before_validation
  : M (option (SetupPy.Setup * KernelListPy.KernelList)) :=
  MainPy.before_validation (fun _ => idle tt) (fun _ => idle tt)
    (fun _ => idle []) (fun _ => idle (true, ["insight_v06.tf"]))
    (fun _ _ => idle []) fill_unbalanced (release_setup "" "").

Definition main : M unit :=
  MainPy.main (fun _ => idle tt) (fun _ => idle tt)
    (fun _ => idle []) (fun _ => idle (true, ["insight_v06.tf"]))
    (fun _ _ => idle []) fill_unbalanced (fun _ _ _ => ret tt)
    (fun _ _ => idle tt) (fun _ _ => idle tt) (fun _ _ => idle tt)
    (fun _ _ => ret tt) (release_setup "" "").

(** The miscellaneous phase of a first release with one kernel in the
    staging area. *)
Definition md5 (lines : list string) : string :=
  "md5(" ++ String.concat "" lines ++ ")".

Definition checksum_lid : string :=
  "urn:nasa:pds:insight.spice:miscellaneous:checksum_checksum".

Definition miscellaneous_phase
  : M (ProductPy.Collection.t * ProductPy.Product * ProductPy.Product) :=
  NpbMainPy.miscellaneous_phase md5 no_compare (fun _ => ret tt) (setup false)
    (miscellaneous []) "checksum_v001.tab" checksum_lid "1.0".

Definition staged_kernel : FS :=
  [("staging/spice_kernels/fk/insight_v06.tf", ["KPL/FK" ++ LF])].

End Scenario.

(** ** Separators *)

(** A separator has no border when none of its proper prefixes is one of
    its suffixes: two of its occurrences in a string never overlap. *)
Definition border_free (sep : string) : bool :=
  forallb (fun k => negb (String.eqb (Py.take k sep)
                                     (Py.drop (length sep - k) sep)))
          (seq 1 (length sep - 1)).

(** [c in s] for a character. *)
Fixpoint occurs (c : ascii) (s : string) : bool :=
  match s with
  | "" => false
  | String c' s' => Ascii.eqb c c' || occurs c s'
  end.

(** Every character of [s] is a decimal digit. *)
Fixpoint all_digits (s : string) : bool :=
  match s with
  | "" => true
  | String c s' => Py.is_digit c && all_digits s'
  end.

(** ** The bundle: npb/classes/bundle.py *)

Module BundlePy.

(** [self.name] as [Bundle.__init__] assigns it for a PDS4 archive. *)
Definition Bundle_name (mission_accronym release : string) : string :=
  "bundle_" ++ mission_accronym ++ "_spice_v" ++ release ++ ".xml".

(** [Bundle.bundle_vid]: [f'{int(self.setup.release)}.0']. *)
Definition bundle_vid (release : string) : M string :=
  n <- or_raise ValueError (Py.int release) ;;
  ret (Py.str n ++ ".0").

Definition bundle_lid (mission_accronym : string) : string :=
  "urn:nasa:pds:" ++ mission_accronym ++ ".spice".

End BundlePy.

(** ** The entries of the kernel list: [KernelList.write_list]
    (src/pds/naif_pds4_bundler/classes/list.py) *)

Module WriteListPy.

Import KernelListPy.

(** What [write_list] has resolved for a kernel from the configuration
    when it writes its entry: the directory of the kernel in the archive,
    the options, the description, and the mapping when there is one. *)
Record Entry : Type := {
  kerdir : string;
  kernel : string;
  options : string;
  description : string;
  mapping : option string
}.

(** The lines it writes for the kernel. *)
Definition file_line (e : Entry) : string :=
  "FILE             = " ++ kerdir e ++ "/" ++ kernel e ++ LF.

Definition options_line (e : Entry) : string :=
  if String.eqb (options e) "" then "MAKLABEL_OPTIONS =" ++ LF
  else "MAKLABEL_OPTIONS = " ++ options e ++ LF.

Definition description_line (e : Entry) : string :=
  "DESCRIPTION      = " ++ description e ++ LF.

Definition mapping_lines (e : Entry) : list string :=
  match mapping e with
  | Some m => ["MAPPING          = " ++ m ++ LF]
  | None => []
  end.

Definition entry_lines (e : Entry) : list string :=
  [file_line e; options_line e; description_line e] ++ mapping_lines e.

(** The entry of a file that matches no pattern of the configuration. *)
Definition void_entry (kernel : string) : Entry :=
  {| kerdir := "miscellaneous/orbnum"; kernel := kernel;
     options := "VOID"; description := "VOID"; mapping := None |}.

(** The options the validation collects from a line. *)
Definition options_of (line : string) : list string :=
  filter (fun option => negb (String.eqb option "None"))
         (Py.split_ws (Py.final (Py.split line "="))).

(** A line that the validation counts as no entry. *)
Definition neutral (line : string) : Prop :=
  Py.contains "FILE" line = false
  /\ Py.contains "OPTIONS" line = false
  /\ Py.contains "DESCRIPTION" line = false.

(** An entry whose lines are read as what they are: the name of the
    kernel holds no white space and no slash, the [FILE] and the
    [DESCRIPTION] lines have a value, and the words [FILE] and [OPTIONS]
    do not occur in the options, the description or the mapping. *)
Definition listed (e : Entry) : Prop :=
  Py.no_space (kernel e) = true
  /\ occurs "/" (kernel e) = false
  /\ has_value (file_line e) = true
  /\ Py.contains "FILE" (options_line e) = false
  /\ Py.contains "FILE" (description_line e) = false
  /\ Py.contains "OPTIONS" (description_line e) = false
  /\ has_value (description_line e) = true
  /\ forall line, In line (mapping_lines e) -> neutral line.

End WriteListPy.

(** ** Removing files *)

Definition delete (key : string) (fs : FS) : FS :=
  filter (fun kv => negb (String.eqb (fst kv) key)) fs.

(** [os.remove(path)] *)
Definition remove (path : string) : M unit :=
  fun w =>
    match content (w_fs w) path with
    | Some _ =>
        (Ok tt, {| w_fs := delete (normpath path) (w_fs w);
                   w_log := w_log w;
                   w_catalog := w_catalog w |})
    | None => (Raise FileNotFoundError, w)
    end.

(** [os.path.isfile(path)] *)
Definition isfile (fs : FS) (path : string) : bool :=
  match content fs path with
  | Some _ => true
  | None => false
  end.

(** [os.path.exists(path)] for the path of a directory.  The file
    system of the model holds files only: a directory is there while it
    holds a file, so that an empty directory is taken for none. *)
Definition exists_dir (fs : FS) (path : string) : bool :=
  existsb (fun kv => prefix (normpath (path ++ "/")) (fst kv)) fs.

(** A computation only removes when every file it leaves was there
    before with the same content, and the catalog is as it was. *)
Definition only_removes {A : Type} (m : M A) : Prop :=
  forall w r w',
    m w = (r, w') ->
    (forall key v, lookup key (w_fs w') = Some v -> lookup key (w_fs w) = Some v)
    /\ w_catalog w' = w_catalog w.


(** ** The files of a run: [Setup.add_file], [Setup.write_file_list],
    [Setup.clear_run] (src/naif_pds4_bundler/classes/setup.py) *)

Module SetupFilesPy.

Import SetupPy.

(** The setup with the attributes these methods read besides those of
    release resolution. *)
Record Setup : Type := {
  this : SetupPy.Setup;
  staging_directory : string;
  file_list : list string;
  checksum_registry : list string
}.

(** The run type as [Setup.__init__] sets it from the arguments. *)
Definition run_type_of (args : Args) : string :=
  if String.eqb (faucet args) "labels"
     || (String.eqb (faucet args) "clear" && Py.contains "_labels_" (clear args))
  then "labels" else "release".

Definition add_file (self : Setup) (file : string) : Setup :=
  {| this := this self;
     staging_directory := staging_directory self;
     file_list := (file_list self ++ [file])%list;
     checksum_registry := checksum_registry self |}.

Definition add_checksum (self : Setup) (path checksum : string) : Setup :=
  {| this := this self;
     staging_directory := staging_directory self;
     file_list := file_list self;
     checksum_registry :=
       List.app (checksum_registry self) [path ++ " " ++ checksum] |}.

(** The path of a by-product of the run with the given extension. *)
Definition byproduct_path (self : Setup) (n : Z) (extension : string)
  : string :=
  working_directory (this self) ++ "/" ++ mission_acronym (this self) ++ "_"
  ++ run_type (this self) ++ "_" ++ Py.zfill 2 n ++ extension.


Definition write_checksum_regsitry (self : Setup) : M unit :=
  match checksum_registry self with
  | [] => ret tt
  | _ =>
      n <- or_raise ValueError (Py.int (release (this self))) ;;
      let path := byproduct_path self n ".checksum" in
      open_write path ;;;
      for_each (checksum_registry self)
               (fun element => write path (element ++ LF))
  end.

(** A line of the file list that names a product, not a by-product of
    the run. *)
Definition product_line (line : string) : bool :=
  negb (Py.contains ".plan" line) && negb (Py.contains ".kernel_list" line).

(** The body of the first loop of [clear_run], over the staging area. *)
Definition clear_staged (path line : string) : M unit :=
  if product_line line
  then
    let stag_file := path ++ "/" ++ Py.strip line in
    try_except (remove stag_file)
      (fun _ => logging WARNING ("     File " ++ stag_file ++ " not found."))
  else ret tt.

(** The body of the second loop, over the final area. *)
Definition clear_final (self : Setup) (path line : string) : M unit :=
  if product_line line
  then
    try_except
      (fs <- get_fs ;;
       if negb (exists_dir fs path)
       then remove (bundle_directory (this self)
                    ++ Py.strip (Py.final (Py.split line "spice_kernels")))
       else remove (path ++ Py.strip line))
      (fun _ => logging WARNING ("     File " ++ Py.strip line
                                 ++ " not found."))
  else ret tt.

(** The name of the by-product a line names. *)
Definition byproduct (line : string) : string :=
  Py.drop_last (Py.final (Py.split line "/")).

(** The body of the third loop, over the working directory. *)
Definition clear_byproduct (path line : string) : M unit :=
  try_except
    (if Py.contains ".plan" line || Py.contains ".kernel_list" line
     then
       logging INFO ("-- Removing previous run by-product: "
                     ++ byproduct line ++ ".") ;;;
       remove (path ++ "/" ++ byproduct line)
     else ret tt)
    (fun _ => logging WARNING ("     File " ++ byproduct line
                               ++ " not found.")).

(** The final area of the archive. *)
Definition final_area (self : Setup) : string :=
  bundle_directory (this self) ++ "/" ++ mission_acronym (this self)
  ++ "_spice/".

Definition clear_run (self : Setup) (debug : bool) : M unit :=
  (if debug
   then logging WARNING
          "-- Running in DEBUG mode, by-product files are not cleaned up."
   else ret tt) ;;;
  fs <- get_fs ;;
  if isfile fs (clear (args (this self)))
  then
    let path := staging_directory self in
    logging INFO ("-- Removing files from staging area: " ++ path ++ ".") ;;;
    c <- read_lines (clear (args (this self))) ;;
    for_each c (clear_staged path) ;;;
    let path := final_area self in
    logging INFO ("-- Removing files from final area: " ++ path ++ ".") ;;;
    c <- read_lines (clear (args (this self))) ;;
    for_each c (clear_final self path) ;;;
    let path := working_directory (this self) in
    c <- read_lines (clear (args (this self))) ;;
    for_each c (clear_byproduct path)
  else
    KernelListPy.error_message
      ("The file provided with the " ++ String "034" "clear"
       ++ String "034" " argument does "
       ++ "not exist or is not readable. Make sure that the "
       ++ "file follows the name pattern: "
       ++ mission_acronym (this self) ++ "_" ++ run_type (this self)
       ++ "_NN.file_list."
       ++ " where NN is the release number").


End SetupFilesPy.

(** ** Labels: [InventoryPDS4Label]
    (src/naif_pds4_bundler/classes/label.py) *)

Module LabelPy.

(** The attributes of a product of the collection that the label of the
    inventory reads. *)
Record Product : Type := {
  name : string;
  start_time : string;
  stop_time : string
}.

(** [START_TIME] and [STOP_TIME] as [InventoryPDS4Label.__init__] assigns
    them: for the miscellaneous collection, from the checksum products of
    the collection; for the others, the times of the increment. *)
Definition inventory_times (collection_name : string)
  (products : list Product) (increment_start increment_finish : string)
  : M (string * string) :=
  if String.eqb collection_name "miscellaneous"
  then
    let checksums :=
      filter (fun product => Py.contains "checksum" (name product)) products in
    let start_times := Py.sorted (map start_time checksums) in
    let stop_times := Py.sorted (map stop_time checksums) in
    start <- or_raise IndexError (hd_error start_times) ;;
    stop <- or_raise IndexError (Py.last_item stop_times) ;;
    ret (start, stop)
  else ret (increment_start, increment_finish).

End LabelPy.

(** ** The description of a product: [Product.get_description]
    (npb/classes/product.py) *)

Module ProductBasePy.

Import ProductPy.

(** The body of the loop over the lines of the kernel list: the flag
    [get_descr] and the description found so far, where the empty string
    stands for [False]. *)
Definition describe (name : string) (st : bool * string) (line : string)
  : bool * string :=
  let get_descr := if Py.contains name line then true else fst st in
  if get_descr && Py.contains "DESCRIPTION" line
  then (false, Py.strip (Py.final (Py.split line "=")))
  else (get_descr, snd st).

(** The release is an attribute of the setup. *)
Definition kernel_list_file (setup : Setup) (release : Z) : string :=
  working_directory setup ++ "/" ++ mission_accronym setup ++ "_release_"
  ++ Py.zfill 2 release ++ ".kernel_list".

Definition get_description (setup : Setup) (release name : string)
  : M string :=
  n <- or_raise ValueError (Py.int release) ;;
  lines <- read_lines (kernel_list_file setup n) ;;
  let description := snd (fold_left (describe name) lines (false, "")) in
  if String.eqb description ""
  then KernelListPy.error_message
         (name ++ " does not have a description on "
          ++ kernel_list_file setup n)
  else ret description.

End ProductBasePy.

(** ** The release plan: the next meta-kernel, [KernelList.write_plan]
    (src/pds/naif_pds4_bundler/classes/list.py) *)

Module WritePlanPy.

(** The digits a string starts with. *)
Fixpoint take_digits (s : string) : string :=
  match s with
  | "" => ""
  | String c s' => if Py.is_digit c then String c (take_digits s') else ""
  end.

(** [re.findall(r"_v[0-9]+", s)[0]]: the first [_v] that digits follow,
    with all the digits that follow it; [None] stands for [IndexError]. *)
Fixpoint first_version (s : string) : option string :=
  match s with
  | "" => None
  | String _ s' =>
      if prefix "_v" s && negb (String.eqb (take_digits (Py.drop 2 s)) "")
      then Some ("_v" ++ take_digits (Py.drop 2 s))
      else first_version s'
  end.

(** The name [write_plan] gives to the meta-kernel of the release, from
    the name of the latest meta-kernel of the bundle directory. *)
Definition next_meta_kernel (mk_name : string) : M string :=
  version <- or_raise IndexError (first_version mk_name) ;;
  n <- or_raise ValueError (Py.int (Py.drop 2 version)) ;;
  let new_version := "_v" ++ Py.zfill (length version - 2) (n + 1) in
  ret (Py.first (Py.split mk_name version) ++ new_version
       ++ Py.final (Py.split mk_name version)).

End WritePlanPy.

(** ** The version of the SPICEDS document: [SpicedsProduct.__init__]
    (npb/classes/product.py) *)

Module SpicedsProductPy.

Import ProductPy.

(** The directory of the collection in the final area. *)
Definition collection_path (setup : Setup) (collection : Collection.t)
  : string :=
  final_directory setup ++ "/" ++ mission_accronym setup ++ "_spice" ++ "/"
  ++ Collection.name collection.

(** The version and the latest document of the archive, as [__init__]
    determines them. *)
Definition SpicedsProduct_version (setup : Setup) (collection : Collection.t)
  : M (Z * string) :=
  if increment setup
  then
    spiceds_files <- glob (collection_path setup collection) "spiceds_v"
                          ".html" ;;
    let spiceds_files := Py.sorted spiceds_files in
    try_except
      (latest_spiceds <- or_raise IndexError (Py.last_item spiceds_files) ;;
       let latest_version :=
         Py.first (Py.split (Py.final (Py.split latest_spiceds "_v")) ".") in
       n <- or_raise ValueError (Py.int latest_version) ;;
       ret ((n + 1)%Z, latest_spiceds))
      (fun _ =>
         logging ERROR ("-- No previous version of spiceds_v*.html file "
                        ++ "found. Generated file might be incorrect.") ;;;
         ret (1%Z, ""))
  else ret (1%Z, "").

(** [self.name]: ['spiceds_v{0:0=3d}.html'.format(self.version)]. *)
Definition SpicedsProduct_name (version : Z) : string :=
  "spiceds_v" ++ Py.zfill 3 version ++ ".html".

End SpicedsProductPy.

(** ** The records of a kernel list, as the specification counts them *)

Module ManifestSpec.



End ManifestSpec.

(** ** More scenarios *)

Module Samples.

(** A run of the newer pipeline for release 8 of the InSight archive. *)
Definition release_8 (clear kerlist faucet : string) : SetupPy.Setup :=
  {| SetupPy.args := {| SetupPy.clear := clear; SetupPy.kerlist := kerlist;
                        SetupPy.plan := ""; SetupPy.faucet := faucet;
                        SetupPy.silent := true; SetupPy.verbose := false |};
     SetupPy.step := 3;
     SetupPy.run_type := "release";
     SetupPy.mission_acronym := "insight";
     SetupPy.mission_name := "InSight";
     SetupPy.bundle_directory := "insight";
     SetupPy.working_directory := "working";
     SetupPy.release := "008";
     SetupPy.current_release := "007";
     SetupPy.increment := true |}.

(** A kernel list with a header, the entry of a frames kernel and the
    entry of an orbit number file. *)
Definition list_header : list string :=
  ["DATE = 2021-04-04" ++ LF; "SPACECRAFT = InSight" ++ LF].

Definition fk_entry : WriteListPy.Entry :=
  {| WriteListPy.kerdir := "spice_kernels/fk";
     WriteListPy.kernel := "insight_v06.tf";
     WriteListPy.options := "--Def_times";
     WriteListPy.description := "InSight frames kernel.";
     WriteListPy.mapping := None |}.

Definition list_entries : list WriteListPy.Entry :=
  [fk_entry; WriteListPy.void_entry "insight.orb"].

Definition written_list : list string :=
  (list_header ++ flat_map WriteListPy.entry_lines list_entries)%list.

Definition kernel_list_8 (kernels : list string) : KernelListPy.KernelList :=
  {| KernelListPy.list_name := "insight_release_08.kernel_list";
     KernelListPy.kernel_list := kernels;
     KernelListPy.json_formatted_lst := [] |}.

Definition working_list : FS :=
  [("working/insight_release_08.kernel_list", written_list)].

(** The run that clears release 8: its file list names a kernel, its
    label and the two by-products of the run. *)
Definition file_list_8 : list string :=
  ["spice_kernels/fk/insight_v06.tf"; "spice_kernels/fk/insight_v06.xml";
   "/working_directory/insight_release_08.plan";
   "/working_directory/insight_release_08.kernel_list"].

Definition clear_8 (files : list string) : SetupFilesPy.Setup :=
  {| SetupFilesPy.this :=
       release_8 "working/insight_release_08.file_list" "" "clear";
     SetupFilesPy.staging_directory := "staging/insight_spice";
     SetupFilesPy.file_list := files;
     SetupFilesPy.checksum_registry := [] |}.

Definition areas_of_release_8 : FS :=
  [("staging/insight_spice/spice_kernels/fk/insight_v06.tf", ["KPL/FK" ++ LF]);
   ("insight/insight_spice/spice_kernels/fk/insight_v05.tf", ["KPL/FK" ++ LF]);
   ("insight/insight_spice/spice_kernels/fk/insight_v06.tf", ["KPL/FK" ++ LF]);
   ("working/insight_release_08.plan", ["insight_v06.tf" ++ LF]);
   ("working/insight_release_08.kernel_list", written_list)].

Definition run_of_release_8 : FS :=
  ("working/insight_release_08.file_list",
   map (fun file => file ++ LF) file_list_8) :: areas_of_release_8.

(** The run that clears the third run that only labelled kernels. *)
Definition clear_labels_3 : SetupFilesPy.Setup :=
  let args :=
    {| SetupPy.clear := "working/insight_labels_03.file_list";
       SetupPy.kerlist := ""; SetupPy.plan := ""; SetupPy.faucet := "clear";
       SetupPy.silent := true; SetupPy.verbose := false |} in
  {| SetupFilesPy.this :=
       {| SetupPy.args := args;
          SetupPy.step := 1;
          SetupPy.run_type := SetupFilesPy.run_type_of args;
          SetupPy.mission_acronym := "insight";
          SetupPy.mission_name := "InSight";
          SetupPy.bundle_directory := "insight";
          SetupPy.working_directory := "working";
          SetupPy.release := "";
          SetupPy.current_release := "";
          SetupPy.increment := false |};
     SetupFilesPy.staging_directory := "staging/insight_spice";
     SetupFilesPy.file_list := [];
     SetupFilesPy.checksum_registry := [] |}.

(** A pipeline whose steps do nothing but give the plan and write the
    kernel list above. *)
Definition fill_written (setup : SetupPy.Setup) (kernels : list string)
  (path : string) : MainPy.Step unit :=
  fun fs l => (Ok tt, (set_content fs path written_list, l)).

Definition run_until (faucet : string) : M unit :=
  MainPy.main (fun _ => Scenario.idle tt) (fun _ => Scenario.idle tt)
    (fun _ => Scenario.idle [])
    (fun _ => Scenario.idle (true, ["insight_v06.tf"; "insight.orb"]))
    (fun _ _ => Scenario.idle []) fill_written (fun _ _ _ => ret tt)
    (fun _ _ => Scenario.idle tt) (fun _ _ => Scenario.idle tt)
    (fun _ _ => Scenario.idle tt) (fun _ _ => ret tt)
    (release_8 "" "" faucet).




(** A run whose working directory has a dot in its name, after release
    7, with a bundle label that has no number in its name. *)
Definition setup_in (working_directory : string) : SetupPy.Setup :=
  {| SetupPy.args := SetupPy.args (Scenario.release_setup "" "");
     SetupPy.step := 2;
     SetupPy.run_type := "release";
     SetupPy.mission_acronym := "insight";
     SetupPy.mission_name := "InSight";
     SetupPy.bundle_directory := "insight";
     SetupPy.working_directory := working_directory;
     SetupPy.release := "";
     SetupPy.current_release := "";
     SetupPy.increment := false |}.

Definition dotted_after_release_7 : FS :=
  (Scenario.bundle_label_without_number
   ++ [("7.d/insight_release_07.kernel_list", [])])%list.

End Samples.

(** * Properties *)

(** ** The Python primitives on examples *)

Example split_pieces : Py.split "a/b.c/d" "/" = ["a"; "b.c"; "d"].
Proof. reflexivity. Qed.

Example split_separator_of_several_characters :
  Py.split "x_spice_v008.xml" "_spice_v" = ["x"; "008.xml"].
Proof. reflexivity. Qed.

Example split_without_separator : Py.split "abc" "zz" = ["abc"].
Proof. reflexivity. Qed.

Example replace_every_occurrence :
  Py.replace "inv_v010.csv" "10" "9" = "inv_v09.csv"
  /\ Py.replace "a1b1" "1" "22" = "a22b22".
Proof. split; reflexivity. Qed.

Example int_accepts_and_rejects :
  Py.int " 0_08 " = Some 8%Z /\ Py.int "-05" = Some (-5)%Z
  /\ Py.int "8a" = None /\ Py.int "" = None /\ Py.int "5_" = None
  /\ Py.int "working/insight_release_07" = None.
Proof. repeat split; reflexivity. Qed.

Example zfill_pads :
  Py.zfill 3 8 = "008" /\ Py.zfill 3 (-5) = "-05"
  /\ Py.zfill 3 1234 = "1234" /\ Py.zfill 3 0 = "000".
Proof. repeat split; reflexivity. Qed.

Example sorted_by_code_point : Py.sorted ["b"; "a10"; "a9"] = ["a10"; "a9"; "b"].
Proof. reflexivity. Qed.

Example fromkeys_keeps_first :
  Py.fromkeys ["a"; "b"; "a"; "c"; "b"] = ["a"; "b"; "c"].
Proof. reflexivity. Qed.

Example glob_selects :
  glob_fs Scenario.archive_mk "final/insight_spice/spice_kernels/mk"
          "insight_v02." ".tm"
  = ["final/insight_spice/spice_kernels/mk/insight_v02.bak.tm"]
  /\ listdir Scenario.archive_v009 "final/insight_spice//spice_kernels"
     = ["collection_spice_kernels_inventory_v009.csv"].
Proof. split; reflexivity. Qed.

(** ** Quiet computations *)

Section Quiet.

Context {A B : Type}.

Lemma quiet_ret (a : A) : quiet (ret a).
Proof.
  intros w r w' H. inversion H; subst.
  repeat split. exists []. now rewrite app_nil_r.
Qed.

Lemma quiet_raise (e : exn) : quiet (@raise A e).
Proof.
  intros w r w' H. inversion H; subst.
  repeat split. exists []. now rewrite app_nil_r.
Qed.

Lemma quiet_or_raise (e : exn) (o : option A) : quiet (or_raise e o).
Proof. destruct o; [apply quiet_ret | apply quiet_raise]. Qed.

Lemma quiet_bind (m : M A) (k : A -> M B) :
  quiet m -> (forall a, quiet (k a)) -> quiet (bind m k).
Proof.
  intros Hm Hk w r w' H. unfold bind in H.
  destruct (m w) as [[a|e] w1] eqn:E.
  - destruct (Hm _ _ _ E) as (F1 & C1 & l1 & L1).
    destruct (Hk a _ _ _ H) as (F2 & C2 & l2 & L2).
    repeat split; try congruence.
    exists (l1 ++ l2)%list. rewrite L2, L1. now rewrite app_assoc.
  - inversion H; subst. destruct (Hm _ _ _ E) as (F1 & C1 & l1 & L1).
    repeat split; auto. now exists l1.
Qed.

Lemma quiet_try_except (m : M A) (h : exn -> M A) :
  quiet m -> (forall e, quiet (h e)) -> quiet (try_except m h).
Proof.
  intros Hm Hh w r w' H. unfold try_except in H.
  destruct (m w) as [[a|e] w1] eqn:E.
  - inversion H; subst. eauto.
  - destruct (Hm _ _ _ E) as (F1 & C1 & l1 & L1).
    destruct (Hh e _ _ _ H) as (F2 & C2 & l2 & L2).
    repeat split; try congruence.
    exists (l1 ++ l2)%list. rewrite L2, L1. now rewrite app_assoc.
Qed.

Lemma quiet_if (b : bool) (m1 m2 : M A) :
  quiet m1 -> quiet m2 -> quiet (if b then m1 else m2).
Proof. now destruct b. Qed.

End Quiet.

Lemma quiet_logging lv msg : quiet (logging lv msg).
Proof.
  intros w r w' H. inversion H; subst. simpl.
  repeat split. now exists [(lv, msg)].
Qed.

Lemma quiet_get_fs : quiet get_fs.
Proof.
  intros w r w' H. inversion H; subst.
  repeat split. exists []. now rewrite app_nil_r.
Qed.

Lemma quiet_glob dir pre post : quiet (glob dir pre post).
Proof.
  intros w r w' H. inversion H; subst.
  repeat split. exists []. now rewrite app_nil_r.
Qed.

Lemma quiet_read_lines path : quiet (read_lines path).
Proof.
  intros w r w' H. unfold read_lines in H.
  destruct (content (w_fs w) path); inversion H; subst;
    repeat split; exists []; now rewrite app_nil_r.
Qed.

Lemma quiet_input_if b prompt : quiet (input_if b prompt).
Proof. destruct b; [apply quiet_logging | apply quiet_ret]. Qed.

Lemma quiet_for_each {A : Type} (l : list A) (body : A -> M unit) :
  (forall x, quiet (body x)) -> quiet (for_each l body).
Proof.
  intros Hb. induction l as [|x l IH]; simpl.
  - apply quiet_ret.
  - apply quiet_bind; auto.
Qed.

Lemma quiet_fold_m {A B : Type} (l : list A) (f : B -> A -> M B) :
  (forall acc x, quiet (f acc x)) -> forall acc, quiet (fold_m l acc f).
Proof.
  intros Hf. induction l as [|x l IH]; intros acc; simpl.
  - apply quiet_ret.
  - apply quiet_bind; auto.
Qed.

Create HintDb quiet.

#[local] Hint Resolve quiet_ret quiet_raise quiet_or_raise quiet_logging
  quiet_get_fs quiet_glob quiet_read_lines quiet_input_if : quiet.

Ltac quiet_step :=
  first
    [ apply quiet_bind
    | apply quiet_try_except
    | apply quiet_for_each
    | apply quiet_fold_m
    | apply quiet_if
    | solve [auto with quiet]
    | match goal with |- forall _, _ => intro end ].

Ltac quiet_auto := repeat quiet_step.


(** ** Strings *)

Lemma length_append : forall s t, length (s ++ t) = (length s + length t)%nat.
Proof. induction s; simpl; auto. Qed.

Lemma drop_append : forall s t, Py.drop (length s) (s ++ t) = t.
Proof. induction s; simpl; auto. Qed.

Lemma endswith_append : forall s t, Py.endswith (s ++ t) t = true.
Proof.
  intros s t. unfold Py.endswith. rewrite length_append.
  replace (length s + length t - length t)%nat with (length s) by lia.
  rewrite drop_append, String.eqb_refl.
  destruct (Nat.leb_spec (length t) (length s + length t)); [reflexivity|lia].
Qed.

Lemma append_assoc : forall s t u : string, (s ++ t) ++ u = s ++ t ++ u.
Proof. induction s; simpl; intros; [reflexivity|now rewrite IHs]. Qed.

(** A line that ends in CRLF is left as it is. *)
Lemma add_carriage_return_crlf : forall s,
  ProductPy.add_carriage_return (s ++ CRLF) = s ++ CRLF.
Proof.
  intros s. unfold ProductPy.add_carriage_return.
  now rewrite endswith_append.
Qed.


(** ** Numbers written and read back *)

Lemma rstrip_no_space : forall s, Py.no_space s = true -> Py.rstrip s = s.
Proof.
  induction s as [|c s IH]; simpl; intros H; [reflexivity|].
  apply andb_true_iff in H. destruct H as (Hc & Hs).
  rewrite (IH Hs). apply negb_true_iff in Hc. rewrite Hc.
  now destruct s.
Qed.

Lemma lstrip_no_space : forall s, Py.no_space s = true -> Py.lstrip s = s.
Proof.
  destruct s as [|c s]; simpl; intros H; [reflexivity|].
  apply andb_true_iff in H. destruct H as (Hc & _).
  apply negb_true_iff in Hc. now rewrite Hc.
Qed.

Lemma strip_no_space : forall s, Py.no_space s = true -> Py.strip s = s.
Proof.
  intros s H. unfold Py.strip. rewrite (rstrip_no_space s H).
  now apply lstrip_no_space.
Qed.

Lemma no_space_append : forall s t,
  Py.no_space s = true -> Py.no_space t = true -> Py.no_space (s ++ t) = true.
Proof.
  induction s as [|c s IH]; simpl; intros t Hs Ht; [assumption|].
  apply andb_true_iff in Hs. destruct Hs as (Hc & Hs).
  rewrite Hc. simpl. now apply IH.
Qed.

Lemma no_space_zeros : forall k, Py.no_space (Py.zeros k) = true.
Proof. induction k; simpl; auto. Qed.

Lemma no_space_uint : forall d,
  Py.no_space (NilEmpty.string_of_uint d) = true.
Proof. induction d; simpl; auto. Qed.

Lemma digits_digit : forall c s acc b,
  Py.is_digit c = true ->
  Py.digits (String c s) acc b = Py.digits s (acc * 10 + Py.digit_val c) true.
Proof. intros c s acc b H. cbn [Py.digits]. now rewrite H. Qed.

(** The digits of a decimal number, read after a digit with a positive
    value so far. *)
Lemma digits_uint_acc : forall d p,
  Py.digits (NilEmpty.string_of_uint d) (Z.pos p) true
  = Some (Z.pos (Pos.of_uint_acc d p)).
Proof.
  induction d; intros p; [reflexivity| ..];
    cbn [NilEmpty.string_of_uint Pos.of_uint_acc];
    rewrite digits_digit by reflexivity;
    vm_compute (Py.digit_val _);
    match goal with
    | |- Py.digits _ ?a true = Some (Z.pos (Pos.of_uint_acc _ ?q)) =>
        replace a with (Z.pos q) by lia
    end; apply IHd.
Qed.

Lemma digits_uint : forall d b,
  Py.digits (NilEmpty.string_of_uint d) 0 b
  = match d with
    | Decimal.Nil => if b then Some 0%Z else None
    | _ => Some (Z.of_uint d)
    end.
Proof.
  induction d; intros b; [reflexivity| ..];
    cbn [NilEmpty.string_of_uint]; rewrite digits_digit by reflexivity;
    vm_compute (0 * 10 + Py.digit_val _)%Z;
    [rewrite IHd; unfold Z.of_uint; cbn [Pos.of_uint]; now destruct d| ..];
    unfold Z.of_uint; cbn [Pos.of_uint Z.of_N]; apply digits_uint_acc.
Qed.

Lemma digits_zeros : forall k s b,
  Py.digits (Py.zeros k ++ s) 0 b
  = Py.digits s 0 (match k with O => b | S _ => true end).
Proof.
  induction k as [|k IH]; intros s b; [reflexivity|].
  cbn [Py.zeros append]. rewrite digits_digit by reflexivity.
  vm_compute (0 * 10 + Py.digit_val _)%Z.
  rewrite IH. now destruct k.
Qed.

(** [str] of a number that is not negative: its decimal digits, at least
    one. *)
Lemma str_nonnegative : forall n, (0 <= n)%Z ->
  exists d, d <> Decimal.Nil
            /\ Py.str n = NilEmpty.string_of_uint d /\ Z.of_uint d = n.
Proof.
  intros [|p|p] H; [| |lia].
  - exists (Decimal.D0 Decimal.Nil). repeat split. discriminate.
  - exists (Pos.to_uint p). split; [|split].
    + intros E. pose proof (DecimalPos.Unsigned.of_to p) as Hp.
      rewrite E in Hp. discriminate.
    + unfold Py.str. simpl. unfold NilZero.string_of_uint.
      destruct (Pos.to_uint p) eqn:E; try reflexivity.
      pose proof (DecimalPos.Unsigned.of_to p) as Hp.
      rewrite E in Hp. discriminate.
    + unfold Z.of_uint. now rewrite DecimalPos.Unsigned.of_to.
Qed.

Lemma int_digits : forall s,
  Py.no_space s = true ->
  (exists c r, s = String c r /\ Py.is_digit c = true) ->
  Py.int s = Py.digits s 0 false.
Proof.
  intros s Hs (c & r & -> & Hc). unfold Py.int. rewrite (strip_no_space _ Hs).
  destruct c as [[|] [|] [|] [|] [|] [|] [|] [|]]; try discriminate Hc;
    reflexivity.
Qed.

Lemma digits_padded : forall k d,
  d <> Decimal.Nil ->
  Py.digits (Py.zeros k ++ NilEmpty.string_of_uint d) 0 false
  = Some (Z.of_uint d).
Proof.
  intros k d Hd. rewrite digits_zeros, digits_uint.
  destruct d; [contradiction| ..]; reflexivity.
Qed.

Lemma padded_starts_with_digit : forall k d,
  d <> Decimal.Nil ->
  exists c r, Py.zeros k ++ NilEmpty.string_of_uint d = String c r
              /\ Py.is_digit c = true.
Proof.
  intros k d Hd. destruct k; simpl.
  - destruct d; [contradiction| ..]; simpl; eexists; eexists; split;
      reflexivity.
  - eexists; eexists; split; reflexivity.
Qed.

(** A number formatted with zero padding is read back by [int]. *)
Lemma int_zfill : forall w n, Py.int (Py.zfill w n) = Some n.
Proof.
  intros w n. unfold Py.zfill.
  destruct (Z.ltb_spec n 0) as [Hn|Hn].
  - destruct (str_nonnegative (- n)%Z) as (d & Hd & Hs & Hv); [lia|].
    rewrite Hs. unfold Py.int.
    rewrite strip_no_space.
    + rewrite digits_padded by assumption. simpl. f_equal. lia.
    + simpl. apply no_space_append; [apply no_space_zeros|apply no_space_uint].
  - destruct (str_nonnegative n Hn) as (d & Hd & Hs & Hv).
    rewrite Hs. rewrite int_digits.
    + rewrite digits_padded by assumption. now rewrite Hv.
    + apply no_space_append; [apply no_space_zeros|apply no_space_uint].
    + now apply padded_starts_with_digit.
Qed.

(** ** Files *)

Lemma lookup_update_same : forall k v fs, lookup k (update k v fs) = Some v.
Proof.
  intros k v fs. induction fs as [|[k' v'] fs IH]; simpl.
  - now rewrite String.eqb_refl.
  - destruct (String.eqb k' k) eqn:E; simpl; rewrite E; auto.
Qed.

Lemma lookup_update_other : forall k k' v fs,
  k <> k' -> lookup k' (update k v fs) = lookup k' fs.
Proof.
  intros k k' v fs Hne. induction fs as [|[k0 v0] fs IH]; simpl.
  - destruct (String.eqb_spec k k'); [contradiction|reflexivity].
  - destruct (String.eqb_spec k0 k); simpl.
    + subst. destruct (String.eqb_spec k k'); [contradiction|reflexivity].
    + destruct (String.eqb_spec k0 k'); auto.
Qed.

Lemma content_set_content_same : forall fs p v,
  content (set_content fs p v) p = Some v.
Proof. intros. apply lookup_update_same. Qed.

Lemma content_set_content_other : forall fs p q v,
  normpath p <> normpath q -> content (set_content fs p v) q = content fs q.
Proof. intros. now apply lookup_update_other. Qed.

(** A file that is written to line by line holds, in the end, what it
    held and the lines written; the other files, the log and the catalog
    are as they were. *)
Lemma for_each_write : forall (A : Type) (f : A -> string) p (l : list A) w old,
  content (w_fs w) p = Some old ->
  exists w',
    for_each l (fun x => write p (f x)) w = (Ok tt, w')
    /\ content (w_fs w') p = Some (old ++ map f l)%list
    /\ (forall q, normpath p <> normpath q ->
                  content (w_fs w') q = content (w_fs w) q)
    /\ w_log w' = w_log w /\ w_catalog w' = w_catalog w.
Proof.
  intros A f p l. induction l as [|x l IH]; intros w old Hc; simpl.
  - exists w. rewrite app_nil_r. repeat split; auto.
  - unfold bind, write at 1. rewrite Hc.
    match goal with
    | |- context [for_each l _ ?w1] =>
        destruct (IH w1 (old ++ [f x])%list) as (w' & Hr & Hp & Hq & Hl & Hcat)
    end.
    { simpl. apply content_set_content_same. }
    exists w'. rewrite Hr. split; [reflexivity|].
    rewrite <- app_assoc in Hp. split; [exact Hp|].
    split; [|split; [exact Hl | exact Hcat]].
    intros q Hne. rewrite (Hq q Hne). simpl.
    now apply content_set_content_other.
Qed.

(** ** Paths *)

Lemma norm_go_append : forall s t b,
  norm_go b (s ++ t) = norm_go b s ++ norm_go (end_slash b s) t.
Proof.
  induction s as [|c s IH]; intros t b; simpl; [reflexivity|].
  destruct (Ascii.eqb c "/"); [destruct b|]; simpl; now rewrite IH.
Qed.

Lemma end_slash_append : forall s t b,
  end_slash b (s ++ t) = end_slash (end_slash b s) t.
Proof. induction s as [|c s IH]; intros t b; simpl; auto. Qed.

Lemma append_inv_head : forall s t u : string, s ++ t = s ++ u -> t = u.
Proof.
  induction s as [|c s IH]; intros t u H; simpl in H; [assumption|].
  inversion H. auto.
Qed.

Lemma prefix_append : forall s t, prefix s (s ++ t) = true.
Proof.
  induction s as [|c s IH]; intros t; simpl; [now destruct t|].
  destruct (ascii_dec c c); [apply IH|contradiction].
Qed.

(** The directory of a collection in the staging area, and a file in
    it: the path of the file is normalised piece by piece. *)
Lemma normpath_in_directory : forall dir name rest,
  normpath (dir ++ "/" ++ name ++ "/" ++ rest)
  = normpath (dir ++ "/" ++ name ++ "/") ++ norm_go true rest.
Proof.
  intros dir name rest. unfold normpath.
  replace (dir ++ "/" ++ name ++ "/" ++ rest)
    with ((dir ++ "/" ++ name ++ "/") ++ rest)
    by (now rewrite !append_assoc).
  rewrite norm_go_append. f_equal. f_equal.
  rewrite !end_slash_append. reflexivity.
Qed.

Lemma normpath_staged : forall dir rest,
  prefix (normpath (dir ++ "/")) (normpath (dir ++ "/" ++ rest)) = true.
Proof.
  intros dir rest. unfold normpath.
  replace (dir ++ "/" ++ rest) with ((dir ++ "/") ++ rest)
    by (now rewrite append_assoc).
  rewrite (norm_go_append (dir ++ "/") rest). apply prefix_append.
Qed.

(** ** Files that are kept *)

Section Keeps.

Context {A B : Type}.
Variable path : string.

Lemma quiet_keeps (m : M A) : quiet m -> keeps path m.
Proof. intros H w r w' E. destruct (H _ _ _ E) as (F & _). now rewrite F. Qed.

Lemma keeps_bind (m : M A) (k : A -> M B) :
  keeps path m -> (forall a, keeps path (k a)) -> keeps path (bind m k).
Proof.
  intros Hm Hk w r w' H. unfold bind in H.
  destruct (m w) as [[a|e] w1] eqn:E.
  - rewrite (Hk a _ _ _ H). eauto.
  - inversion H; subst. eauto.
Qed.

Lemma keeps_if (b : bool) (m1 m2 : M A) :
  keeps path m1 -> keeps path m2 -> keeps path (if b then m1 else m2).
Proof. now destruct b. Qed.

End Keeps.

Lemma keeps_register path collection product :
  keeps path (register collection product).
Proof. intros w r w' H. now inversion H. Qed.

Lemma lookup_in : forall k v fs, lookup k fs = Some v -> In (k, v) fs.
Proof.
  intros k v fs. induction fs as [|[k' v'] fs IH]; simpl; [discriminate|].
  destruct (String.eqb_spec k' k); intros H.
  - inversion H; subst. now left.
  - right. auto.
Qed.

(** Writing a file changes nothing in a selection of files that leaves
    it out. *)
Lemma filter_update_excluded : forall (P : string * list string -> bool) k v fs,
  (forall v', P (k, v') = false) ->
  filter P (update k v fs) = filter P fs.
Proof.
  intros P k v fs HP. induction fs as [|[k' v'] fs IH]; simpl.
  - now rewrite HP.
  - destruct (String.eqb_spec k' k); simpl.
    + subst. now rewrite !HP.
    + now rewrite IH.
Qed.

Lemma for_each_write_excluded :
  forall (A : Type) (f : A -> string) p (l : list A) w w'
         (P : string * list string -> bool),
    (forall v, P (normpath p, v) = false) ->
    for_each l (fun x => write p (f x)) w = (Ok tt, w') ->
    filter P (w_fs w') = filter P (w_fs w).
Proof.
  intros A f p l. induction l as [|x l IH]; intros w w' P HP H; simpl in H.
  - now inversion H.
  - unfold bind, write at 1 in H.
    rewrite (IH _ _ P HP H). simpl. unfold set_content.
    now apply filter_update_excluded.
Qed.

(** ** Release resolution *)

(** C1.  With no bundle label and the kernel list of release 7 in the
    working directory, release resolution finds the kernel list and still
    answers that this is the first release: release 001, no current
    release, no increment (the specification expects release 8 as an
    increment). *)
Theorem set_release_misses_previous_kernel_list :
  SetupPy.kernel_lists Scenario.after_release_7 (Scenario.release_setup "" "")
    = ["working/insight_release_07.kernel_list"]
  /\ exists s w,
       run Scenario.after_release_7
           (SetupPy.set_release (Scenario.release_setup "" "")) = (Ok s, w)
       /\ SetupPy.release s = "001"
       /\ SetupPy.current_release s = ""
       /\ SetupPy.increment s = false.
Proof.
  split; [reflexivity|].
  eexists; eexists; split; [vm_compute; reflexivity|].
  repeat split.
Qed.

(** The tiers of release resolution that do find the previous release:
    the file list of a run to clear, and the bundle label. *)
Example set_release_from_clear :
  exists s w,
    run Scenario.bundle_of_release_8
        (SetupPy.set_release
           (Scenario.release_setup "working/insight_release_08.file_list" ""))
      = (Ok s, w)
    /\ SetupPy.release s = "008"
    /\ SetupPy.current_release s = "007"
    /\ SetupPy.increment s = true.
Proof.
  eexists; eexists; split; [vm_compute; reflexivity|]. repeat split.
Qed.

Example set_release_from_bundle_label :
  exists s w,
    run Scenario.bundle_of_release_8
        (SetupPy.set_release (Scenario.release_setup "" "")) = (Ok s, w)
    /\ SetupPy.release s = "009"
    /\ SetupPy.current_release s = "008"
    /\ SetupPy.increment s = true.
Proof.
  eexists; eexists; split; [vm_compute; reflexivity|]. repeat split.
Qed.

(** C10, as stated, fails in the clear tier: a file list whose name holds
    no number makes [set_release] raise [ValueError], which nothing
    catches. *)
Lemma set_release_clear_without_number_raises :
  fst (run [] (SetupPy.set_release
                 (Scenario.release_setup "working/insight_release_xx.file_list"
                                         "")))
  = Raise ValueError.
Proof. vm_compute. reflexivity. Qed.

Section ReleaseResolution.

Import SetupPy.

Ltac in_log := simpl; repeat rewrite in_app_iff; simpl; tauto.

Lemma quiet_release_from_bundle_label self :
  quiet (release_from_bundle_label self).
Proof. unfold release_from_bundle_label. quiet_auto. Qed.

Lemma quiet_release_from_kernel_list self e :
  quiet (release_from_kernel_list self e).
Proof. unfold release_from_kernel_list. quiet_auto. Qed.

Lemma quiet_first_release : quiet first_release.
Proof. unfold first_release. quiet_auto. Qed.

Lemma first_release_result : forall w,
  exists w', first_release w
             = (Ok {| r_release := "001"; r_current_release := "";
                      r_increment := false |}, w')
    /\ w_fs w' = w_fs w /\ In first_warning (w_log w').
Proof.
  intros w. eexists; split; [reflexivity|]. split; [reflexivity|].
  unfold first_warning. in_log.
Qed.

(** The tier of the bundle label fails when there is no label or when
    the number of the latest one does not parse. *)
Lemma release_from_bundle_label_fails : forall self w,
  (forall latest,
     Py.last_item (Py.sorted (bundle_labels (w_fs w) self)) = Some latest ->
     bundle_label_number latest = None) ->
  exists e, release_from_bundle_label self w = (Raise e, w).
Proof.
  intros self w H.
  unfold release_from_bundle_label, bind, get_fs, or_raise.
  destruct (Py.last_item _) as [latest|] eqn:Hl.
  - cbn [ret]. rewrite (H latest eq_refl). eexists; reflexivity.
  - eexists; reflexivity.
Qed.

(** The tier of the kernel list, when the number of the latest kernel
    list parses. *)
Lemma release_from_kernel_list_parsed : forall self e w latest m,
  truthy (kerlist (args self)) = false ->
  Py.last_item (Py.sorted (kernel_lists (w_fs w) self)) = Some latest ->
  kernel_list_number latest = Some m ->
  exists w',
    release_from_kernel_list self e w
    = (Ok {| r_release := Py.zfill 3 (m + 1);
             r_current_release := Py.zfill 3 m;
             r_increment := true |}, w').
Proof.
  intros self e w latest m Hk Hl Hn.
  unfold release_from_kernel_list, bind, get_fs, or_raise. rewrite Hk.
  cbn [ret]. rewrite Hl. cbn [ret]. rewrite Hn. cbn [ret].
  rewrite int_zfill. eexists; reflexivity.
Qed.

(** The tier of the kernel list fails when a kernel list is given as
    input, when there is no kernel list, or when the number of the latest
    one does not parse. *)
Lemma release_from_kernel_list_fails : forall self e w,
  (truthy (kerlist (args self)) = true
   \/ forall latest,
        Py.last_item (Py.sorted (kernel_lists (w_fs w) self)) = Some latest ->
        kernel_list_number latest = None) ->
  exists e' w', release_from_kernel_list self e w = (Raise e', w').
Proof.
  intros self e w H.
  unfold release_from_kernel_list, bind, get_fs, or_raise, logging, raise.
  destruct (truthy (kerlist (args self))) eqn:Hk.
  - eexists; eexists; reflexivity.
  - destruct H as [H|H]; [discriminate|].
    cbn [ret w_fs].
    destruct (Py.last_item _) as [latest|] eqn:Hl.
    + cbn [ret]. rewrite (H latest eq_refl). eexists; eexists; reflexivity.
    + eexists; eexists; reflexivity.
Qed.

(** Resolution with a file list whose number does not parse. *)
Lemma resolve_release_clear_unparsed : forall self w,
  truthy (clear (args self)) = true ->
  file_list_number self = None ->
  resolve_release self w = (Raise ValueError, w).
Proof.
  intros self w Hc Hn. unfold resolve_release. rewrite Hc.
  unfold release_from_clear, bind, or_raise. now rewrite Hn.
Qed.

(** Resolution without a file list: it ends with a release; when the
    tier of the bundle label fails, the warning is logged and the tier of
    the kernel list decides. *)
Lemma resolve_release_falls_through : forall self w,
  truthy (clear (args self)) = false ->
  exists r w',
    resolve_release self w = (Ok r, w')
    /\ w_fs w' = w_fs w
    /\ (forall x, In x (w_log w) -> In x (w_log w'))
    /\ ((forall latest,
           Py.last_item (Py.sorted (bundle_labels (w_fs w) self))
             = Some latest ->
           bundle_label_number latest = None) ->
        In label_warning (w_log w')
        /\ (truthy (kerlist (args self)) = false ->
            forall latest m,
              Py.last_item (Py.sorted (kernel_lists (w_fs w) self))
                = Some latest ->
              kernel_list_number latest = Some m ->
              r = {| r_release := Py.zfill 3 (m + 1);
                     r_current_release := Py.zfill 3 m;
                     r_increment := true |})
        /\ ((truthy (kerlist (args self)) = true
             \/ forall latest,
                  Py.last_item (Py.sorted (kernel_lists (w_fs w) self))
                    = Some latest ->
                  kernel_list_number latest = None) ->
            In first_warning (w_log w')
            /\ r = {| r_release := "001"; r_current_release := "";
                      r_increment := false |})).
Proof.
  intros self w Hc. unfold resolve_release. rewrite Hc. unfold try_except.
  destruct (release_from_bundle_label self w) as [[r|e] w1] eqn:Hb.
  - exists r, w1. split; [reflexivity|].
    destruct (quiet_release_from_bundle_label self _ _ _ Hb) as (F & _ & l & L).
    split; [exact F|]. split.
    + intros x Hx. rewrite L. apply in_or_app; now left.
    + intros Hf. destruct (release_from_bundle_label_fails self w Hf) as (e & He).
      rewrite He in Hb. discriminate.
  - destruct (quiet_release_from_bundle_label self _ _ _ Hb) as (F1 & _ & l1 & L1).
    unfold bind at 1. simpl.
    set (w2 := {| w_fs := w_fs w1; w_log := _; w_catalog := _ |}).
    assert (Hfs : w_fs w2 = w_fs w) by (simpl; congruence).
    assert (Hlw : In label_warning (w_log w2))
      by (subst w2; unfold label_warning; in_log).
    assert (Hw2 : forall x, In x (w_log w) -> In x (w_log w2)).
    { intros x Hx. subst w2. simpl. rewrite L1. in_log. }
    destruct (release_from_kernel_list self e w2) as [[r|e'] w3] eqn:Hk.
    + exists r, w3. split; [reflexivity|].
      destruct (quiet_release_from_kernel_list self e _ _ _ Hk)
        as (F3 & _ & l3 & L3).
      split; [congruence|]. split.
      * intros x Hx. rewrite L3. apply in_or_app; left; auto.
      * intros _. split; [rewrite L3; apply in_or_app; now left|]. split.
        { intros Hkl latest m Hl Hn. rewrite <- Hfs in Hl.
          destruct (release_from_kernel_list_parsed self e w2 latest m
                      Hkl Hl Hn) as (w4 & Hr).
          rewrite Hr in Hk. now inversion Hk. }
        { intros Hf. rewrite <- Hfs in Hf.
          destruct (release_from_kernel_list_fails self e w2 Hf)
            as (e2 & w4 & Hr).
          rewrite Hr in Hk. discriminate. }
    + destruct (quiet_release_from_kernel_list self e _ _ _ Hk)
        as (F3 & _ & l3 & L3).
      destruct (first_release_result w3) as (w4 & Hf & F4 & Hin).
      destruct (quiet_first_release _ _ _ Hf) as (_ & _ & l4 & L4).
      eexists; exists w4. split; [exact Hf|].
      split; [congruence|]. split.
      * intros x Hx. rewrite L4, L3. apply in_or_app; left.
        apply in_or_app; left. auto.
      * intros _. split.
        { rewrite L4, L3. apply in_or_app; left. apply in_or_app; now left. }
        split.
        { intros Hkl latest m Hl Hn. rewrite <- Hfs in Hl.
          destruct (release_from_kernel_list_parsed self e w2 latest m
                      Hkl Hl Hn) as (w5 & Hr).
          rewrite Hr in Hk. discriminate. }
        { intros _. split; [exact Hin|reflexivity]. }
Qed.

(** C10, amended.  A release number that does not parse is fatal in the
    tier of the file list to clear and is not in the two tiers that
    search.  With [args.clear] given and a file list whose number does
    not parse, [set_release] raises [ValueError].  Without it,
    [set_release] never raises; when there is no bundle label or the
    number of the latest one does not parse, the warning is logged and
    the tier of the kernel list decides: the release follows the number
    of the latest kernel list when that number parses and no kernel list
    is given as input, and otherwise the first release is logged and
    assigned. *)
Theorem set_release_parse_failure_falls_through : forall self w,
  (truthy (clear (args self)) = true ->
   file_list_number self = None ->
   exists w',
     set_release self w = (Raise ValueError, w') /\ w_fs w' = w_fs w)
  /\ (truthy (clear (args self)) = false ->
      exists s w',
        set_release self w = (Ok s, w')
        /\ w_fs w' = w_fs w
        /\ ((forall latest,
               Py.last_item (Py.sorted (bundle_labels (w_fs w) self))
                 = Some latest ->
               bundle_label_number latest = None) ->
            In label_warning (w_log w')
            /\ (truthy (kerlist (args self)) = false ->
                forall latest m,
                  Py.last_item (Py.sorted (kernel_lists (w_fs w) self))
                    = Some latest ->
                  kernel_list_number latest = Some m ->
                  release s = Py.zfill 3 (m + 1)
                  /\ current_release s = Py.zfill 3 m
                  /\ increment s = true)
            /\ ((truthy (kerlist (args self)) = true
                 \/ forall latest,
                      Py.last_item (Py.sorted (kernel_lists (w_fs w) self))
                        = Some latest ->
                      kernel_list_number latest = None) ->
                In first_warning (w_log w')
                /\ release s = "001" /\ current_release s = ""
                /\ increment s = false))).
Proof.
  intros self w. split.
  - intros Hc Hn. unfold set_release, bind, logging, ret. simpl.
    destruct (negb (silent (args self)) && negb (verbose (args self)));
      simpl; rewrite resolve_release_clear_unparsed by assumption;
      eexists; split; reflexivity.
  - intros Hc. unfold set_release, bind, logging, ret. simpl.
    destruct (negb (silent (args self)) && negb (verbose (args self)));
      simpl;
      match goal with
      | |- context [resolve_release self ?wb] =>
          destruct (resolve_release_falls_through self wb Hc)
            as (r & w1 & Hr & F & Hmono & Hspec);
          rewrite Hr; simpl
      end;
      (eexists; eexists; split; [reflexivity|]);
      (split; [exact F|]);
      intros Hf; simpl in Hspec;
      destruct (Hspec Hf) as (Hlw & Hp & Hu);
      (split; [in_log|]);
      (split;
       [intros Hkl latest m Hl Hn; rewrite (Hp Hkl latest m Hl Hn);
        repeat split
       |intros Hk; destruct (Hu Hk) as (Hfw & ->);
        (split; [in_log|]); repeat split]).
Qed.

(** The theorem at a file list with no number in its name, and at a
    bundle label with no number in its name beside the kernel list of
    release 7 in a working directory named [7.d]: the tier of the kernel
    list reads [7] before the first dot of the path. *)
Lemma set_release_parse_failure_falls_through_witness :
  (exists w',
     set_release
       (Scenario.release_setup "working/insight_release_xx.file_list" "")
       (world0 []) = (Raise ValueError, w'))
  /\ (exists s w',
        set_release (Samples.setup_in "7.d")
                    (world0 Samples.dotted_after_release_7) = (Ok s, w')
        /\ In label_warning (w_log w')
        /\ release s = "008" /\ current_release s = "007"
        /\ increment s = true)
  /\ (exists s w',
        set_release (Scenario.release_setup "" "")
                    (world0 (Scenario.bundle_label_without_number
                             ++ Scenario.after_release_7)%list) = (Ok s, w')
        /\ In label_warning (w_log w') /\ In first_warning (w_log w')
        /\ release s = "001" /\ increment s = false).
Proof.
  split; [|split].
  - destruct (proj1 (set_release_parse_failure_falls_through
                       (Scenario.release_setup
                          "working/insight_release_xx.file_list" "")
                       (world0 [])) eq_refl eq_refl) as (w' & H & _).
    now exists w'.
  - destruct (proj2 (set_release_parse_failure_falls_through
                       (Samples.setup_in "7.d")
                       (world0 Samples.dotted_after_release_7)) eq_refl)
      as (s & w' & Hs & _ & Hspec).
    exists s, w'. split; [exact Hs|].
    destruct Hspec as (Hlw & Hp & _).
    { intros latest Hl. vm_compute in Hl. inversion Hl. reflexivity. }
    destruct (Hp eq_refl "7.d/insight_release_07.kernel_list" 7%Z
                 eq_refl eq_refl) as (Hr & Hcr & Hi).
    repeat split; assumption.
  - destruct (proj2 (set_release_parse_failure_falls_through
                       (Scenario.release_setup "" "")
                       (world0 (Scenario.bundle_label_without_number
                                ++ Scenario.after_release_7)%list)) eq_refl)
      as (s & w' & Hs & _ & Hspec).
    exists s, w'. split; [exact Hs|].
    destruct Hspec as (Hlw & _ & Hu).
    { intros latest Hl. vm_compute in Hl. inversion Hl. reflexivity. }
    destruct Hu as (Hfw & Hr & _ & Hi).
    { right. intros latest Hl. vm_compute in Hl. inversion Hl. reflexivity. }
    repeat split; assumption.
Defined.

End ReleaseResolution.

Section ReleaseTiers.

Import SetupPy.

(** [set_release] assigns what [resolve_release] returns, in a world
    with the same files. *)
Lemma set_release_resolves : forall self w,
  exists wb,
    w_fs wb = w_fs w
    /\ forall r w1,
         resolve_release self wb = (Ok r, w1) ->
         exists s w',
           set_release self w = (Ok s, w')
           /\ release s = r_release r
           /\ current_release s = r_current_release r
           /\ increment s = r_increment r.
Proof.
  intros self w. unfold set_release, bind, logging, ret. simpl.
  destruct (negb (silent (args self)) && negb (verbose (args self))); simpl;
    match goal with
    | |- context [resolve_release self ?wb] => exists wb
    end;
    (split; [reflexivity|]); intros r w1 Hr; rewrite Hr;
    eexists; eexists; split; [reflexivity| |reflexivity|]; repeat split.
Qed.

(** The tier of the file list to clear: release [n] read in its name,
    current release [n - 1], an increment. *)
Lemma set_release_of_file_list : forall self w n,
  truthy (clear (args self)) = true ->
  file_list_number self = Some n ->
  exists s w',
    set_release self w = (Ok s, w')
    /\ release s = Py.zfill 3 n
    /\ current_release s = Py.zfill 3 (n - 1)
    /\ increment s = true.
Proof.
  intros self w n Hc Hn.
  destruct (set_release_resolves self w) as (wb & _ & H).
  assert (Hr : exists w1,
             resolve_release self wb
             = (Ok {| r_release := Py.zfill 3 n;
                      r_current_release := Py.zfill 3 (n - 1);
                      r_increment := true |}, w1)).
  { eexists. unfold resolve_release. rewrite Hc.
    unfold release_from_clear, bind, or_raise. rewrite Hn. reflexivity. }
  destruct Hr as (w1 & Hr). exact (H _ _ Hr).
Qed.

(** The tier of the bundle label: current release [n] read in the name
    of the latest label, release [n + 1], an increment. *)
Lemma set_release_of_bundle_label : forall self w latest n,
  truthy (clear (args self)) = false ->
  Py.last_item (Py.sorted (bundle_labels (w_fs w) self)) = Some latest ->
  bundle_label_number latest = Some n ->
  exists s w',
    set_release self w = (Ok s, w')
    /\ release s = Py.zfill 3 (n + 1)
    /\ current_release s = Py.zfill 3 n
    /\ increment s = true.
Proof.
  intros self w latest n Hc Hl Hn.
  destruct (set_release_resolves self w) as (wb & Hfs & H).
  assert (Hr : exists w1,
             resolve_release self wb
             = (Ok {| r_release := Py.zfill 3 (n + 1);
                      r_current_release := Py.zfill 3 n;
                      r_increment := true |}, w1)).
  { eexists. unfold resolve_release. rewrite Hc.
    unfold try_except, release_from_bundle_label, bind, get_fs, or_raise.
    rewrite Hfs, Hl. cbn [ret]. rewrite Hn. cbn [ret].
    rewrite int_zfill. reflexivity. }
  destruct Hr as (w1 & Hr). exact (H _ _ Hr).
Qed.

(** No bundle label and no kernel list: the first release. *)
Lemma set_release_first_release : forall self w,
  truthy (clear (args self)) = false ->
  bundle_labels (w_fs w) self = [] ->
  kernel_lists (w_fs w) self = [] ->
  exists s w',
    set_release self w = (Ok s, w')
    /\ release s = "001" /\ current_release s = "" /\ increment s = false.
Proof.
  intros self w Hc Hb Hk.
  destruct (set_release_resolves self w) as (wb & Hfs & H).
  assert (Hr : exists w1,
             resolve_release self wb
             = (Ok {| r_release := "001"; r_current_release := "";
                      r_increment := false |}, w1)).
  { unfold resolve_release. rewrite Hc.
    unfold try_except, release_from_bundle_label, release_from_kernel_list,
      bind, get_fs, or_raise, logging, raise, ret.
    rewrite Hfs, Hb. cbn [Py.sorted fold_right Py.last_item].
    destruct (truthy (kerlist (args self))); cbn [w_fs];
      [eexists; reflexivity|].
    rewrite Hfs, Hk. eexists; reflexivity. }
  destruct Hr as (w1 & Hr). exact (H _ _ Hr).
Qed.

End ReleaseTiers.

(** ** The search of [MetaKernelProduct.compare] *)

Section CompareSearch.

Import ProductPy.

Variables (fs : FS) (val_mk_path val_mk_name : string).

(** Once the index has reached the length of the name less one, the body
    of the loop changes nothing. *)
Lemma search_step_stuck : forall st,
  (Z.of_nat (length val_mk_name) - 1 <= i st)%Z ->
  search_step fs val_mk_path val_mk_name st = st.
Proof.
  intros st H. unfold search_step.
  destruct (Z.ltb_spec (i st) (Z.of_nat (length val_mk_name) - 1)); [lia|].
  reflexivity.
Qed.

Lemma search_iterate_stuck : forall n st,
  (Z.of_nat (length val_mk_name) - 1 <= i st)%Z ->
  search_iterate n fs val_mk_path val_mk_name st = st.
Proof.
  induction n as [|n IH]; intros st H; [reflexivity|].
  simpl. rewrite (search_step_stuck st H). now apply IH.
Qed.

Lemma search_iterate_add : forall n m st,
  search_iterate (n + m) fs val_mk_path val_mk_name st
  = search_iterate m fs val_mk_path val_mk_name
      (search_iterate n fs val_mk_path val_mk_name st).
Proof.
  induction n as [|n IH]; intros m st; [reflexivity|].
  simpl. apply IH.
Qed.

(** The loop does not end while the flag stays set. *)
Lemma search_loop_flag_set : forall fuel st,
  (forall k, (k <= fuel)%nat ->
     match_flag (search_iterate k fs val_mk_path val_mk_name st) = true) ->
  search_loop fuel fs val_mk_path val_mk_name st = None.
Proof.
  induction fuel as [|fuel IH]; intros st H;
    pose proof (H 0%nat (Nat.le_0_l _)) as H0; simpl in H0; simpl; rewrite H0.
  - reflexivity.
  - apply IH. intros k Hk. apply (H (S k)). lia.
Qed.

(** The loop ends as soon as the flag is cleared, given enough fuel. *)
Lemma search_loop_flag_cleared : forall n fuel st,
  (forall k, (k < n)%nat ->
     match_flag (search_iterate k fs val_mk_path val_mk_name st) = true) ->
  match_flag (search_iterate n fs val_mk_path val_mk_name st) = false ->
  (n <= fuel)%nat ->
  search_loop fuel fs val_mk_path val_mk_name st
  = Some (search_iterate n fs val_mk_path val_mk_name st).
Proof.
  induction n as [|n IH]; intros fuel st Hlt Hn Hf.
  - simpl in *. destruct fuel; simpl; now rewrite Hn.
  - destruct fuel as [|fuel]; [lia|].
    pose proof (Hlt 0%nat (Nat.lt_0_succ _)) as H0. simpl in H0.
    simpl. rewrite H0.
    apply IH; [|exact Hn|lia].
    intros k Hk. apply (Hlt (S k)). lia.
Qed.

(** A search that reaches the bound with the flag set never ends. *)
Lemma search_loop_diverges : forall n st,
  (forall k, (k <= n)%nat ->
     match_flag (search_iterate k fs val_mk_path val_mk_name st) = true) ->
  (Z.of_nat (length val_mk_name) - 1
   <= i (search_iterate n fs val_mk_path val_mk_name st))%Z ->
  forall fuel, search_loop fuel fs val_mk_path val_mk_name st = None.
Proof.
  intros n st Hflag Hi fuel. apply search_loop_flag_set.
  intros k _. destruct (Nat.le_gt_cases k n) as [Hk|Hk]; [now apply Hflag|].
  replace k with (n + (k - n))%nat by lia.
  rewrite search_iterate_add, (search_iterate_stuck _ _ Hi).
  apply Hflag, Nat.le_refl.
Qed.

End CompareSearch.

(** A name of at most two characters: the body of the loop never runs
    and the loop never ends, whatever the archive holds. *)
Lemma search_short_name_diverges : forall fs val_mk_path val_mk_name,
  (length val_mk_name <= 2)%nat ->
  forall fuel,
    ProductPy.search_loop fuel fs val_mk_path val_mk_name
                          ProductPy.search_start = None.
Proof.
  intros fs p name H. apply (search_loop_diverges fs p name 0).
  - intros k Hk. replace k with 0%nat by lia. reflexivity.
  - simpl. lia.
Qed.

Lemma compare_search_never_ends : forall fuel,
  ProductPy.search_loop fuel Scenario.archive_mk
    (ProductPy.mk_directory (Scenario.setup true)) "insight_v02.tm"
    ProductPy.search_start = None.
Proof.
  apply (search_loop_diverges _ _ _ 12).
  - intros k Hk.
    do 13 (destruct k as [|k]; [vm_compute; reflexivity|]). lia.
  - vm_compute. discriminate.
Qed.

(** C6.  With version 1 and a kept copy of version 2 in the archive,
    [compare] does not return for the meta-kernel [insight_v02.tm]: every
    prefix of the name up to [insight_v02.] has a match, the index
    reaches the bound with the flag set, and from then on an iteration
    changes nothing.  However many iterations are allowed, the search has
    not ended and no file has been compared. *)
Theorem compare_never_returns : forall compare_files fuel path,
  ProductPy.MetaKernelProduct_compare compare_files fuel (Scenario.setup true)
    "insight_v02.tm" path (world0 Scenario.archive_mk)
  = (Ok None, world0 Scenario.archive_mk).
Proof.
  intros compare_files fuel path. unfold ProductPy.MetaKernelProduct_compare.
  change (Py.final (Py.split "insight_v02.tm" "/")) with "insight_v02.tm".
  change (w_fs (world0 Scenario.archive_mk)) with Scenario.archive_mk.
  now rewrite compare_search_never_ends.
Qed.

(** The same search ends when the kept copy is not there: the prefix
    [insight_v02] has no match, and the latest match is version 1. *)
Example compare_search_ends :
  ProductPy.search_loop 11 [("final/insight_spice/spice_kernels/mk/insight_v01.tm", [])]
    (ProductPy.mk_directory (Scenario.setup true)) "insight_v02.tm"
    ProductPy.search_start
  = Some {| ProductPy.match_flag := false; ProductPy.i := 12;
            ProductPy.val_mk :=
              "final/insight_spice/spice_kernels/mk/insight_v01.tm" |}.
Proof. vm_compute. reflexivity. Qed.

(** ** Versions and identifiers of the products *)

(** C7.  For the meta-kernel [insight_v010.tm] the constructor reads the
    version 0 and assigns the VID [0.0] (the name holds version 10, which
    is what [check_version] reads in it); with version 9 in the archive
    the check logs the discrepancy between 0 and 10 and the run goes on
    with [0.0]. *)
Theorem meta_kernel_vid_keeps_last_digit :
  ProductPy.version_in_name "insight_v010.tm" = Some 10%Z
  /\ exists w,
       run Scenario.archive_mk_v009
           (ProductPy.MetaKernelProduct_init (Scenario.setup true)
                                             "insight_v010.tm" "")
         = (Ok ("insight_v010.tm", 0%Z, "0.0"), w)
       /\ In (ERROR,
              "    Version discrepancy. From kernel list: 0. From increment: 10.")
             (w_log w).
Proof.
  split; [reflexivity|].
  eexists; split; [vm_compute; reflexivity|].
  simpl. tauto.
Qed.

(** Whatever the name, the version the constructor reads is one digit. *)
Lemma meta_kernel_version_is_one_digit : forall kernel w v w',
  ProductPy.MetaKernelProduct_version kernel w = (Ok v, w') ->
  (0 <= v <= 9)%Z.
Proof.
  intros kernel w v w' H. unfold ProductPy.MetaKernelProduct_version in H.
  unfold bind, or_raise in H.
  destruct (Py.last_char (Py.first (Py.split kernel "."))) as [c|];
    [|discriminate].
  cbn [ret] in H.
  destruct c as [[|] [|] [|] [|] [|] [|] [|] [|]]; vm_compute in H;
    try discriminate; inversion H; lia.
Qed.

(** Where the version has one digit the VID is the one the name holds. *)
Example meta_kernel_vid_one_digit :
  fst (run [] (ProductPy.MetaKernelProduct_init (Scenario.setup false)
                                                "insight_v007.tm" ""))
  = Ok ("insight_v007.tm", 7%Z, "7.0").
Proof. vm_compute. reflexivity. Qed.

(** The LID of an inventory does not depend on its collection. *)
Lemma inventory_lid_of_any_collection : forall compare_files setup c1 c2 w1 w2 p1 p2 w1' w2',
  ProductPy.InventoryProduct compare_files setup c1 w1 = (Ok p1, w1') ->
  ProductPy.InventoryProduct compare_files setup c2 w2 = (Ok p2, w2') ->
  ProductPy.lid p1 = ProductPy.lid p2.
Proof.
  intros cf setup c1 c2 w1 w2 p1 p2 w1' w2' H1 H2.
  unfold ProductPy.InventoryProduct in *.
  destruct (String.eqb (ProductPy.pds setup) "4"); [|discriminate].
  unfold bind in H1, H2.
  destruct (ProductPy.inventory_version setup c1 w1) as [[v1|] ?]; [|discriminate].
  destruct (ProductPy.inventory_version setup c2 w2) as [[v2|] ?]; [|discriminate].
  match type of H1 with
  | context [ProductPy.InventoryProduct_write_product ?a ?b ?c ?d ?e] =>
      destruct (ProductPy.InventoryProduct_write_product a b c d e)
        as [[[]|] ?]; [|discriminate]
  end.
  match type of H2 with
  | context [ProductPy.InventoryProduct_write_product ?a ?b ?c ?d ?e] =>
      destruct (ProductPy.InventoryProduct_write_product a b c d e)
        as [[[]|] ?]; [|discriminate]
  end.
  inversion H1; inversion H2; subst. reflexivity.
Qed.

(** The LID of the spiceds document is not that of the inventories. *)
Lemma spiceds_lid_is_not_inventory_lid : forall setup,
  ProductPy.SpicedsProduct_product_lid setup
  <> ProductPy.InventoryProduct_product_lid setup.
Proof.
  intros setup H.
  unfold ProductPy.SpicedsProduct_product_lid,
    ProductPy.InventoryProduct_product_lid in H.
  simpl in H. injection H as H.
  apply append_inv_head in H. simpl in H. injection H as H.
  apply append_inv_head in H. simpl in H. injection H as H.
  apply append_inv_head in H. discriminate.
Qed.

(** C4.  In a first release the inventory of the kernels collection and
    the inventory of the miscellaneous collection are two products, with
    two names and two files, and one LIDVID. *)
Theorem inventories_share_lidvid :
  exists kernels misc w,
    run [] Scenario.two_inventories = (Ok (kernels, misc), w)
    /\ ProductPy.name kernels = "collection_spice_kernels_inventory_v001.csv"
    /\ ProductPy.name misc = "collection_miscellaneous_inventory_v001.csv"
    /\ ProductPy.path kernels <> ProductPy.path misc
    /\ ProductPy.lid kernels ++ "::" ++ ProductPy.vid kernels
       = "urn:nasa:pds:insight_spice:document:spiceds::1.0"
    /\ ProductPy.lid misc ++ "::" ++ ProductPy.vid misc
       = "urn:nasa:pds:insight_spice:document:spiceds::1.0".
Proof.
  eexists; eexists; eexists; split; [vm_compute; reflexivity|].
  simpl. repeat split. discriminate.
Qed.

(** ** The inventory *)

(** C5.  With the inventory of version 9 in the archive, the inventory
    of version 10 of the kernels collection is written without any of its
    entries: the previous inventory is looked for under the name
    [..._v09.csv], which is not there, an error is logged, and the new
    inventory holds the primary entry of the new kernel alone. *)
Theorem inventory_v010_drops_previous_entries :
  content Scenario.archive_v009 Scenario.inventory_v009
    = Some [Scenario.entry_v05 "P"]
  /\ exists inventory w,
       run Scenario.archive_v009
           (ProductPy.InventoryProduct Scenario.no_compare (Scenario.setup true)
              (Scenario.spice_kernels [Scenario.kernel "fk" "insight_v06.tf" true]))
         = (Ok inventory, w)
       /\ ProductPy.version inventory = Some 10%Z
       /\ ProductPy.path_current inventory
          = "final/insight_spice//spice_kernels/collection_spice_kernels_inventory_v009.csv"
       /\ ProductPy.prev_collection_path (Scenario.setup true) inventory
            (Scenario.spice_kernels []) 10
          = "final/insight_spice/spice_kernels/collection_spice_kernels_inventory_v09.csv"
       /\ content (w_fs w) (ProductPy.path inventory)
          = Some ["P," ++ Scenario.kernel_lid "fk" "insight_v06.tf" ++ "::1.0"
                  ++ CRLF]
       /\ In (ERROR, "-- A previous collection was expected. "
                     ++ "The generated collection might be incorrect.")
             (w_log w).
Proof.
  split; [reflexivity|].
  eexists; eexists; split; [vm_compute; reflexivity|].
  repeat split. simpl. tauto.
Qed.

(** From version 8 to version 9 the entries are carried forward as
    secondary and the new kernel follows as primary. *)
Example inventory_v009_carries_forward :
  exists inventory w,
    run [("final/insight_spice/spice_kernels/collection_spice_kernels_inventory_v008.csv",
          [Scenario.entry_v05 "P"])]
        (ProductPy.InventoryProduct Scenario.no_compare (Scenario.setup true)
           (Scenario.spice_kernels [Scenario.kernel "fk" "insight_v06.tf" true]))
      = (Ok inventory, w)
    /\ content (w_fs w) (ProductPy.path inventory)
       = Some [Scenario.entry_v05 "S";
               "P," ++ Scenario.kernel_lid "fk" "insight_v06.tf" ++ "::1.0"
               ++ CRLF].
Proof.
  eexists; eexists; split; [vm_compute; reflexivity|]. reflexivity.
Qed.

(** C3, as stated, fails: a kernel that was already in the staging area
    is not new, is not written to the inventory of a first release, and
    is reported by the validation as not found; [InventoryProduct]
    returns all the same and the run goes on. *)
Lemma inventory_missing_product_is_not_fatal :
  exists inventory w,
    run [] (ProductPy.InventoryProduct Scenario.no_compare (Scenario.setup false)
              (Scenario.spice_kernels [Scenario.kernel "fk" "insight_v06.tf" false]))
      = (Ok inventory, w)
    /\ content (w_fs w) (ProductPy.path inventory) = Some []
    /\ In (ERROR, "      Product " ++ Scenario.kernel_lid "fk" "insight_v06.tf"
                  ++ " not found. Consider increment re-generation.")
          (w_log w).
Proof.
  eexists; eexists; split; [vm_compute; reflexivity|].
  split; [reflexivity|]. simpl. tauto.
Qed.

Section InventoryEntries.

Import ProductPy.

Lemma primary_line_entry : forall lb,
  primary_line lb = spec_entry "P" (PRODUCT_LID lb) (PRODUCT_VID lb).
Proof.
  intros lb. unfold primary_line, spec_entry.
  replace ("P," ++ PRODUCT_LID lb ++ "::" ++ PRODUCT_VID lb ++ CRLF)
    with (("P," ++ PRODUCT_LID lb ++ "::" ++ PRODUCT_VID lb) ++ CRLF).
  - rewrite add_carriage_return_crlf.
    now rewrite !append_assoc.
  - now rewrite !append_assoc.
Qed.

(** The loop over the products of the collection, when it ends without
    an exception, has written the primary entries of the new products. *)
Lemma write_new_entries : forall self products w w' old,
  for_each products (write_new self) w = (Ok tt, w') ->
  content (w_fs w) (path self) = Some old ->
  content (w_fs w') (path self) = Some (old ++ spec_primary_entries products)%list
  /\ (forall q, normpath (path self) <> normpath q ->
                content (w_fs w') q = content (w_fs w) q)
  /\ w_log w' = w_log w /\ w_catalog w' = w_catalog w.
Proof.
  intros self products. induction products as [|p l IH];
    intros w w' old H Hc.
  - inversion H; subst. simpl. rewrite app_nil_r. auto.
  - cbn [for_each] in H. unfold bind in H at 1.
    destruct (write_new self p w) as [[[]|e] w1] eqn:E; [|discriminate].
    unfold write_new, bind, or_raise in E.
    cbn [spec_primary_entries flat_map].
    fold (spec_primary_entries l).
    destruct (new_product p) as [[|]|]; simpl in E;
      [destruct (label p) as [lb|]; simpl in E| |]; try discriminate.
    + unfold write in E. rewrite Hc in E. inversion E; subst w1; clear E.
      destruct (IH _ w' (old ++ [primary_line lb])%list H)
        as (Hp & Hq & Hl & Hcat).
      { simpl. apply content_set_content_same. }
      rewrite <- app_assoc in Hp. rewrite primary_line_entry in Hp.
      split; [exact Hp|]. split; [|split; [exact Hl|exact Hcat]].
      intros q Hne. rewrite (Hq q Hne). simpl.
      now apply content_set_content_other.
    + inversion E; subst w1. now apply IH.
Qed.

End InventoryEntries.

Section InventoryFile.

Import ProductPy.

Variables (setup : Setup) (self : Product) (collection : Collection.t).

(** The copy of the previous inventory: it raises when the inventory has
    no version or no file is found under the name computed for the
    previous one, and else appends every line of that file, carried
    forward. *)
Lemma copy_previous_result : forall w old,
  content (w_fs w) (path self) = Some old ->
  exists r w',
    copy_previous setup self collection w = (r, w')
    /\ w_catalog w' = w_catalog w
    /\ (forall q, normpath (path self) <> normpath q ->
                  content (w_fs w') q = content (w_fs w) q)
    /\ match version self with
       | None => r = Raise AttributeError /\ w' = w
       | Some v =>
           match content (w_fs w)
                         (prev_collection_path setup self collection v) with
           | None => r = Raise FileNotFoundError /\ w' = w
           | Some lines =>
               r = Ok tt
               /\ content (w_fs w') (path self)
                  = Some (old ++ map carry_forward
                                     (map universal_newline lines))%list
           end
       end.
Proof.
  intros w old Hc. unfold copy_previous, bind, or_raise.
  destruct (version self) as [v|]; simpl.
  - unfold read_lines.
    destruct (content (w_fs w) (prev_collection_path setup self collection v))
      as [lines|].
    + destruct (for_each_write _ carry_forward (path self)
                  (map universal_newline lines) w old Hc)
        as (w' & Hr & Hp & Hq & Hl & Hcat).
      exists (Ok tt), w'. rewrite Hr. auto.
    + exists (Raise FileNotFoundError), w. auto.
  - exists (Raise AttributeError), w. auto.
Qed.

(** What [write_product] leaves in the file of the inventory: the
    entries carried forward from the previous inventory, then the primary
    entries of the new products.  Nothing is carried forward in a first
    release; in an increment the lines of the file found under the name
    computed for the previous inventory are. *)
Lemma write_entries_result : forall w w',
  write_entries setup self collection w = (Ok tt, w') ->
  exists carried,
    content (w_fs w') (path self)
      = Some (carried ++ spec_primary_entries (Collection.product collection))%list
    /\ (forall q, normpath (path self) <> normpath q ->
                  content (w_fs w') q = content (w_fs w) q)
    /\ w_catalog w' = w_catalog w
    /\ (increment setup = false -> carried = [])
    /\ (forall v lines,
          increment setup = true ->
          version self = Some v ->
          normpath (path self)
            <> normpath (prev_collection_path setup self collection v) ->
          content (w_fs w) (prev_collection_path setup self collection v)
            = Some lines ->
          carried = map carry_forward (map universal_newline lines)).
Proof.
  intros w w' H. unfold write_entries in H.
  unfold bind in H at 1. unfold open_write in H at 1.
  set (w0 := {| w_fs := set_content (w_fs w) (path self) [];
                w_log := w_log w; w_catalog := w_catalog w |}) in H.
  assert (H0 : content (w_fs w0) (path self) = Some [])
    by apply content_set_content_same.
  assert (Hq0 : forall q, normpath (path self) <> normpath q ->
                          content (w_fs w0) q = content (w_fs w) q)
    by (intros q Hne; now apply content_set_content_other).
  unfold bind in H at 1.
  destruct (increment setup) eqn:Hinc.
  - unfold try_except in H.
    destruct (copy_previous_result w0 [] H0) as (r & w1 & Hr & Hcat & Hq & Hv).
    rewrite Hr in H.
    destruct r as [[]|e].
    + assert (Hc1 : exists carried,
                 content (w_fs w1) (path self) = Some carried
                 /\ forall v lines,
                      version self = Some v ->
                      content (w_fs w0)
                              (prev_collection_path setup self collection v)
                        = Some lines ->
                      carried = map carry_forward (map universal_newline lines)).
      { destruct (version self) as [v|]; [|destruct Hv; discriminate].
        destruct (content (w_fs w0)
                          (prev_collection_path setup self collection v))
          as [lines|] eqn:Ec; [|destruct Hv; discriminate].
        destruct Hv as (_ & Hp). simpl in Hp. eexists; split; [exact Hp|].
        intros v' lines' Hv' Hl'. inversion Hv'; subst v'.
        rewrite Ec in Hl'. now inversion Hl'. }
      destruct Hc1 as (carried & Hp & Hcar).
      destruct (write_new_entries _ _ _ _ _ H Hp) as (Hp' & Hq' & _ & Hcat').
      exists carried. split; [exact Hp'|]. split.
      { intros q Hne. rewrite (Hq' q Hne), (Hq q Hne). now apply Hq0. }
      split; [simpl in Hcat; congruence|]. split; [discriminate|].
      intros v lines _ Hv' Hne Hl. apply (Hcar v lines Hv').
      now rewrite (Hq0 _ Hne).
    + assert (Hw1 : w1 = w0).
      { destruct (version self) as [v|]; [|now destruct Hv].
        destruct (content (w_fs w0)
                          (prev_collection_path setup self collection v));
          destruct Hv; [discriminate|assumption]. }
      subst w1. unfold logging in H at 1.
      match type of H with
      | for_each _ _ ?w2 = _ =>
          destruct (write_new_entries self _ w2 w' [] H) as (Hp' & Hq' & _ & Hcat')
      end.
      { exact H0. }
      exists []. split; [exact Hp'|]. split.
      { intros q Hne. rewrite (Hq' q Hne). simpl. now apply Hq0. }
      split; [exact Hcat'|]. split; [discriminate|].
      intros v lines _ Hv' Hne Hl. rewrite Hv' in Hv.
      rewrite (Hq0 _ Hne), Hl in Hv. destruct Hv; discriminate.
  - unfold ret in H at 1.
    destruct (write_new_entries _ _ _ _ _ H H0) as (Hp' & Hq' & _ & Hcat').
    exists []. split; [exact Hp'|]. split.
    { intros q Hne. rewrite (Hq' q Hne). now apply Hq0. }
    split; [exact Hcat'|]. split; [reflexivity|discriminate].
Qed.

End InventoryFile.

Section InventoryValidation.

Import ProductPy.

Ltac in_log := simpl; repeat rewrite in_app_iff; simpl; tauto.

Lemma check_products_result : forall self written products acc w,
  content (w_fs w) (path self) = Some written ->
  exists acc' w',
    fold_m products acc (check_product self) w = (Ok acc', w')
    /\ w_fs w' = w_fs w /\ w_catalog w' = w_catalog w
    /\ (forall x, In x (w_log w) -> In x (w_log w'))
    /\ (forall p, In p products -> missing p written = true ->
                  In (not_found p) (w_log w')).
Proof.
  intros self written products.
  induction products as [|p l IH]; intros acc w Hc; simpl.
  - exists acc, w. repeat split; auto. intros p [].
  - unfold bind at 1. unfold check_product at 1.
    unfold bind at 1. unfold read_lines at 1. rewrite Hc.
    destruct (existsb (Py.contains (lid p)) (map universal_newline written))
      eqn:Ef.
    + unfold ret at 1.
      destruct (IH acc w Hc) as (acc' & w' & Hr & Hfs & Hcat & Hmono & Hmiss).
      exists acc', w'. repeat split; auto.
      intros q [<-|Hq] Hm; [|now apply Hmiss].
      unfold missing in Hm. rewrite Ef in Hm. discriminate.
    + unfold bind at 1, logging at 1, ret at 1.
      match goal with
      | |- context [fold_m l false _ ?w1] =>
          destruct (IH false w1) as (acc' & w' & Hr & Hfs & Hcat & Hmono & Hmiss);
          [exact Hc|]
      end.
      exists acc', w'. split; [exact Hr|]. split; [exact Hfs|].
      split; [exact Hcat|]. split.
      * intros x Hx. apply Hmono. in_log.
      * intros q [<-|Hq] Hm; [|now apply Hmiss].
        apply Hmono. unfold not_found. in_log.
Qed.

Lemma validate_result : forall setup self collection w written,
  content (w_fs w) (path self) = Some written ->
  exists w',
    InventoryProduct_validate setup self collection w = (Ok tt, w')
    /\ w_fs w' = w_fs w /\ w_catalog w' = w_catalog w
    /\ (forall x, In x (w_log w) -> In x (w_log w'))
    /\ (forall p, In p (Collection.product collection) ->
                  missing p written = true -> In (not_found p) (w_log w'))
    /\ In (INFO, "      OK") (w_log w').
Proof.
  intros setup self collection w written Hc.
  unfold InventoryProduct_validate.
  unfold bind at 1, logging at 1. unfold bind at 1, logging at 1.
  unfold bind at 1.
  match goal with
  | |- context [fold_m _ true _ ?w1] =>
      destruct (check_products_result self written
                  (Collection.product collection) true w1 Hc)
        as (acc' & w2 & Hr & Hfs & Hcat & Hmono & Hmiss)
  end.
  rewrite Hr. unfold bind, logging, ret, input_if.
  destruct (interactive setup); simpl;
    (eexists; split; [reflexivity|]); simpl;
    (split; [exact Hfs|]); (split; [exact Hcat|]);
    (split; [intros x Hx; assert (In x (w_log w2)) by (apply Hmono; in_log);
             in_log|]);
    (split; [intros p Hp Hm; pose proof (Hmiss p Hp Hm); in_log | in_log]).
Qed.

(** C3, amended.  When [write_product] has written the file of the
    inventory and no comparison is asked for, it returns: for every
    product of the collection whose LID is in no line of the file, the
    validation logs the error that names it, logs OK, and the run goes
    on with the file as it was written. *)
Theorem inventory_validation_reports_and_returns :
  forall compare_files setup self collection w w1 written,
    write_entries setup self collection w = (Ok tt, w1) ->
    content (w_fs w1) (path self) = Some written ->
    diff setup = "" ->
    exists w',
      InventoryProduct_write_product compare_files setup self collection w
        = (Ok tt, w')
      /\ w_fs w' = w_fs w1
      /\ (forall p, In p (Collection.product collection) ->
                    missing p written = true -> In (not_found p) (w_log w'))
      /\ In (INFO, "      OK") (w_log w').
Proof.
  intros cf setup self collection w w1 written Hw Hc Hd.
  unfold InventoryProduct_write_product.
  unfold bind at 1. rewrite Hw.
  rewrite Hd. cbn [truthy String.eqb negb].
  assert (Hstep : exists w2,
             (input_if (interactive setup) ">> Press Enter to continue..." ;;;
              logging INFO ("-- Generated " ++ path self)) w1 = (Ok tt, w2)
             /\ w_fs w2 = w_fs w1).
  { unfold bind, input_if, logging, ret.
    destruct (interactive setup); simpl; eexists; split; reflexivity. }
  destruct Hstep as (w2 & Hs & Hfs2).
  unfold bind in Hs. unfold bind at 1.
  destruct (input_if (interactive setup) ">> Press Enter to continue..." w1)
    as [[[]|e] w1'] eqn:Ei; [|discriminate].
  unfold bind at 1. rewrite Hs.
  rewrite <- Hfs2 in Hc.
  destruct (validate_result setup self collection w2 written Hc)
    as (w3 & Hv & Hfs3 & _ & _ & Hmiss & Hok).
  unfold bind at 1. rewrite Hv. unfold ret.
  exists w3. split; [reflexivity|]. split; [congruence|]. split; assumption.
Qed.

(** The theorem at the first release of a collection whose only kernel
    was in the staging area already. *)
Lemma inventory_validation_reports_and_returns_witness :
  exists w',
    InventoryProduct_write_product Scenario.no_compare (Scenario.setup false)
      Scenario.inventory_v001
      (Scenario.spice_kernels [Scenario.kernel "fk" "insight_v06.tf" false])
      (world0 [])
    = (Ok tt, w')
    /\ In (not_found (Scenario.kernel "fk" "insight_v06.tf" false)) (w_log w').
Proof.
  destruct (inventory_validation_reports_and_returns Scenario.no_compare
              (Scenario.setup false)
              Scenario.inventory_v001
              (Scenario.spice_kernels [Scenario.kernel "fk" "insight_v06.tf" false])
              (world0 []) _ [] eq_refl eq_refl eq_refl)
    as (w' & Hr & _ & Hmiss & _).
  exists w'. split; [exact Hr|].
  apply Hmiss; [now left | reflexivity].
Defined.

End InventoryValidation.

(** ** The kernels of a meta-kernel *)

Lemma fold_m_invariant {A B : Type} (P : B -> Prop) (f : B -> A -> M B) :
  forall l,
    (forall acc x w acc' w',
       In x l -> P acc -> f acc x w = (Ok acc', w') -> P acc') ->
    forall acc w acc' w',
      P acc -> fold_m l acc f w = (Ok acc', w') -> P acc'.
Proof.
  induction l as [|x l IH]; intros Hf acc w acc' w' HP H; simpl in H.
  - inversion H; now subst.
  - unfold bind in H. destruct (f acc x w) as [[acc1|e] w1] eqn:E;
      [|discriminate].
    eapply IH; [| |exact H].
    + intros a y w2 a' w2' Hy. apply Hf. now right.
    + eapply Hf; [now left|exact HP|exact E].
Qed.

(** An entry of the list names its kernel: the kernel types hold no
    slash. *)
Lemma kernel_entry_injective : forall kernel_type kernel_type' kernel kernel',
  In kernel_type ProductPy.kernel_type_list ->
  In kernel_type' ProductPy.kernel_type_list ->
  kernel_type ++ "/" ++ kernel = kernel_type' ++ "/" ++ kernel' ->
  kernel = kernel'.
Proof.
  intros kt kt' k k' H H' E. unfold ProductPy.kernel_type_list in *.
  simpl in H, H'.
  repeat match goal with
         | H : _ \/ _ |- _ => destruct H as [<-|H]
         | H : False |- _ => destruct H
         end; simpl in E; congruence.
Qed.

Lemma fromkeys_go_in : forall l seen x,
  In x (Py.fromkeys_go seen l) -> In x l.
Proof.
  induction l as [|y l IH]; intros seen x H; simpl in *; [assumption|].
  destruct (existsb (String.eqb y) seen).
  - right. eapply IH; eauto.
  - destruct H as [->|H]; [now left|]. right. eapply IH; eauto.
Qed.

Lemma fromkeys_in : forall l x, In x (Py.fromkeys l) -> In x l.
Proof. intros l x. apply fromkeys_go_in. Qed.

Lemma latest_in : forall key l k, ProductPy.latest key l = Some k -> In k l.
Proof.
  intros key l. induction l as [|x l IH]; intros k H; simpl in H;
    [discriminate|].
  destruct (ProductPy.latest key l) as [y|].
  - inversion H; subst. unfold ProductPy.later.
    destruct (String.leb (key x) (key y)); [right; now apply IH|now left].
  - inversion H; now left.
Qed.

Section Manifest.

Import ProductPy.

Variable type2extension : string -> list string.
Variable re_match : string -> string -> bool.
Variable embedded_date : string -> string.
Variable mk2list : list string -> list string.

Local Abbreviation get_latest_kernel :=
  (ProductPy.get_latest_kernel re_match embedded_date mk2list).
Local Abbreviation excluded := (ProductPy.excluded re_match).
Local Abbreviation clear_of := (ProductPy.clear_of re_match).

(** Whatever is selected for a token is matched by no pattern of the
    list of excluded kernels. *)
Lemma get_latest_kernel_not_excluded :
  forall fs kernel_type paths pattern dates excluded_kernels mks kernel,
    In kernel (get_latest_kernel fs kernel_type paths pattern dates
                                 excluded_kernels mks) ->
    excluded excluded_kernels kernel = false.
Proof.
  intros fs kt paths pattern dates ex mks kernel H.
  unfold get_latest_kernel, ProductPy.get_latest_kernel in H.
  match type of H with
  | context [latest ?key ?l] => destruct (latest key l) as [k|] eqn:E
  end; [|destruct H].
  destruct H as [<-|[]].
  apply latest_in in E. apply filter_In in E. destruct E as (_ & E).
  now apply negb_true_iff in E.
Qed.

Lemma excluded_false : forall patterns kernel pattern,
  excluded patterns kernel = false -> In pattern patterns ->
  re_match pattern kernel = false.
Proof.
  intros patterns kernel pattern H Hin. unfold excluded, ProductPy.excluded in H.
  destruct (re_match pattern kernel) eqn:E; [|reflexivity].
  assert (existsb (fun p => re_match p kernel) patterns = true)
    by (apply existsb_exists; eauto).
  congruence.
Qed.

Lemma match_grammar_clear :
  forall setup name kernel_type excluded_kernels patterns mkgen g w mkgen' w',
    In kernel_type kernel_type_list ->
    incl patterns excluded_kernels ->
    Forall (clear_of patterns) mkgen ->
    match_grammar type2extension re_match embedded_date mk2list setup name
                  kernel_type excluded_kernels mkgen g w = (Ok mkgen', w') ->
    Forall (clear_of patterns) mkgen'.
Proof.
  intros setup name kt ex patterns mkgen g w mkgen' w' Hkt Hincl HF H.
  unfold match_grammar in H.
  match type of H with
  | (if ?c then _ else _) _ = _ => destruct c
  end; [|inversion H; now subst].
  unfold bind, glob, get_fs in H. simpl in H.
  match type of H with
  | context [for_each ?l ?body ?w0] =>
      destruct (for_each l body w0) as [[[]|e] w1]; [|discriminate]
  end.
  inversion H; subst; clear H.
  apply Forall_app. split; [assumption|].
  apply Forall_forall. intros entry Hin. apply in_map_iff in Hin.
  destruct Hin as (kernel & <- & Hk).
  exists kt, kernel. split; [reflexivity|]. split; [exact Hkt|].
  intros pattern Hp.
  apply (excluded_false ex); [|now apply Hincl].
  eapply get_latest_kernel_not_excluded; exact Hk.
Qed.

Lemma match_kernel_type_clear :
  forall setup name grammar acc kernel_type w acc' w',
    In kernel_type kernel_type_list ->
    Forall (clear_of (excludes grammar)) (snd acc) ->
    match_kernel_type type2extension re_match embedded_date mk2list setup name
                      grammar acc kernel_type w = (Ok acc', w') ->
    Forall (clear_of (excludes grammar)) (snd acc').
Proof.
  intros setup name grammar acc kt w acc' w' Hkt HF H.
  unfold match_kernel_type in H. unfold bind at 1, logging at 1 in H.
  unfold bind at 1 in H.
  match type of H with
  | context [fold_m grammar (snd acc) ?f ?w] =>
      set (w0 := w) in *;
      destruct (fold_m grammar (snd acc) f w0) as [[mkgen|e] w1] eqn:E;
        [|discriminate]
  end.
  inversion H; subst; clear H. simpl.
  eapply (fold_m_invariant (Forall (clear_of (excludes grammar))));
    [|exact HF|exact E].
  intros mk g w2 mk' w2' _ HF' Hm.
  eapply match_grammar_clear; [exact Hkt| |exact HF'|exact Hm].
  intros x Hx. apply in_or_app. now right.
Qed.

(** Every entry of the list of the kernels of the meta-kernel is a
    kernel type and a kernel that no pattern of an [exclude:] line of the
    grammar matches. *)
Lemma meta_kernel_entries_clear :
  forall setup name w grammar w1 mkgen_kernels w',
    read_grammar setup w = (Ok grammar, w1) ->
    MetaKernelProduct_mkgen_kernels type2extension re_match embedded_date
                                    mk2list setup name w
      = (Ok mkgen_kernels, w') ->
    Forall (clear_of (excludes grammar)) mkgen_kernels.
Proof.
  intros setup name w grammar w1 mkgen w' Hg H.
  unfold MetaKernelProduct_mkgen_kernels in H. unfold bind at 1 in H.
  rewrite Hg in H. unfold bind in H.
  match type of H with
  | context [fold_m kernel_type_list ?a ?f w1] =>
      destruct (fold_m kernel_type_list a f w1) as [[acc|e] w2] eqn:E;
        [|discriminate]
  end.
  inversion H; subst; clear H.
  assert (HF : Forall (clear_of (excludes grammar)) (snd acc)).
  { eapply (fold_m_invariant
              (fun acc => Forall (clear_of (excludes grammar)) (snd acc)));
      [| |exact E]; [|apply Forall_nil].
    intros a kt w3 a' w3' Hkt HF Hm.
    eapply match_kernel_type_clear; eauto. }
  rewrite Forall_forall in *. intros entry Hin.
  apply HF. now apply fromkeys_in.
Qed.

(** C8.  A candidate that a pattern of an [exclude:] line of the grammar
    matches is not in the list of the kernels of the meta-kernel that
    [write_product] builds, under any kernel type: whatever the token,
    however recent the candidate, and whatever other candidates there
    are. *)
Theorem excluded_kernel_not_in_meta_kernel :
  forall setup name w grammar w1 mkgen_kernels w',
    read_grammar setup w = (Ok grammar, w1) ->
    MetaKernelProduct_mkgen_kernels type2extension re_match embedded_date
                                    mk2list setup name w
      = (Ok mkgen_kernels, w') ->
    forall g candidate kernel_type,
      In g grammar ->
      Py.contains "exclude:" g = true ->
      re_match (Py.final (Py.split g "exclude:")) candidate = true ->
      In kernel_type kernel_type_list ->
      ~ In (kernel_type ++ "/" ++ candidate) mkgen_kernels.
Proof.
  intros setup name w grammar w1 mkgen w' Hg H g candidate kt Hin Hc Hm Hkt Hentry.
  pose proof (meta_kernel_entries_clear _ _ _ _ _ _ _ Hg H) as HF.
  rewrite Forall_forall in HF.
  destruct (HF _ Hentry) as (kt' & kernel & He & Hkt' & Hk).
  apply (kernel_entry_injective _ _ _ _ Hkt Hkt') in He. subst kernel.
  rewrite Hk in Hm; [discriminate|].
  unfold excludes. apply in_map_iff. exists g. split; [reflexivity|].
  apply filter_In. auto.
Qed.

End Manifest.

(** The theorem at a grammar with a token for the frames kernels and
    version 9 excluded: version 9, the latest, is not in the list, which
    holds version 8. *)
Lemma excluded_kernel_not_in_meta_kernel_witness :
  ~ In ("fk" ++ "/" ++ "insight_v09.tf") ["fk/insight_v08.tf"].
Proof.
  assert (Hg : exists w1,
             ProductPy.read_grammar (Scenario.setup false)
               (world0 (Scenario.staged_frames Scenario.grammar_with_exclude))
             = (Ok ["insight_v*.tf"; "exclude:insight_v09.tf"], w1))
    by (eexists; vm_compute; reflexivity).
  assert (Hm : exists w',
             Scenario.mkgen_kernels
               (world0 (Scenario.staged_frames Scenario.grammar_with_exclude))
             = (Ok ["fk/insight_v08.tf"], w'))
    by (eexists; vm_compute; reflexivity).
  destruct Hg as (w1 & Hg). destruct Hm as (w' & Hm).
  apply (excluded_kernel_not_in_meta_kernel
           Scenario.type2extension Scenario.re_match (fun name => name)
           (fun _ => []) (Scenario.setup false) "insight_v01.tm"
           _ _ _ _ _ Hg Hm "exclude:insight_v09.tf").
  - right. left. reflexivity.
  - reflexivity.
  - reflexivity.
  - simpl. tauto.
Defined.

(** Without the [exclude:] line version 9 is selected. *)
Example latest_kernel_without_exclude :
  fst (run (Scenario.staged_frames ["insight_v*.tf" ++ LF])
           Scenario.mkgen_kernels)
  = Ok ["fk/insight_v09.tf"].
Proof. vm_compute. reflexivity. Qed.

(** ** The validation of the kernel list *)

Section RegistersNothing.

Context {A B : Type}.

Lemma quiet_registers_nothing (m : M A) : quiet m -> registers_nothing m.
Proof. intros H w r w' E. now destruct (H _ _ _ E) as (_ & C & _). Qed.

Lemma registers_nothing_bind (m : M A) (k : A -> M B) :
  registers_nothing m -> (forall a, registers_nothing (k a)) ->
  registers_nothing (bind m k).
Proof.
  intros Hm Hk w r w' H. unfold bind in H.
  destruct (m w) as [[a|e] w1] eqn:E.
  - rewrite (Hk a _ _ _ H). eauto.
  - inversion H; subst. eauto.
Qed.

Lemma registers_nothing_lift (s : MainPy.Step A) :
  registers_nothing (MainPy.lift s).
Proof.
  intros w r w' H. unfold MainPy.lift in H.
  destruct (s (w_fs w) (w_log w)) as [r0 [fs l]]. now inversion H.
Qed.

Lemma registers_nothing_if (b : bool) (m1 m2 : M A) :
  registers_nothing m1 -> registers_nothing m2 ->
  registers_nothing (if b then m1 else m2).
Proof. now destruct b. Qed.

End RegistersNothing.

Lemma registers_nothing_copy2 src dst : registers_nothing (MainPy.copy2 src dst).
Proof.
  intros w r w' H. unfold MainPy.copy2 in H.
  destruct (content (w_fs w) src); now inversion H.
Qed.

Section KernelListValidation.

Import SetupPy KernelListPy MainPy.

Ltac quiet_more :=
  repeat first
    [ quiet_step
    | match goal with
      | |- quiet (match ?x with _ => _ end) => destruct x
      end ].

Lemma quiet_set_release self : quiet (set_release self).
Proof.
  unfold set_release, resolve_release, release_from_clear,
    release_from_bundle_label, release_from_kernel_list, first_release.
  quiet_more.
Qed.

Ltac nothing :=
  repeat first
    [ solve [apply quiet_registers_nothing; auto with quiet]
    | solve [apply quiet_registers_nothing; apply quiet_set_release]
    | apply registers_nothing_lift
    | apply registers_nothing_copy2
    | apply registers_nothing_bind
    | apply registers_nothing_if
    | match goal with |- forall _, _ => intro end
    | match goal with
      | |- registers_nothing (match ?x with _ => _ end) => destruct x
      | |- registers_nothing (let (_, _) := ?x in _) => destruct x
      end ].

Variable check_configuration : Setup -> Step unit.
Variable clear_run : Setup -> Step unit.
Variable read_config : Setup -> Step (list string).
Variable write_plan : Setup -> Step (bool * list string).
Variable read_plan : Setup -> string -> Step (list string).
Variable fill_list : Setup -> list string -> string -> Step unit.
Variable validate_report : Setup -> KernelList -> Counts -> M unit.
Variable prepare_bundle : Setup -> KernelList -> Step unit.
Variable OrbnumFileProduct : Setup -> string -> Step unit.
Variable SpiceKernelProduct : Setup -> string -> Step unit.
Variable rest_of_pipeline : Setup -> KernelList -> M unit.

Local Abbreviation plan_phase :=
  (MainPy.plan_phase check_configuration clear_run read_config write_plan
                     read_plan).
Local Abbreviation list_file := (MainPy.list_file fill_list).
Local Abbreviation before_validation :=
  (MainPy.before_validation check_configuration clear_run read_config
                            write_plan read_plan fill_list).
Local Abbreviation main :=
  (MainPy.main check_configuration clear_run read_config write_plan read_plan
               fill_list validate_report prepare_bundle OrbnumFileProduct
               SpiceKernelProduct rest_of_pipeline).

Lemma plan_phase_registers_nothing setup0 :
  registers_nothing (plan_phase setup0).
Proof.
  unfold plan_phase, MainPy.plan_phase, KernelList_init. nothing.
Qed.



(** The counts of a list with one group of entries, and of a list whose
    description is missing. *)
Example counts_of_a_group :
  let c := KernelListPy.count_lines
             ["FILE             = spice_kernels/fk/insight_v06.tf" ++ LF;
              "MAKLABEL_OPTIONS = " ++ LF;
              "DESCRIPTION      = Frames kernel." ++ LF] in
  (KernelListPy.num_file c, KernelListPy.num_opti c, KernelListPy.num_desc c)
  = (1, 1, 1)%Z
  /\ KernelListPy.ker_in_list c = ["insight_v06.tf"].
Proof. split; reflexivity. Qed.

Example counts_of_unbalanced_list :
  let c := KernelListPy.count_lines
             (map universal_newline Scenario.unbalanced_list) in
  (KernelListPy.num_file c, KernelListPy.num_opti c, KernelListPy.num_desc c)
  = (1, 1, 0)%Z.
Proof. reflexivity. Qed.



End KernelListValidation.



(** ** The miscellaneous collection *)

Section MiscellaneousPhase.

Import ProductPy NpbMainPy.

Variable md5 : list string -> string.
Variable compare_files : string -> string -> string -> string -> M unit.
Variable write_readme : Setup -> M unit.

Local Abbreviation compare_keeps := (NpbMainPy.compare_keeps compare_files).
Local Abbreviation readme_keeps := (NpbMainPy.readme_keeps write_readme).

Lemma quiet_validate setup self collection :
  quiet (InventoryProduct_validate setup self collection).
Proof.
  unfold InventoryProduct_validate, check_product. quiet_auto.
Qed.

Lemma quiet_inventory_version setup collection :
  quiet (inventory_version setup collection).
Proof. unfold inventory_version. quiet_auto. Qed.

Lemma keeps_compare setup self collection :
  compare_keeps ->
  keeps (path self) (InventoryProduct_compare compare_files setup self collection).
Proof.
  intros Hc. unfold InventoryProduct_compare.
  repeat first
    [ apply Hc
    | solve [apply quiet_keeps; auto with quiet]
    | apply keeps_bind
    | apply keeps_if
    | match goal with |- forall _, _ => intro end ].
Qed.

(** The file of the inventory when its constructor returns: its name is
    that of the collection and a version, and it holds entries carried
    forward, then the primary entries of the new products. *)
Lemma inventory_file : forall setup collection w inventory w',
  compare_keeps ->
  InventoryProduct compare_files setup collection w = (Ok inventory, w') ->
  exists carried z,
    path inventory
      = staging_directory setup ++ "/" ++ Collection.name collection ++ "/"
        ++ "collection_" ++ Collection.name collection ++ "_inventory_v"
        ++ z ++ ".csv"
    /\ content (w_fs w') (path inventory)
       = Some (carried
               ++ spec_primary_entries (Collection.product collection))%list.
Proof.
  intros setup collection w inventory w' Hcmp H.
  unfold InventoryProduct in H.
  destruct (String.eqb (pds setup) "4"); [|discriminate].
  unfold bind at 1 in H.
  destruct (inventory_version setup collection w) as [[[v pc]|e] w1];
    [|discriminate].
  cbn [fst snd] in H.
  set (self := {| name := _; path := _; lid := _; vid := _; version := _;
                  path_current := _; new_product := _; label := _ |}) in H.
  unfold bind in H.
  destruct (InventoryProduct_write_product compare_files setup self collection w1)
    as [[[]|e] w2] eqn:Hw; [|discriminate].
  inversion H; subst inventory w2; clear H.
  unfold InventoryProduct_write_product in Hw. unfold bind at 1 in Hw.
  destruct (write_entries setup self collection w1) as [[[]|e] w3] eqn:He;
    [|discriminate].
  destruct (write_entries_result setup self collection w1 w3 He)
    as (carried & Hp & _).
  exists carried, (Py.zfill 3 v). split; [reflexivity|].
  rewrite <- Hp.
  revert Hw. generalize w3 (Ok tt : result unit) w'.
  change (keeps (path self)
    (input_if (interactive setup) ">> Press Enter to continue..." ;;;
     logging INFO ("-- Generated " ++ path self) ;;;
     InventoryProduct_validate setup self collection ;;;
     (if truthy (diff setup)
      then InventoryProduct_compare compare_files setup self collection
      else ret tt))).
  repeat first
    [ apply keeps_compare; assumption
    | solve [apply quiet_keeps; auto with quiet]
    | solve [apply quiet_keeps; apply quiet_validate]
    | apply keeps_bind
    | apply keeps_if
    | match goal with |- forall _, _ => intro end ].
Qed.

Lemma inventory_and_checksum_paths_differ : forall dir collection z name,
  normpath (dir ++ "/" ++ collection ++ "/checksum/" ++ name)
  <> normpath (dir ++ "/" ++ collection ++ "/"
               ++ "collection_" ++ collection ++ "_inventory_v" ++ z ++ ".csv").
Proof.
  intros dir c z name H.
  change (c ++ "/checksum/" ++ name)
    with (c ++ "/" ++ "checksum/" ++ name) in H.
  rewrite !normpath_in_directory in H.
  apply append_inv_head in H. simpl in H. discriminate.
Qed.

(** The table that [generate] writes: the lines of the files of the
    staging area other than the table, in the file system it leaves. *)
Lemma generate_result : forall setup self w w',
  ChecksumProduct_generate md5 setup self w = (Ok tt, w') ->
  content (w_fs w') (path self)
    = Some (map (checksum_line md5 setup)
                (filter (other_than self) (staged setup (w_fs w'))))
  /\ filter (other_than self) (staged setup (w_fs w'))
     = filter (other_than self) (staged setup (w_fs w))
  /\ (forall q, normpath (path self) <> normpath q ->
                content (w_fs w') q = content (w_fs w) q)
  /\ w_catalog w' = w_catalog w.
Proof.
  intros setup self w w' H.
  unfold ChecksumProduct_generate in H.
  unfold bind at 1, get_fs at 1 in H.
  unfold bind at 1, open_write at 1 in H.
  set (w0 := {| w_fs := set_content (w_fs w) (path self) [];
                w_log := w_log w; w_catalog := w_catalog w |}) in H.
  set (files := filter (other_than self) (staged setup (w_fs w))) in *.
  assert (Hex : forall v, (fun kv => other_than self kv
                   && prefix (normpath (staging_directory setup ++ "/")) (fst kv))
                  (normpath (path self), v) = false).
  { intros v. unfold other_than. simpl. now rewrite String.eqb_refl. }
  assert (Hff : forall fs, filter (other_than self) (staged setup fs)
                = filter (fun kv => other_than self kv
                     && prefix (normpath (staging_directory setup ++ "/")) (fst kv))
                    fs).
  { intros fs. unfold staged. induction fs as [|kv fs IH]; simpl; [reflexivity|].
    destruct (prefix _ (fst kv)); simpl.
    - rewrite IH. now rewrite andb_true_r.
    - rewrite IH. now rewrite andb_false_r. }
  destruct (for_each_write _ (checksum_line md5 setup) (path self) files w0 [])
    as (w1 & Hr & Hp & Hq & _ & Hcat).
  { apply content_set_content_same. }
  rewrite Hr in H. inversion H; subst w1; clear H.
  assert (Hsame : filter (other_than self) (staged setup (w_fs w')) = files).
  { unfold files. rewrite !Hff.
    rewrite (for_each_write_excluded _ _ _ _ _ _ _ Hex Hr). simpl.
    unfold set_content. now apply filter_update_excluded. }
  split; [now rewrite Hsame|]. split; [exact Hsame|]. split; [|exact Hcat].
  intros q Hne. rewrite (Hq q Hne). simpl. now apply content_set_content_other.
Qed.

(** C2.  When the miscellaneous phase of [main] completes, the file of
    the inventory of the collection holds the primary entry of the
    checksum product, and the checksum table holds one line for every
    file of the staging area other than itself, that of the inventory
    among them, with the checksum of the inventory as it is in the end:
    the product was in the collection when the inventory was written, and
    the table was generated after it. *)
Theorem checksum_in_inventory_and_inventory_in_checksum :
  forall setup miscellaneous_collection name lid vid w c checksum inventory w',
    compare_keeps ->
    readme_keeps setup (Collection.name miscellaneous_collection) ->
    miscellaneous_phase md5 compare_files write_readme setup
                        miscellaneous_collection name lid vid w
      = (Ok (c, checksum, inventory), w') ->
    exists entries table,
      content (w_fs w') (path inventory) = Some entries
      /\ In (spec_entry "P" lid vid) entries
      /\ content (w_fs w') (path checksum) = Some table
      /\ table = map (checksum_line md5 setup)
                     (filter (other_than checksum) (staged setup (w_fs w')))
      /\ In (normpath (path inventory), entries)
            (filter (other_than checksum) (staged setup (w_fs w')))
      /\ In (checksum_line md5 setup (normpath (path inventory), entries)) table.
Proof.
  intros setup misc name lid vid w c checksum inventory w' Hcmp Hreadme H.
  unfold miscellaneous_phase in H.
  set (chk := ChecksumProduct setup misc name lid vid) in H.
  unfold bind at 1 in H. unfold add at 1 in H.
  unfold bind at 1, register at 1, ret at 1 in H.
  set (w1 := {| w_fs := w_fs w; w_log := w_log w; w_catalog := _ |}) in H.
  set (c1 := {| Collection.name := Collection.name misc;
                Collection.type := _; Collection.product := _ |}) in H.
  unfold bind at 1 in H.
  destruct (InventoryProduct compare_files setup c1 w1) as [[inv|e] w2] eqn:Hi;
    [|discriminate].
  destruct (inventory_file _ _ _ _ _ Hcmp Hi) as (carried & z & Hpath & Hc2).
  unfold bind at 1 in H. unfold add at 1 in H.
  unfold bind at 1, register at 1, ret at 1 in H.
  set (w3 := {| w_fs := w_fs w2; w_log := w_log w2; w_catalog := _ |}) in H.
  unfold bind at 1 in H.
  destruct (write_readme setup w3) as [[[]|e] w4] eqn:Hr; [|discriminate].
  unfold bind at 1 in H.
  destruct (ChecksumProduct_generate md5 setup chk w4) as [[[]|e] w5] eqn:Hg;
    [|discriminate].
  unfold bind, add, register, ret in H. simpl in H.
  inversion H; subst c checksum inventory w'; clear H. simpl.
  destruct (generate_result _ _ _ _ Hg) as (Htable & Hfiles & Hother & _).
  assert (Hne : normpath (path chk) <> normpath (path inv)).
  { rewrite Hpath. unfold chk, ChecksumProduct. simpl.
    apply inventory_and_checksum_paths_differ. }
  assert (Hc4 : content (w_fs w4) (path inv)
                = Some (carried ++ spec_primary_entries (Collection.product c1))%list).
  { rewrite <- Hc2. rewrite Hpath.
    apply (Hreadme _ _ _ _ Hr). }
  assert (Hc5 : content (w_fs w5) (path inv)
                = Some (carried ++ spec_primary_entries (Collection.product c1))%list).
  { rewrite <- Hc4. now apply Hother. }
  assert (Hin : In (normpath (path inv),
                    (carried ++ spec_primary_entries (Collection.product c1))%list)
                   (filter (other_than chk) (staged setup (w_fs w5)))).
  { apply filter_In. split.
    - unfold staged. apply filter_In. split.
      + apply lookup_in. exact Hc5.
      + simpl. rewrite Hpath. apply normpath_staged.
    - unfold other_than. cbn [fst].
      destruct (String.eqb_spec (normpath (path inv)) (normpath (path chk)));
        [now elim Hne|reflexivity]. }
  eexists; eexists. split; [exact Hc5|]. split.
  { apply in_or_app. right. unfold c1. simpl.
    unfold spec_primary_entries. rewrite flat_map_app. apply in_or_app. right.
    simpl. now left. }
  split; [exact Htable|]. split; [reflexivity|]. split; [exact Hin|].
  apply in_map. exact Hin.
Qed.

End MiscellaneousPhase.

Lemma no_compare_keeps : NpbMainPy.compare_keeps Scenario.no_compare.
Proof. intros a b d m w r w' H. now inversion H. Qed.

Lemma no_readme_keeps : forall setup collection,
  NpbMainPy.readme_keeps (fun _ => ret tt) setup collection.
Proof. intros setup collection name w r w' H. now inversion H. Qed.

(** The theorem at the first release with one kernel in the staging
    area. *)
Lemma checksum_in_inventory_and_inventory_in_checksum_witness :
  exists c checksum inventory w' entries table,
    run Scenario.staged_kernel Scenario.miscellaneous_phase
      = (Ok (c, checksum, inventory), w')
    /\ content (w_fs w') (ProductPy.path inventory) = Some entries
    /\ In (ProductPy.spec_entry "P" Scenario.checksum_lid "1.0") entries
    /\ content (w_fs w') (ProductPy.path checksum) = Some table
    /\ In (NpbMainPy.checksum_line Scenario.md5 (Scenario.setup false)
             (normpath (ProductPy.path inventory), entries)) table.
Proof.
  destruct (run Scenario.staged_kernel Scenario.miscellaneous_phase)
    as [[[[c checksum] inventory]|e] w'] eqn:E; [|vm_compute in E; discriminate].
  destruct (checksum_in_inventory_and_inventory_in_checksum
              Scenario.md5 Scenario.no_compare (fun _ => ret tt)
              (Scenario.setup false) (Scenario.miscellaneous [])
              "checksum_v001.tab" Scenario.checksum_lid "1.0"
              (world0 Scenario.staged_kernel) c checksum inventory w'
              no_compare_keeps (no_readme_keeps _ _) E)
    as (entries & table & H1 & H2 & H3 & _ & _ & H6).
  exists c, checksum, inventory, w', entries, table. auto.
Defined.

(** * Further properties of the code *)

(** ** Splitting at a separator *)

Lemma append_nil_r : forall s : string, s ++ "" = s.
Proof. induction s; simpl; congruence. Qed.

Lemma split_go_nonempty : forall sep s cur k, Py.split_go sep s cur k <> [].
Proof.
  intros sep s. induction s as [|c s IH]; intros cur k; cbn [Py.split_go];
    [discriminate|].
  destruct k; [|apply IH].
  destruct (prefix sep (String c s)); [discriminate|apply IH].
Qed.

Lemma final_cons : forall a l, l <> [] -> Py.final (a :: l) = Py.final l.
Proof. intros a [|b l] H; [congruence|reflexivity]. Qed.

Lemma final_app : forall l l', l' <> [] -> Py.final (l ++ l') = Py.final l'.
Proof.
  induction l as [|a l IH]; intros l' H; [reflexivity|].
  change ((a :: l) ++ l')%list with (a :: (l ++ l'))%list.
  rewrite final_cons; [now apply IH|].
  destruct l; simpl; [assumption|discriminate].
Qed.

(** The characters of an occurrence of the separator are passed over. *)
Lemma split_go_skip : forall sep u t cur,
  Py.split_go sep (u ++ t) cur (length u) = Py.split_go sep t cur 0.
Proof. intros sep u. induction u as [|c u IH]; intros t cur; simpl; auto. Qed.


Lemma contains_cons : forall sub c s,
  Py.contains sub (String c s) = false ->
  prefix sub (String c s) = false /\ Py.contains sub s = false.
Proof. intros sub c s H. simpl in H. now apply orb_false_iff in H. Qed.

(** A string without the separator is one piece. *)
Lemma split_go_no_match : forall sep t cur,
  Py.contains sep t = false -> Py.split_go sep t cur 0 = [cur ++ t].
Proof.
  intros sep t. induction t as [|c t IH]; intros cur H.
  - simpl. now rewrite append_nil_r.
  - destruct (contains_cons _ _ _ H) as (Hp & Hc).
    cbn [Py.split_go]. rewrite Hp, (IH _ Hc), append_assoc. reflexivity.
Qed.

Lemma split_no_match : forall sep t,
  Py.contains sep t = false -> Py.split t sep = [t].
Proof. intros. unfold Py.split. now rewrite split_go_no_match. Qed.

Lemma prefix_length : forall p s, prefix p s = true -> (length p <= length s)%nat.
Proof.
  induction p as [|a p IH]; intros [|c s] H; simpl in *; try lia; try discriminate.
  destruct (ascii_dec a c); [|discriminate]. apply IH in H. lia.
Qed.

Lemma prefix_take : forall p s, prefix p s = true -> p = Py.take (length p) s.
Proof.
  induction p as [|a p IH]; intros [|c s] H; simpl in *; try reflexivity;
    try discriminate.
  destruct (ascii_dec a c); [|discriminate]. subst. f_equal. now apply IH.
Qed.

Lemma take_append : forall k s t,
  (k <= length s)%nat -> Py.take k (s ++ t) = Py.take k s.
Proof.
  induction k as [|k IH]; intros [|c s] t H; simpl in *; try reflexivity;
    try lia.
  f_equal. apply IH. lia.
Qed.

Lemma length_drop : forall k s, length (Py.drop k s) = (length s - k)%nat.
Proof. induction k as [|k IH]; intros [|c s]; simpl; auto; lia. Qed.

Lemma drop_cons : forall k s,
  (k < length s)%nat ->
  exists c, Py.drop k s = String c (Py.drop (S k) s).
Proof.
  induction k as [|k IH]; intros [|c s] H; simpl in *; try lia.
  - now exists c.
  - apply IH. lia.
Qed.

Lemma prefix_cons : forall a p c s,
  prefix (String a p) (String c s) = true -> a = c /\ prefix p s = true.
Proof. intros a p c s H. simpl in H. now destruct (ascii_dec a c). Qed.

Lemma border_free_spec : forall sep k,
  border_free sep = true -> (0 < k < length sep)%nat ->
  Py.take k sep <> Py.drop (length sep - k) sep.
Proof.
  intros sep k H Hk. unfold border_free in H. rewrite forallb_forall in H.
  specialize (H k). rewrite in_seq in H.
  assert (Hn : negb (String.eqb (Py.take k sep)
                                (Py.drop (length sep - k) sep)) = true)
    by (apply H; lia).
  apply negb_true_iff in Hn. now apply String.eqb_neq.
Qed.

(** The scan of [x ++ sep ++ t], wherever it stands in [x], comes to the
    occurrence of a border-free separator that follows [x]. *)
Lemma split_go_suffix : forall sep t,
  sep <> "" -> border_free sep = true ->
  forall x cur k,
    (k < length sep)%nat ->
    (0 < k -> prefix (Py.drop (length sep - k) sep) (x ++ sep ++ t) = true)%nat ->
    exists l, Py.split_go sep (x ++ sep ++ t) cur k
              = (l ++ Py.split_go sep t "" 0)%list.
Proof.
  intros sep t Hne Hbf x. induction x as [|c x IH]; intros cur k Hk Hp.
  - destruct k as [|k].
    + destruct sep as [|a sep']; [contradiction|].
      pose proof (prefix_append (String a sep') t) as Hpa.
      cbn [append] in Hpa. cbn [append Py.split_go]. rewrite Hpa.
      exists [cur].
      replace (length (String a sep') - 1)%nat with (length sep')
        by (simpl; lia).
      now rewrite split_go_skip.
    + exfalso. assert (H0 : (0 < S k)%nat) by lia. specialize (Hp H0).
      cbn [append] in Hp. apply prefix_take in Hp.
      rewrite length_drop in Hp.
      replace (length sep - (length sep - S k))%nat with (S k) in Hp by lia.
      rewrite take_append in Hp by lia.
      apply (border_free_spec sep (S k) Hbf); [lia|congruence].
  - cbn [append Py.split_go]. destruct k as [|k].
    + destruct (prefix sep (String c (x ++ sep ++ t))) eqn:E.
      * destruct (IH "" (length sep - 1)%nat) as (l & Hl).
        { destruct sep; [contradiction|simpl; lia]. }
        { intros H0. destruct sep as [|a sep']; [contradiction|].
          apply prefix_cons in E. destruct E as (_ & E).
          cbn [length] in *.
          replace (S (length sep') - (S (length sep') - 1))%nat with 1%nat
            by lia.
          exact E. }
        exists (cur :: l). now rewrite Hl.
      * apply IH; [assumption|lia].
    + apply IH; [lia|]. intros H0.
      assert (H1 : (0 < S k)%nat) by lia. specialize (Hp H1).
      cbn [append] in Hp.
      destruct (drop_cons (length sep - S k) sep) as (a & Ha); [lia|].
      rewrite Ha in Hp. apply prefix_cons in Hp. destruct Hp as (_ & Hp).
      replace (length sep - k)%nat with (S (length sep - S k)) by lia.
      exact Hp.
Qed.

(** The pieces of [x ++ sep ++ t] end with the pieces of [t]. *)
Lemma split_suffix : forall sep x t,
  sep <> "" -> border_free sep = true ->
  exists l, Py.split (x ++ sep ++ t) sep = (l ++ Py.split t sep)%list.
Proof.
  intros sep x t Hne Hbf. unfold Py.split.
  apply split_go_suffix; try assumption.
  - destruct sep; [contradiction|simpl; lia].
  - intros H. inversion H.
Qed.

(** [(x + sep + t).split(sep)[-1]] is [t] when [t] holds no separator. *)
Lemma final_split : forall sep x t,
  sep <> "" -> border_free sep = true -> Py.contains sep t = false ->
  Py.final (Py.split (x ++ sep ++ t) sep) = t.
Proof.
  intros sep x t Hne Hbf Ht.
  destruct (split_suffix sep x t Hne Hbf) as (l & ->).
  rewrite final_app by (apply split_go_nonempty).
  now rewrite split_no_match.
Qed.

Lemma drop_last_snoc : forall s,
  s <> "" -> exists c, s = Py.drop_last s ++ String c "".
Proof.
  induction s as [|a s IH]; intros H; [contradiction|].
  destruct s as [|b s].
  - now exists a.
  - destruct IH as (c & Hc); [discriminate|]. exists c.
    change (Py.drop_last (String a (String b s)))
      with (String a (Py.drop_last (String b s))).
    cbn [append]. now rewrite <- Hc.
Qed.

Lemma length_drop_last : forall s, length (Py.drop_last s) = (length s - 1)%nat.
Proof.
  induction s as [|a s IH]; [reflexivity|].
  destruct s as [|b s]; [reflexivity|].
  change (Py.drop_last (String a (String b s)))
    with (String a (Py.drop_last (String b s))).
  cbn [length] in *. rewrite IH. lia.
Qed.

Lemma prefix_append_short : forall p a b,
  (length p <= length a)%nat -> prefix p (a ++ b) = prefix p a.
Proof.
  induction p as [|c p IH]; intros [|d a] b H; simpl in *; try reflexivity;
    try lia; [now destruct b|].
  destruct (ascii_dec c d); [|reflexivity]. apply IH. lia.
Qed.

(** The first piece: [x] when the first occurrence of the separator in
    [x ++ sep ++ t] is the one that follows [x]. *)
Lemma split_go_first : forall sep t x cur,
  Py.contains sep (x ++ Py.drop_last sep) = false ->
  Py.split_go sep (x ++ sep ++ t) cur 0 = (cur ++ x) :: Py.split t sep.
Proof.
  intros sep t x. induction x as [|c x IH]; intros cur H.
  - assert (Hne : sep <> "").
    { intros ->. simpl in H. discriminate. }
    destruct sep as [|a sep']; [contradiction|].
    pose proof (prefix_append (String a sep') t) as Hpa.
    cbn [append] in Hpa. cbn [append Py.split_go]. rewrite Hpa.
    rewrite append_nil_r.
    replace (length (String a sep') - 1)%nat with (length sep')
      by (simpl; lia).
    now rewrite split_go_skip.
  - assert (Hne : sep <> "").
    { intros ->. cbn [append] in H. simpl in H. discriminate. }
    cbn [append] in H. destruct (contains_cons _ _ _ H) as (Hp & Hc).
    cbn [append Py.split_go].
    destruct (drop_last_snoc sep Hne) as (z & Hz).
    assert (E : prefix sep (String c (x ++ sep ++ t)) = false).
    { rewrite Hz at 2. rewrite append_assoc.
      change (String c (x ++ Py.drop_last sep ++ String z "" ++ t))
        with (String c x ++ Py.drop_last sep ++ String z "" ++ t).
      rewrite <- append_assoc.
      rewrite prefix_append_short; [exact Hp|].
      rewrite length_append, length_drop_last. cbn [length].
      destruct sep; [contradiction|simpl; lia]. }
    rewrite E, (IH _ Hc), append_assoc. reflexivity.
Qed.

Lemma split_first : forall sep x t,
  Py.contains sep (x ++ Py.drop_last sep) = false ->
  Py.split (x ++ sep ++ t) sep = x :: Py.split t sep.
Proof. intros. unfold Py.split. now rewrite split_go_first. Qed.

(** [(x + sep + t).split(sep)[0]] *)
Lemma first_split : forall sep x t,
  Py.contains sep (x ++ Py.drop_last sep) = false ->
  Py.first (Py.split (x ++ sep ++ t) sep) = x.
Proof. intros. now rewrite split_first. Qed.

(** ** Characters *)

Lemma occurs_append : forall c s t, occurs c (s ++ t) = occurs c s || occurs c t.
Proof.
  induction s as [|a s IH]; intros t; simpl; [reflexivity|].
  now rewrite IH, orb_assoc.
Qed.

Lemma prefix_occurs : forall c sep s,
  prefix (String c sep) s = true -> occurs c s = true.
Proof.
  intros c sep [|a s] H; [discriminate|]. apply prefix_cons in H.
  destruct H as (-> & _). simpl. now rewrite Ascii.eqb_refl.
Qed.

(** A string that lacks the first character of the separator holds no
    separator. *)
Lemma contains_occurs : forall c sep s,
  occurs c s = false -> Py.contains (String c sep) s = false.
Proof.
  intros c sep s. induction s as [|a s IH]; intros H; [reflexivity|].
  cbn [Py.contains]. simpl in H. apply orb_false_iff in H.
  destruct H as (Ha & Hs). rewrite (IH Hs), orb_false_r.
  destruct (prefix (String c sep) (String a s)) eqn:E; [|reflexivity].
  apply prefix_cons in E. destruct E as (-> & _).
  now rewrite Ascii.eqb_refl in Ha.
Qed.

Lemma all_digits_occurs : forall c s,
  all_digits s = true -> Py.is_digit c = false -> occurs c s = false.
Proof.
  intros c s. induction s as [|a s IH]; intros H Hc; [reflexivity|].
  simpl in *. apply andb_true_iff in H. destruct H as (Ha & Hs).
  rewrite (IH Hs Hc), orb_false_r.
  destruct (Ascii.eqb_spec c a); [subst; congruence|reflexivity].
Qed.

Lemma all_digits_append : forall s t,
  all_digits s = true -> all_digits t = true -> all_digits (s ++ t) = true.
Proof.
  induction s as [|a s IH]; intros t Hs Ht; [assumption|].
  simpl in *. apply andb_true_iff in Hs. destruct Hs as (Ha & Hs).
  now rewrite Ha, IH.
Qed.

Lemma all_digits_zeros : forall k, all_digits (Py.zeros k) = true.
Proof. induction k; simpl; auto. Qed.

Lemma all_digits_uint : forall d,
  all_digits (NilEmpty.string_of_uint d) = true.
Proof. induction d; simpl; auto. Qed.

(** A number that is not negative is written with digits only. *)
Lemma all_digits_zfill : forall w n,
  (0 <= n)%Z -> all_digits (Py.zfill w n) = true.
Proof.
  intros w n Hn. unfold Py.zfill.
  destruct (Z.ltb_spec n 0); [lia|].
  destruct (str_nonnegative n Hn) as (d & _ & -> & _).
  apply all_digits_append; [apply all_digits_zeros|apply all_digits_uint].
Qed.

(** ** Names that carry a number *)

Lemma contains_digits_then : forall c sep w n rest,
  (0 <= n)%Z -> Py.is_digit c = false -> occurs c rest = false ->
  Py.contains (String c sep) (Py.zfill w n ++ rest) = false.
Proof.
  intros c sep w n rest Hn Hc Hr. apply contains_occurs.
  rewrite occurs_append, Hr, orb_false_r.
  apply all_digits_occurs; [now apply all_digits_zfill|assumption].
Qed.

(** The number that ends a name, before the extension: what follows the
    last occurrence of a border-free separator is read back. *)
Lemma number_after_separator : forall c sep x w n ext,
  border_free (String c sep) = true ->
  (0 <= n)%Z -> Py.is_digit c = false ->
  occurs c ("." ++ ext) = false ->
  Py.int (Py.first (Py.split
            (Py.final (Py.split (x ++ String c sep ++ Py.zfill w n ++ "." ++ ext)
                                (String c sep))) "."))
  = Some n.
Proof.
  intros c sep x w n ext Hbf Hn Hc He.
  rewrite final_split; [|discriminate|assumption|now apply contains_digits_then].
  rewrite first_split; [apply int_zfill|].
  cbn [Py.drop_last]. rewrite append_nil_r. apply contains_occurs.
  apply all_digits_occurs; [now apply all_digits_zfill|reflexivity].
Qed.

Section BundleLabel.

Import SetupPy.

(** The path of the label of the bundle of release [n] in the bundle
    directory, named as [Bundle] names it. *)
Local Abbreviation bundle_label self n :=
  ((bundle_directory self ++ "/" ++ mission_acronym self ++ "_spice")
   ++ "/" ++ BundlePy.Bundle_name (mission_acronym self) (Py.zfill 3 n)).

Lemma bundle_label_number_of_name : forall self n,
  (0 <= n)%Z -> bundle_label_number (bundle_label self n) = Some n.
Proof.
  intros self n Hn. unfold bundle_label_number, BundlePy.Bundle_name.
  set (x := (bundle_directory self ++ "/" ++ mission_acronym self ++ "_spice")
            ++ "/" ++ "bundle_" ++ mission_acronym self).
  replace ((bundle_directory self ++ "/" ++ mission_acronym self ++ "_spice")
           ++ "/" ++ "bundle_" ++ mission_acronym self ++ "_spice_v"
           ++ Py.zfill 3 n ++ ".xml")
    with (x ++ "_spice_v" ++ Py.zfill 3 n ++ "." ++ "xml")
    by (subst x; now rewrite !append_assoc).
  now apply number_after_separator.
Qed.

(** X1.  The name [Bundle] gives to the label of release [n] is read back
    by [set_release]: when it is the latest label of the bundle directory,
    the next run generates release [n + 1] as an increment of release
    [n]. *)
Theorem set_release_follows_bundle_name : forall self w n,
  truthy (clear (args self)) = false ->
  (0 <= n)%Z ->
  Py.last_item (Py.sorted (bundle_labels (w_fs w) self))
    = Some (bundle_label self n) ->
  exists s w',
    set_release self w = (Ok s, w')
    /\ release s = Py.zfill 3 (n + 1)
    /\ current_release s = Py.zfill 3 n
    /\ increment s = true.
Proof.
  intros self w n Hc Hn Hl.
  apply (set_release_of_bundle_label self w _ n Hc Hl).
  now apply bundle_label_number_of_name.
Qed.

Lemma set_release_follows_bundle_name_witness :
  exists s w',
    set_release (Scenario.release_setup "" "")
                (world0 Scenario.bundle_of_release_8) = (Ok s, w')
    /\ release s = "009" /\ current_release s = "008" /\ increment s = true.
Proof.
  apply (set_release_follows_bundle_name
           (Scenario.release_setup "" "")
           (world0 Scenario.bundle_of_release_8) 8);
    [reflexivity|lia|vm_compute; reflexivity].
Defined.

End BundleLabel.

Section InventoryVersion.

Import ProductPy.

Local Abbreviation inventory_directory setup collection :=
  (final_directory setup ++ "/" ++ mission_accronym setup ++ "_spice/" ++ "/"
   ++ Collection.name collection).

Local Abbreviation inventory_stem collection :=
  ("collection_" ++ Collection.name collection ++ "_inventory_v").

Lemma inventory_number_of_name : forall dir stem n,
  (0 <= n)%Z ->
  Py.int (Py.first (Py.split
            (Py.final (Py.split (dir ++ "/" ++ stem ++ "_v" ++ Py.zfill 3 n
                                 ++ ".csv") "_v")) "."))
  = Some n.
Proof.
  intros dir stem n Hn.
  replace (dir ++ "/" ++ stem ++ "_v" ++ Py.zfill 3 n ++ ".csv")
    with ((dir ++ "/" ++ stem) ++ "_v" ++ Py.zfill 3 n ++ "." ++ "csv")
    by (now rewrite !append_assoc).
  now apply number_after_separator.
Qed.

(** X2.  The name [InventoryProduct] gives to version [n] of an inventory
    is read back by the next run: when it is the latest inventory of the
    collection in the final area, the new inventory is version [n + 1] and
    the file of version [n] is kept as the previous one. *)
Theorem inventory_version_follows_name : forall setup collection w n,
  increment setup = true ->
  (0 <= n)%Z ->
  Py.last_item
    (Py.sorted (glob_fs (w_fs w) (inventory_directory setup collection)
                        (inventory_stem collection) ".csv"))
    = Some (inventory_directory setup collection ++ "/"
            ++ "collection_" ++ Collection.name collection ++ "_inventory"
            ++ "_v" ++ Py.zfill 3 n ++ ".csv") ->
  exists w',
    inventory_version setup collection w
    = (Ok ((n + 1)%Z,
           inventory_directory setup collection ++ "/"
           ++ "collection_" ++ Collection.name collection ++ "_inventory"
           ++ "_v" ++ Py.zfill 3 n ++ ".csv"), w')
    /\ w_fs w' = w_fs w.
Proof.
  intros setup collection w n Hi Hn Hl.
  unfold inventory_version. rewrite Hi.
  unfold bind at 1. unfold glob at 1. cbn iota. rewrite Hl.
  unfold try_except, bind, or_raise, ret, logging.
  pose proof (inventory_number_of_name
                (inventory_directory setup collection)
                ("collection_" ++ Collection.name collection ++ "_inventory")
                n Hn) as Hint.
  rewrite !append_assoc in Hint. rewrite !append_assoc.
  cbn [append] in Hint |- *. rewrite Hint.
  eexists. split; reflexivity.
Qed.

Lemma inventory_version_follows_name_witness :
  exists w',
    inventory_version (Scenario.setup true) (Scenario.spice_kernels [])
                      (world0 Scenario.archive_v009)
    = (Ok (10%Z,
           "final/insight_spice//spice_kernels/collection_spice_kernels_inventory_v009.csv"),
       w')
    /\ w_fs w' = Scenario.archive_v009.
Proof.
  apply (inventory_version_follows_name
           (Scenario.setup true) (Scenario.spice_kernels [])
           (world0 Scenario.archive_v009) 9);
    [reflexivity|lia|vm_compute; reflexivity].
Defined.

End InventoryVersion.

Section MetaKernelVersion.

Import ProductPy.

(** X3.  [check_version] is advisory: whatever the archive holds and
    whatever version the kernel list names, it returns, and it leaves the
    files and the registered products as they are. *)
Theorem check_version_is_advisory : forall setup name version w,
  exists w',
    check_version setup name version w = (Ok tt, w')
    /\ w_fs w' = w_fs w /\ w_catalog w' = w_catalog w.
Proof.
  intros setup name version w.
  unfold check_version, bind, logging, glob, input_if, ret.
  destruct (increment setup); cbn [negb w_fs w_log w_catalog];
    [|eexists; repeat split].
  destruct (match Py.last_item _ with Some _ => _ | None => _ end);
    [destruct (_ =? version)%Z|];
    destruct (interactive setup); eexists; repeat split.
Qed.

Lemma version_in_name_of_name : forall x width n,
  (0 <= n)%Z ->
  version_in_name (x ++ "v" ++ Py.zfill width n ++ ".tm") = Some n.
Proof.
  intros x width n Hn. unfold version_in_name.
  change (x ++ "v" ++ Py.zfill width n ++ ".tm")
    with (x ++ "v" ++ Py.zfill width n ++ "." ++ "tm").
  now apply number_after_separator.
Qed.

(** X4.  [check_version] reads the whole number that ends the name of the
    latest archived meta-kernel, whatever its width and whatever comes
    before it: the version it expects is that number plus one, and it logs
    whether the version of the kernel list agrees with it. *)
Theorem check_version_reads_archived_number :
  forall setup name version w x width n,
    increment setup = true ->
    (0 <= n)%Z ->
    Py.last_item
      (Py.sorted (glob_fs (w_fs w) (mk_directory setup)
                          (Py.first (Py.split name "v"))
                          (if String.eqb (pds setup) "4" then ".tm" else "")))
      = Some (x ++ "v" ++ Py.zfill width n ++ ".tm") ->
    exists w',
      check_version setup name version w = (Ok tt, w')
      /\ In (if (n + 1 =? version)%Z
             then (INFO,
                   "     Version from kernel list and from previous increment agree: "
                   ++ Py.str (n + 1) ++ ".")
             else (ERROR,
                   "    Version discrepancy. From kernel list: "
                   ++ Py.str version ++ ". From increment: "
                   ++ Py.str (n + 1) ++ "."))
            (w_log w').
Proof.
  intros setup name version w x width n Hi Hn Hl.
  unfold check_version, bind, logging, glob, input_if, ret.
  rewrite Hi. cbn [negb w_fs w_log w_catalog]. rewrite Hl.
  rewrite (version_in_name_of_name x width n Hn).
  destruct (n + 1 =? version)%Z; destruct (interactive setup);
    eexists; (split; [reflexivity|]); cbn [w_log];
    repeat rewrite in_app_iff; simpl; tauto.
Qed.

Lemma check_version_reads_archived_number_witness :
  exists w',
    check_version (Scenario.setup true) "insight_v010.tm" 10
                  (world0 Scenario.archive_mk_v009) = (Ok tt, w')
    /\ In (INFO, "     Version from kernel list and from previous increment agree: 10.")
          (w_log w').
Proof.
  apply (check_version_reads_archived_number
           (Scenario.setup true) "insight_v010.tm" 10
           (world0 Scenario.archive_mk_v009)
           "final/insight_spice/spice_kernels/mk/insight_" 3 9);
    [reflexivity|lia|vm_compute; reflexivity].
Defined.

(** X5.  The LID of a meta-kernel names it without its version: all
    that follows the first [_v] of the name is left out, so that the
    versions of a meta-kernel share one LID. *)
Theorem meta_kernel_lid_leaves_version_out : forall setup stem rest,
  Py.contains "_v" (stem ++ "_") = false ->
  MetaKernelProduct_product_lid setup "mk" (stem ++ "_v" ++ rest)
  = "urn:" ++ national_agency setup ++ ":" ++ archiving_agency setup ++ ":"
    ++ mission_accronym setup ++ ".spice:spice_kernels:mk_" ++ stem.
Proof.
  intros setup stem rest H. unfold MetaKernelProduct_product_lid.
  cbn [String.eqb Ascii.eqb Bool.eqb].
  now rewrite (first_split "_v" stem rest H).
Qed.

Lemma meta_kernel_lid_leaves_version_out_witness :
  MetaKernelProduct_product_lid (Scenario.setup true) "mk" "insight_v02.tm"
  = "urn:nasa:pds:insight.spice:spice_kernels:mk_insight".
Proof.
  apply (meta_kernel_lid_leaves_version_out (Scenario.setup true)
                                            "insight" "02.tm").
  reflexivity.
Defined.

End MetaKernelVersion.

(** ** The kernel list as it is written, validated and read *)

Lemma contains_of_prefix : forall sub s,
  prefix sub s = true -> Py.contains sub s = true.
Proof. intros sub [|c s] H; cbn [Py.contains]; now rewrite H. Qed.

Lemma contains_append_r : forall sub a b,
  Py.contains sub (a ++ sub ++ b) = true.
Proof.
  intros sub a b. induction a as [|c a IH].
  - cbn [append]. apply contains_of_prefix, prefix_append.
  - cbn [append Py.contains]. now rewrite IH, orb_true_r.
Qed.

Lemma contains_prefix : forall sub b, Py.contains sub (sub ++ b) = true.
Proof. intros. apply (contains_append_r sub "" b). Qed.

Lemma prefix_append_l : forall a b s,
  prefix (a ++ b) s = true -> prefix a s = true.
Proof.
  induction a as [|c a IH]; intros b s H; [now destruct s|].
  destruct s as [|d s]; [discriminate|].
  cbn [append] in H. apply prefix_cons in H. destruct H as (-> & H).
  simpl. destruct (ascii_dec d d); [eauto|contradiction].
Qed.

(** A longer string occurs only where its beginning occurs. *)
Lemma contains_longer : forall a b s,
  Py.contains a s = false -> Py.contains (a ++ b) s = false.
Proof.
  intros a b s. induction s as [|c s IH]; intros H.
  - cbn [Py.contains] in *. rewrite orb_false_r in *.
    destruct (prefix (a ++ b) "") eqn:E; [|reflexivity].
    apply prefix_append_l in E. congruence.
  - destruct (contains_cons _ _ _ H) as (Hp & Hc).
    cbn [Py.contains]. rewrite (IH Hc), orb_false_r.
    destruct (prefix (a ++ b) (String c s)) eqn:E; [|reflexivity].
    apply prefix_append_l in E. congruence.
Qed.

Lemma rstrip_space : forall s c,
  Py.is_space c = true -> Py.rstrip (s ++ String c "") = Py.rstrip s.
Proof.
  induction s as [|a s IH]; intros c Hc.
  - simpl. now rewrite Hc.
  - cbn [append Py.rstrip]. now rewrite (IH c Hc).
Qed.

Lemma strip_line : forall s,
  Py.no_space s = true -> Py.strip (s ++ LF) = s.
Proof.
  intros s H. unfold Py.strip, LF. rewrite rstrip_space by reflexivity.
  rewrite rstrip_no_space by assumption. now apply lstrip_no_space.
Qed.

Lemma drop_last_snoc_char : forall s c, Py.drop_last (s ++ String c "") = s.
Proof.
  induction s as [|a s IH]; intros c; [reflexivity|].
  cbn [append]. destruct s as [|b s]; [reflexivity|].
  change (Py.drop_last (String a (String b s ++ String c "")))
    with (String a (Py.drop_last (String b s ++ String c ""))).
  now rewrite IH.
Qed.

Section WrittenList.

Import SetupPy KernelListPy WriteListPy.

Lemma border_free_char : forall c, border_free (String c "") = true.
Proof. reflexivity. Qed.

(** The name of the kernel, as the validation and [read_list] take it
    from the [FILE] line. *)
Lemma file_line_name : forall e,
  occurs "/" (kernel e) = false ->
  Py.final (Py.split (file_line e) "/") = kernel e ++ LF.
Proof.
  intros e H. unfold file_line.
  replace ("FILE             = " ++ kerdir e ++ "/" ++ kernel e ++ LF)
    with (("FILE             = " ++ kerdir e) ++ "/" ++ kernel e ++ LF)
    by (now rewrite !append_assoc).
  apply final_split; [discriminate|reflexivity|].
  apply contains_occurs. now rewrite occurs_append, H.
Qed.

Lemma count_neutral : forall c line, neutral line -> count_line c line = c.
Proof.
  intros c line (H1 & H2 & H3). unfold count_line.
  now rewrite H1, H2, H3.
Qed.

Lemma fold_count_neutral : forall lines c,
  (forall line, In line lines -> neutral line) ->
  fold_left count_line lines c = c.
Proof.
  induction lines as [|line lines IH]; intros c H; [reflexivity|].
  cbn [fold_left]. rewrite count_neutral by (apply H; now left).
  apply IH. intros l Hl. apply H. now right.
Qed.

Lemma options_line_options : forall e,
  Py.contains "OPTIONS" (options_line e) = true.
Proof.
  intros e. unfold options_line.
  destruct (String.eqb (options e) "").
  - reflexivity.
  - apply (contains_append_r "OPTIONS" "MAKLABEL_" (" = " ++ options e ++ LF)).
Qed.

Lemma count_entry : forall e c,
  listed e ->
  fold_left count_line (entry_lines e) c
  = {| num_file := num_file c + 1;
       num_opti := num_opti c + 1;
       num_desc := num_desc c + 1;
       ker_in_list := (ker_in_list c ++ [kernel e])%list;
       opt_in_list := (opt_in_list c ++ options_of (options_line e))%list |}.
Proof.
  intros e c (Hs & Hk & Hf & Ho & Hd1 & Hd2 & Hd3 & Hm).
  unfold entry_lines. rewrite fold_left_app.
  rewrite (fold_count_neutral (mapping_lines e)) by assumption.
  cbn [fold_left].
  unfold count_line at 3.
  assert (Hfile : Py.contains "FILE" (file_line e) = true)
    by (exact (contains_prefix "FILE" ("             = " ++ kerdir e ++ "/"
                                       ++ kernel e ++ LF))).
  rewrite Hfile, Hf. cbn [andb].
  rewrite file_line_name by assumption. rewrite strip_line by assumption.
  unfold count_line at 2. rewrite Ho. cbn [andb].
  rewrite options_line_options.
  unfold count_line.
  cbn [num_file num_opti num_desc ker_in_list opt_in_list].
  rewrite Hd1, Hd2. cbn [andb].
  assert (Hdesc : Py.contains "DESCRIPTION" (description_line e) = true)
    by (exact (contains_prefix "DESCRIPTION"
                               ("      = " ++ description e ++ LF))).
  rewrite Hdesc, Hd3. reflexivity.
Qed.

Lemma count_entries : forall entries c,
  (forall e, In e entries -> listed e) ->
  let c' := fold_left count_line (flat_map entry_lines entries) c in
  num_file c' = (num_file c + Z.of_nat (List.length entries))%Z
  /\ num_opti c' = (num_opti c + Z.of_nat (List.length entries))%Z
  /\ num_desc c' = (num_desc c + Z.of_nat (List.length entries))%Z
  /\ ker_in_list c' = (ker_in_list c ++ map kernel entries)%list.
Proof.
  induction entries as [|e entries IH]; intros c H.
  - cbn. rewrite !Z.add_0_r, app_nil_r. auto.
  - cbn [flat_map]. cbv zeta. rewrite fold_left_app.
    rewrite count_entry by (apply H; now left).
    match goal with
    | |- context [fold_left count_line _ ?c1] =>
        destruct (IH c1) as (H1 & H2 & H3 & H4)
    end.
    { intros e' He'. apply H. now right. }
    rewrite H1, H2, H3, H4.
    cbn [num_file num_opti num_desc ker_in_list List.length map].
    rewrite <- app_assoc. cbn [app].
    repeat split; lia.
Qed.

(** The counts of a list in the format [write_list] writes. *)
Lemma count_written_list : forall header entries,
  (forall line, In line header -> neutral line) ->
  (forall e, In e entries -> listed e) ->
  let c := count_lines (header ++ flat_map entry_lines entries) in
  num_file c = Z.of_nat (List.length entries)
  /\ num_opti c = Z.of_nat (List.length entries)
  /\ num_desc c = Z.of_nat (List.length entries)
  /\ balanced c = true
  /\ ker_in_list c = map kernel entries.
Proof.
  intros header entries Hh He. cbv zeta. unfold count_lines.
  rewrite fold_left_app, (fold_count_neutral header) by assumption.
  destruct (count_entries entries counts0 He) as (H1 & H2 & H3 & H4).
  cbv zeta in H1, H2, H3, H4. unfold balanced.
  rewrite H1, H2, H3, H4. cbn [num_file num_opti num_desc ker_in_list counts0].
  rewrite !Z.eqb_refl. repeat split.
Qed.

(** X6.  The validation counts a kernel list in the format [write_list]
    writes as it was written, when no text of the list misleads the
    count.  The list is made of header lines that hold none of the words
    [FILE], [OPTIONS] and [DESCRIPTION], and of the lines [write_list]
    writes for [n] entries, where for each entry
    the name of the kernel has no white space and no slash, the [FILE]
    line and the [DESCRIPTION] line have a value after their last [=],
    the [MAKLABEL_OPTIONS] line does not hold the word [FILE], the
    [DESCRIPTION] line holds neither [FILE] nor [OPTIONS], and the
    [MAPPING] line, when there is one, holds none of the three words.
    Then the validation counts [n] [FILE], [n] [MAKLABEL_OPTIONS] and [n]
    [DESCRIPTION] entries, finds the list balanced, and the kernels it
    reads in the [FILE] lines are the kernels of the entries, in
    order. *)
Theorem written_list_is_balanced : forall header entries,
  (forall line, In line header -> neutral line) ->
  (forall e, In e entries -> listed e) ->
  let c := count_lines (header ++ flat_map entry_lines entries) in
  num_file c = Z.of_nat (List.length entries)
  /\ num_opti c = Z.of_nat (List.length entries)
  /\ num_desc c = Z.of_nat (List.length entries)
  /\ balanced c = true
  /\ ker_in_list c = map kernel entries.
Proof.
  intros header entries Hh He. now apply count_written_list.
Qed.

End WrittenList.

Section ValidatedList.

Import SetupPy KernelListPy WriteListPy.

Variable validate_report : Setup -> KernelList -> Counts -> M unit.

Local Abbreviation in_plan self :=
  (fun ker => if existsb (String.eqb ker) (kernel_list self) then ret tt
              else @error_message unit ("   " ++ ker ++ " not in list.")).

Lemma existsb_eqb_in : forall x l, existsb (String.eqb x) l = true <-> In x l.
Proof.
  intros x l. rewrite existsb_exists. split.
  - intros (y & Hy & E). apply String.eqb_eq in E. now subst.
  - intros H. exists x. split; [assumption|apply String.eqb_refl].
Qed.

Lemma check_against_plan : forall self l w,
  (forall ker, In ker l -> In ker (kernel_list self)) ->
  for_each l (in_plan self) w = (Ok tt, w).
Proof.
  intros self l. induction l as [|ker l IH]; intros w H; [reflexivity|].
  cbn [for_each]. unfold bind at 1.
  assert (E : existsb (String.eqb ker) (kernel_list self) = true)
    by (apply existsb_eqb_in, H; now left).
  rewrite E. cbn [ret]. apply IH. intros k Hk. apply H. now right.
Qed.

Lemma check_against_plan_fails : forall self l w,
  (exists ker, In ker l /\ ~ In ker (kernel_list self)) ->
  exists e w',
    for_each l (in_plan self) w = (Raise e, w')
    /\ w_fs w' = w_fs w /\ w_catalog w' = w_catalog w.
Proof.
  intros self l. induction l as [|ker l IH]; intros w (k & Hk & Hn);
    [contradiction|].
  cbn [for_each]. unfold bind at 1.
  destruct (existsb (String.eqb ker) (kernel_list self)) eqn:E.
  - cbn [ret]. apply IH. exists k. split; [|assumption].
    destruct Hk as [->|Hk]; [|assumption].
    apply existsb_eqb_in in E. contradiction.
  - unfold error_message, bind, logging, raise. cbn.
    eexists; eexists; repeat split.
Qed.

(** X7.  A kernel list in the format [write_list] writes passes the
    checks of [validate] that can stop the run, and the validation goes
    on to its reports with the counts of the list, when: the header lines
    hold none of the words [FILE], [OPTIONS] and [DESCRIPTION]; for each
    entry
    the name of the kernel has no white space and no slash, the [FILE]
    line and the [DESCRIPTION] line have a value after their last [=],
    the [MAKLABEL_OPTIONS] line does not hold the word [FILE], the
    [DESCRIPTION] line holds neither [FILE] nor [OPTIONS], and the
    [MAPPING] line, when there is one, holds none of the three words;
    the kernels of the entries are kernels of the release plan; and no
    kernel is listed twice. *)
Theorem written_list_is_validated :
  forall setup self w stored header entries,
    content (w_fs w) (list_path setup self) = Some stored ->
    map universal_newline stored = (header ++ flat_map entry_lines entries)%list ->
    (forall line, In line header -> neutral line) ->
    (forall e, In e entries -> listed e) ->
    (forall e, In e entries -> In (kernel e) (kernel_list self)) ->
    check_list_duplicates (map kernel entries) = false ->
    validate validate_report setup self w
    = validate_report setup self
        (count_lines (header ++ flat_map entry_lines entries)) w.
Proof.
  intros setup self w stored header entries Hc Hr Hh He Hp Hd.
  destruct (count_written_list header entries Hh He)
    as (_ & _ & _ & Hb & Hk).
  cbv zeta in Hb, Hk.
  unfold validate. unfold bind at 1, read_lines at 1. rewrite Hc, Hr.
  unfold bind at 1. rewrite Hb. cbn [negb ret].
  unfold bind at 1. rewrite Hk.
  rewrite check_against_plan.
  - unfold bind at 1. rewrite Hd. reflexivity.
  - intros ker Hin. apply in_map_iff in Hin.
    destruct Hin as (e & <- & Hin). now apply Hp.
Qed.

(** X8.  A kernel that the list names in a [FILE] line and the release
    plan does not hold stops the run: [validate] raises, with the files
    and the registered products as they were. *)
Theorem kernel_outside_plan_is_fatal : forall setup self w stored,
  content (w_fs w) (list_path setup self) = Some stored ->
  balanced (count_lines (map universal_newline stored)) = true ->
  (exists ker,
     In ker (ker_in_list (count_lines (map universal_newline stored)))
     /\ ~ In ker (kernel_list self)) ->
  exists e w',
    validate validate_report setup self w = (Raise e, w')
    /\ w_fs w' = w_fs w /\ w_catalog w' = w_catalog w.
Proof.
  intros setup self w stored Hc Hb Hk.
  unfold validate. unfold bind at 1, read_lines at 1. rewrite Hc.
  unfold bind at 1. rewrite Hb. cbn [negb ret].
  unfold bind at 1.
  destruct (check_against_plan_fails self _ w Hk) as (e & w' & -> & F & C).
  eauto.
Qed.

End ValidatedList.

Section ReadList.

Import SetupPy KernelListPy WriteListPy.

Local Abbreviation is_file_line := (Py.contains "FILE             =").

Local Abbreviation name_of :=
  (fun line => Py.drop_last (Py.final (Py.split line "/"))).

Lemma neutral_not_file_line : forall line,
  Py.contains "FILE" line = false -> is_file_line line = false.
Proof. intros line H. now apply (contains_longer "FILE" "             ="). Qed.

Lemma file_lines_of_neutral : forall lines,
  (forall line, In line lines -> neutral line) ->
  filter is_file_line lines = [].
Proof.
  induction lines as [|line lines IH]; intros H; [reflexivity|].
  cbn [filter]. destruct (H line (or_introl eq_refl)) as (H1 & _).
  rewrite (neutral_not_file_line _ H1). apply IH.
  intros l Hl. apply H. now right.
Qed.

Lemma file_lines_of_entries : forall entries,
  (forall e, In e entries -> listed e) ->
  map name_of (filter is_file_line (flat_map entry_lines entries))
  = map kernel entries.
Proof.
  induction entries as [|e entries IH]; intros H; [reflexivity|].
  destruct (H e (or_introl eq_refl)) as (_ & Hk & _ & Ho & Hd & _ & _ & Hm).
  cbn [flat_map]. unfold entry_lines at 1.
  rewrite <- app_assoc, filter_app. cbn [filter app].
  assert (Hf : is_file_line (file_line e) = true)
    by (exact (contains_prefix "FILE             ="
                 (" " ++ kerdir e ++ "/" ++ kernel e ++ LF))).
  rewrite Hf, (neutral_not_file_line _ Ho), (neutral_not_file_line _ Hd).
  rewrite filter_app, (file_lines_of_neutral (mapping_lines e)) by assumption.
  cbn [app map]. rewrite file_line_name by assumption.
  unfold LF at 1. rewrite drop_last_snoc_char. f_equal.
  apply IH. intros e' He'. apply H. now right.
Qed.

(** X9.  [read_list] recovers the kernels of a list in the format
    [write_list] writes: when the release is a number, the header lines
    hold none of the words [FILE], [OPTIONS] and [DESCRIPTION], and for
    each entry
    the name of the kernel has no white space and no slash, the [FILE]
    line and the [DESCRIPTION] line have a value after their last [=],
    the [MAKLABEL_OPTIONS] line does not hold the word [FILE], the
    [DESCRIPTION] line holds neither [FILE] nor [OPTIONS], and the
    [MAPPING] line, when there is one, holds none of the three words,
    the list given as input is copied to the working directory under the
    name of the release, and the kernels of the run are the names in its
    [FILE] lines, in order. *)
Theorem read_list_recovers_kernels :
  forall setup self kerlist w stored header entries n,
    Py.int (release setup) = Some n ->
    content (w_fs w) kerlist = Some stored ->
    map universal_newline stored = (header ++ flat_map entry_lines entries)%list ->
    (forall line, In line header -> neutral line) ->
    (forall e, In e entries -> listed e) ->
    exists lst w',
      MainPy.read_list_file setup self kerlist w = (Ok lst, w')
      /\ kernel_list lst = map kernel entries
      /\ content (w_fs w')
                 (working_directory setup ++ "/" ++ mission_acronym setup
                  ++ "_" ++ run_type setup ++ "_" ++ Py.zfill 2 n
                  ++ ".kernel_list") = Some stored.
Proof.
  intros setup self kerlist w stored header entries n Hn Hc Hr Hh He.
  unfold MainPy.read_list_file, MainPy.kernel_list_name.
  unfold bind at 1. unfold bind at 1. rewrite Hn. cbn [or_raise ret].
  unfold bind at 1. unfold MainPy.copy2 at 1. rewrite Hc.
  unfold bind at 1. unfold read_lines at 1. cbn [w_fs].
  rewrite content_set_content_same, Hr.
  eexists; eexists. split; [reflexivity|].
  cbn [kernel_list w_fs]. split; [|apply content_set_content_same].
  rewrite filter_app, (file_lines_of_neutral header) by assumption.
  cbn [app]. now apply file_lines_of_entries.
Qed.

End ReadList.

Section WrittenListWitnesses.

Import SetupPy KernelListPy WriteListPy.

Lemma sample_header_neutral :
  forall line, In line Samples.list_header -> neutral line.
Proof. intros line [<-|[<-|[]]]; repeat split. Qed.

Lemma sample_entries_listed :
  forall e, In e Samples.list_entries -> listed e.
Proof.
  intros e [<-|[<-|[]]]; unfold listed; repeat (split; [reflexivity|]);
    intros line [].
Qed.

Lemma written_list_is_balanced_witness :
  let c := count_lines Samples.written_list in
  num_file c = 2%Z /\ num_opti c = 2%Z /\ num_desc c = 2%Z
  /\ balanced c = true
  /\ ker_in_list c = ["insight_v06.tf"; "insight.orb"].
Proof.
  exact (written_list_is_balanced Samples.list_header Samples.list_entries
           sample_header_neutral sample_entries_listed).
Defined.

Lemma written_list_is_validated_witness :
  validate (fun _ _ _ => ret tt) (Samples.release_8 "" "" "")
           (Samples.kernel_list_8 ["insight_v06.tf"; "insight.orb"])
           (world0 Samples.working_list)
  = (Ok tt, world0 Samples.working_list).
Proof.
  apply (written_list_is_validated (fun _ _ _ => ret tt)
           (Samples.release_8 "" "" "")
           (Samples.kernel_list_8 ["insight_v06.tf"; "insight.orb"])
           (world0 Samples.working_list) Samples.written_list
           Samples.list_header Samples.list_entries);
    [reflexivity|reflexivity|exact sample_header_neutral
    |exact sample_entries_listed| |reflexivity].
  intros e [<-|[<-|[]]]; simpl; tauto.
Defined.

Lemma kernel_outside_plan_is_fatal_witness :
  exists e w',
    validate (fun _ _ _ => ret tt) (Samples.release_8 "" "" "")
             (Samples.kernel_list_8 ["insight_v06.tf"])
             (world0 Samples.working_list) = (Raise e, w')
    /\ w_fs w' = Samples.working_list /\ w_catalog w' = [].
Proof.
  apply (kernel_outside_plan_is_fatal (fun _ _ _ => ret tt)
           (Samples.release_8 "" "" "")
           (Samples.kernel_list_8 ["insight_v06.tf"])
           (world0 Samples.working_list) Samples.written_list);
    [reflexivity|reflexivity|].
  exists "insight.orb". split; [vm_compute; tauto|].
  intros [H|[]]. discriminate H.
Defined.

Lemma read_list_recovers_kernels_witness :
  exists lst w',
    MainPy.read_list_file (Samples.release_8 "" "input/insight.kernel_list" "")
                          (Samples.kernel_list_8 [])
                          "input/insight.kernel_list"
                          (world0 [("input/insight.kernel_list",
                                    Samples.written_list)])
    = (Ok lst, w')
    /\ kernel_list lst = ["insight_v06.tf"; "insight.orb"]
    /\ content (w_fs w') "working/insight_release_08.kernel_list"
       = Some Samples.written_list.
Proof.
  apply (read_list_recovers_kernels
           (Samples.release_8 "" "input/insight.kernel_list" "")
           (Samples.kernel_list_8 []) "input/insight.kernel_list"
           (world0 [("input/insight.kernel_list", Samples.written_list)])
           Samples.written_list Samples.list_header Samples.list_entries 8);
    [reflexivity|reflexivity|reflexivity|exact sample_header_neutral
    |exact sample_entries_listed].
Defined.

End WrittenListWitnesses.

(** ** Files that are removed *)

Lemma lookup_delete_same : forall k fs, lookup k (delete k fs) = None.
Proof.
  intros k fs. induction fs as [|[k' v'] fs IH]; [reflexivity|].
  unfold delete in *. cbn [filter fst].
  destruct (String.eqb_spec k' k); cbn [negb]; [assumption|].
  cbn [lookup]. destruct (String.eqb_spec k' k); [contradiction|assumption].
Qed.

Lemma lookup_delete_other : forall k k' fs,
  k <> k' -> lookup k' (delete k fs) = lookup k' fs.
Proof.
  intros k k' fs Hne. induction fs as [|[k0 v0] fs IH]; [reflexivity|].
  unfold delete in *. cbn [filter fst].
  destruct (String.eqb_spec k0 k); cbn [negb lookup].
  - subst. destruct (String.eqb_spec k k'); [contradiction|assumption].
  - now rewrite IH.
Qed.

Lemma lookup_delete_sub : forall k k' fs v,
  lookup k' (delete k fs) = Some v -> lookup k' fs = Some v.
Proof.
  intros k k' fs v H. destruct (String.eqb_spec k k') as [->|Hne].
  - rewrite lookup_delete_same in H. discriminate.
  - now rewrite lookup_delete_other in H.
Qed.

Section OnlyRemoves.

Context {A B : Type}.

Lemma quiet_only_removes (m : M A) : quiet m -> only_removes m.
Proof.
  intros H w r w' E. destruct (H _ _ _ E) as (F & C & _).
  rewrite F. auto.
Qed.

Lemma only_removes_bind (m : M A) (k : A -> M B) :
  only_removes m -> (forall a, only_removes (k a)) -> only_removes (bind m k).
Proof.
  intros Hm Hk w r w' H. unfold bind in H.
  destruct (m w) as [[a|e] w1] eqn:E.
  - destruct (Hm _ _ _ E) as (F1 & C1). destruct (Hk a _ _ _ H) as (F2 & C2).
    split; [auto|congruence].
  - inversion H; subst. eauto.
Qed.

Lemma only_removes_try_except (m : M A) (h : exn -> M A) :
  only_removes m -> (forall e, only_removes (h e)) ->
  only_removes (try_except m h).
Proof.
  intros Hm Hh w r w' H. unfold try_except in H.
  destruct (m w) as [[a|e] w1] eqn:E.
  - inversion H; subst. eauto.
  - destruct (Hm _ _ _ E) as (F1 & C1). destruct (Hh e _ _ _ H) as (F2 & C2).
    split; [auto|congruence].
Qed.

Lemma only_removes_if (b : bool) (m1 m2 : M A) :
  only_removes m1 -> only_removes m2 -> only_removes (if b then m1 else m2).
Proof. now destruct b. Qed.

End OnlyRemoves.

Lemma only_removes_remove path : only_removes (remove path).
Proof.
  intros w r w' H. unfold remove in H.
  destruct (content (w_fs w) path); inversion H; subst; cbn [w_fs w_catalog].
  - split; [|reflexivity]. intros key v. apply lookup_delete_sub.
  - auto.
Qed.

Lemma only_removes_for_each {A : Type} (l : list A) (body : A -> M unit) :
  (forall x, only_removes (body x)) -> only_removes (for_each l body).
Proof.
  intros H. induction l as [|x l IH]; cbn [for_each].
  - apply quiet_only_removes, quiet_ret.
  - apply only_removes_bind; auto.
Qed.









Lemma prefix_refl : forall s, prefix s s = true.
Proof. intros s. rewrite <- (append_nil_r s) at 2. apply prefix_append. Qed.

Lemma prefix_trans : forall a b c,
  prefix a b = true -> prefix b c = true -> prefix a c = true.
Proof.
  induction a as [|x a IH]; intros b c H1 H2; [now destruct c|].
  destruct b as [|y b]; [discriminate|]. destruct c as [|z c]; [discriminate|].
  apply prefix_cons in H1. apply prefix_cons in H2.
  destruct H1 as (-> & H1). destruct H2 as (-> & H2).
  simpl. destruct (ascii_dec z z); [eauto|contradiction].
Qed.


Section ClearRun.

Import SetupPy SetupFilesPy.

Lemma only_removes_clear_staged path line :
  only_removes (clear_staged path line).
Proof.
  unfold clear_staged. apply only_removes_if.
  - apply only_removes_try_except; [apply only_removes_remove|].
    intros e. apply quiet_only_removes, quiet_logging.
  - apply quiet_only_removes, quiet_ret.
Qed.

Lemma only_removes_clear_final self path line :
  only_removes (clear_final self path line).
Proof.
  unfold clear_final. apply only_removes_if.
  - apply only_removes_try_except.
    + apply only_removes_bind; [apply quiet_only_removes, quiet_get_fs|].
      intros fs. apply only_removes_if; apply only_removes_remove.
    + intros e. apply quiet_only_removes, quiet_logging.
  - apply quiet_only_removes, quiet_ret.
Qed.

Lemma only_removes_clear_byproduct path line :
  only_removes (clear_byproduct path line).
Proof.
  unfold clear_byproduct. apply only_removes_try_except.
  - apply only_removes_if.
    + apply only_removes_bind; [apply quiet_only_removes, quiet_logging|].
      intros _. apply only_removes_remove.
    + apply quiet_only_removes, quiet_ret.
  - intros e. apply quiet_only_removes, quiet_logging.
Qed.

Lemma quiet_error_message : forall msg,
  quiet (@KernelListPy.error_message unit msg).
Proof. intros msg. unfold KernelListPy.error_message. quiet_auto. Qed.

(** X11.  [clear_run] only removes files: whatever the file list holds,
    every file that is there after it was there before with the same
    content, and no product is registered. *)
Theorem clear_run_only_removes : forall self debug w r w',
  clear_run self debug w = (r, w') ->
  (forall path v, content (w_fs w') path = Some v ->
                  content (w_fs w) path = Some v)
  /\ w_catalog w' = w_catalog w.
Proof.
  intros self debug w r w' H.
  assert (Ho : only_removes (clear_run self debug)).
  { unfold clear_run.
    apply only_removes_bind.
    { apply quiet_only_removes. destruct debug; quiet_auto. }
    intros _. apply only_removes_bind;
      [apply quiet_only_removes, quiet_get_fs|].
    intros fs. apply only_removes_if;
      [|apply quiet_only_removes, quiet_error_message].
    apply only_removes_bind; [apply quiet_only_removes, quiet_logging|].
    intros _. apply only_removes_bind;
      [apply quiet_only_removes, quiet_read_lines|].
    intros c1. apply only_removes_bind.
    { apply only_removes_for_each. intros x. apply only_removes_clear_staged. }
    intros _. apply only_removes_bind;
      [apply quiet_only_removes, quiet_logging|].
    intros _. apply only_removes_bind;
      [apply quiet_only_removes, quiet_read_lines|].
    intros c2. apply only_removes_bind.
    { apply only_removes_for_each. intros x. apply only_removes_clear_final. }
    intros _. apply only_removes_bind;
      [apply quiet_only_removes, quiet_read_lines|].
    intros c3. apply only_removes_for_each.
    intros x. apply only_removes_clear_byproduct. }
  destruct (Ho _ _ _ H) as (F & C). split; [|exact C].
  intros path v. unfold content. apply F.
Qed.

(** X10.  Without the file list that the argument names, [clear_run]
    raises and removes nothing. *)
Theorem clear_run_needs_the_file_list : forall self debug w,
  content (w_fs w) (clear (args (this self))) = None ->
  exists e w',
    clear_run self debug w = (Raise e, w') /\ w_fs w' = w_fs w.
Proof.
  intros self debug w Hc. unfold clear_run.
  unfold bind at 1.
  assert (Hd : exists w0,
    (if debug
     then logging WARNING
            "-- Running in DEBUG mode, by-product files are not cleaned up."
     else ret tt) w = (Ok tt, w0) /\ w_fs w0 = w_fs w)
    by (destruct debug; eexists; split; reflexivity).
  destruct Hd as (w0 & -> & F0).
  unfold bind at 1, get_fs at 1. unfold isfile. rewrite F0, Hc.
  unfold KernelListPy.error_message, bind, logging, raise.
  eexists; eexists; split; [reflexivity|exact F0].
Qed.

End ClearRun.

Section ClearRunResult.

Import SetupPy SetupFilesPy.



















End ClearRunResult.

Section ClearRunWitnesses.

Import SetupPy SetupFilesPy.

Lemma clear_run_only_removes_witness :
  (forall path v,
     content (w_fs (snd (clear_run (Samples.clear_8 []) false
                                   (world0 Samples.run_of_release_8))))
             path = Some v ->
     content Samples.run_of_release_8 path = Some v)
  /\ w_catalog (snd (clear_run (Samples.clear_8 []) false
                               (world0 Samples.run_of_release_8))) = [].
Proof.
  apply (clear_run_only_removes (Samples.clear_8 []) false
           (world0 Samples.run_of_release_8)
           (fst (clear_run (Samples.clear_8 []) false
                           (world0 Samples.run_of_release_8)))).
  apply surjective_pairing.
Defined.

Lemma clear_run_needs_the_file_list_witness :
  exists e w',
    clear_run (Samples.clear_8 []) false (world0 Samples.areas_of_release_8)
    = (Raise e, w')
    /\ w_fs w' = Samples.areas_of_release_8.
Proof.
  apply (clear_run_needs_the_file_list (Samples.clear_8 []) false
           (world0 Samples.areas_of_release_8)).
  reflexivity.
Defined.





(** What [clear_run] leaves of the run of release 8: the kernel of the
    release before, and the file list itself. *)
Example clear_run_of_release_8 :
  map fst (w_fs (snd (clear_run (Samples.clear_8 []) false
                                (world0 Samples.run_of_release_8))))
  = ["working/insight_release_08.file_list";
     "insight/insight_spice/spice_kernels/fk/insight_v05.tf"].
Proof. vm_compute. reflexivity. Qed.

End ClearRunWitnesses.

Section FileList.

Import SetupPy SetupFilesPy.









End FileList.

Section ClearedRelease.

Import SetupPy SetupFilesPy.

Lemma truthy_append : forall a c b, truthy (a ++ String c b) = true.
Proof. intros [|x a] c b; reflexivity. Qed.

Lemma file_list_number_of_name : forall self n,
  (0 <= n)%Z ->
  clear (args (this self)) = byproduct_path self n ".file_list" ->
  Py.contains ("_" ++ run_type (this self) ++ "_")
              (working_directory (this self) ++ "/"
               ++ mission_acronym (this self) ++ "_" ++ run_type (this self))
    = false ->
  Py.contains ".file_list"
              (working_directory (this self) ++ "/"
               ++ mission_acronym (this self) ++ "_" ++ run_type (this self)
               ++ "_" ++ Py.zfill 2 n ++ ".file_lis") = false ->
  file_list_number (this self) = Some n.
Proof.
  intros self n Hn Hc Hr Hf. unfold file_list_number. rewrite Hc.
  unfold byproduct_path.
  set (wd := working_directory (this self)) in *.
  set (m := mission_acronym (this self)) in *.
  set (rt := run_type (this self)) in *.
  replace (wd ++ "/" ++ m ++ "_" ++ rt ++ "_" ++ Py.zfill 2 n ++ ".file_list")
    with ((wd ++ "/" ++ m ++ "_" ++ rt ++ "_" ++ Py.zfill 2 n)
          ++ ".file_list" ++ "")
    by (now rewrite !append_assoc).
  rewrite first_split.
  - replace (wd ++ "/" ++ m ++ "_" ++ rt ++ "_" ++ Py.zfill 2 n)
      with ((wd ++ "/" ++ m) ++ ("_" ++ rt ++ "_") ++ Py.zfill 2 n)
      by (now rewrite !append_assoc).
    rewrite split_first.
    + rewrite split_no_match.
      * cbn [Py.final last]. apply int_zfill.
      * cbn [append]. apply contains_occurs.
        apply all_digits_occurs; [now apply all_digits_zfill|reflexivity].
    + change ("_" ++ rt ++ "_") with (("_" ++ rt) ++ "_") at 1.
      replace (("_" ++ rt) ++ "_" ++ "")%string with (("_" ++ rt) ++ "_")
        in * by reflexivity.
      replace (Py.drop_last ("_" ++ rt ++ "_")) with ("_" ++ rt).
      * now rewrite !append_assoc.
      * symmetry. rewrite <- (drop_last_snoc_char ("_" ++ rt) "_") at 1.
        now rewrite append_assoc.
  - change (Py.drop_last ".file_list") with ".file_lis".
    now rewrite !append_assoc.
Qed.

(** X16.  The name [write_file_list] gives to the file list of release
    [n] is read back by [set_release]: given as the argument [clear], it
    makes the run resolve release [n] as an increment of release [n - 1],
    provided the run type and the extension of the file list do not occur
    earlier in the path. *)
Theorem clearing_resolves_the_release_of_the_run : forall self w n,
  (0 <= n)%Z ->
  clear (args (this self)) = byproduct_path self n ".file_list" ->
  Py.contains ("_" ++ run_type (this self) ++ "_")
              (working_directory (this self) ++ "/"
               ++ mission_acronym (this self) ++ "_" ++ run_type (this self))
    = false ->
  Py.contains ".file_list"
              (working_directory (this self) ++ "/"
               ++ mission_acronym (this self) ++ "_" ++ run_type (this self)
               ++ "_" ++ Py.zfill 2 n ++ ".file_lis") = false ->
  exists s w',
    set_release (this self) w = (Ok s, w')
    /\ release s = Py.zfill 3 n
    /\ current_release s = Py.zfill 3 (n - 1)
    /\ increment s = true.
Proof.
  intros self w n Hn Hc Hr Hf.
  apply set_release_of_file_list.
  - rewrite Hc. unfold byproduct_path. rewrite <- !append_assoc.
    apply truthy_append.
  - now apply file_list_number_of_name.
Qed.

Lemma clearing_resolves_the_release_of_the_run_witness :
  exists s w',
    set_release (Samples.release_8 "working/insight_release_08.file_list" ""
                                   "clear")
                (world0 Samples.run_of_release_8) = (Ok s, w')
    /\ release s = "008" /\ current_release s = "007" /\ increment s = true.
Proof.
  apply (clearing_resolves_the_release_of_the_run (Samples.clear_8 [])
           (world0 Samples.run_of_release_8) 8);
    [lia|reflexivity|reflexivity|reflexivity].
Defined.

(** X17.  The file list of a run that only labels carries [_labels_] in
    its name.  The run that clears it is given the run type [labels] by
    the constructor of the setup, and so reads the release [n] of that
    run in the name of the file list. *)
Theorem clearing_a_labels_run_resolves_its_release : forall self w n,
  (0 <= n)%Z ->
  faucet (args (this self)) = "clear" ->
  run_type (this self) = run_type_of (args (this self)) ->
  clear (args (this self))
    = working_directory (this self) ++ "/" ++ mission_acronym (this self)
      ++ "_labels_" ++ Py.zfill 2 n ++ ".file_list" ->
  Py.contains "_labels_"
              (working_directory (this self) ++ "/"
               ++ mission_acronym (this self) ++ "_labels") = false ->
  Py.contains ".file_list"
              (working_directory (this self) ++ "/"
               ++ mission_acronym (this self) ++ "_labels_" ++ Py.zfill 2 n
               ++ ".file_lis") = false ->
  run_type (this self) = "labels"
  /\ exists s w',
       set_release (this self) w = (Ok s, w')
       /\ release s = Py.zfill 3 n
       /\ current_release s = Py.zfill 3 (n - 1)
       /\ increment s = true.
Proof.
  intros self w n Hn Hf Ht Hc Hr Hl.
  assert (H : Py.contains "_labels_" (clear (args (this self))) = true).
  { rewrite Hc.
    replace (working_directory (this self) ++ "/"
             ++ mission_acronym (this self) ++ "_labels_" ++ Py.zfill 2 n
             ++ ".file_list")
      with ((working_directory (this self) ++ "/"
             ++ mission_acronym (this self)) ++ "_labels_" ++ Py.zfill 2 n
            ++ ".file_list")
      by (now rewrite !append_assoc).
    apply contains_append_r. }
  assert (Hrt : run_type (this self) = "labels").
  { rewrite Ht. unfold run_type_of. rewrite Hf, H. reflexivity. }
  split; [exact Hrt|].
  apply set_release_of_file_list.
  - rewrite Hc. rewrite <- !append_assoc. apply truthy_append.
  - apply file_list_number_of_name; unfold byproduct_path; rewrite ?Hrt;
      assumption.
Qed.

Lemma clearing_a_labels_run_resolves_its_release_witness :
  exists s w',
    set_release (this (Samples.clear_labels_3)) (world0 []) = (Ok s, w')
    /\ release s = "003" /\ current_release s = "002" /\ increment s = true.
Proof.
  apply (clearing_a_labels_run_resolves_its_release Samples.clear_labels_3
           (world0 []) 3); [lia|reflexivity..].
Defined.

End ClearedRelease.

(** ** The faucets of the pipeline *)

Section Faucets.

Import SetupPy KernelListPy MainPy.

Variable check_configuration : Setup -> Step unit.
Variable clear_run : Setup -> Step unit.
Variable read_config : Setup -> Step (list string).
Variable write_plan : Setup -> Step (bool * list string).
Variable read_plan : Setup -> string -> Step (list string).
Variable fill_list : Setup -> list string -> string -> Step unit.
Variable validate_report : Setup -> KernelList -> Counts -> M unit.
Variable prepare_bundle : Setup -> KernelList -> Step unit.
Variable OrbnumFileProduct : Setup -> string -> Step unit.
Variable SpiceKernelProduct : Setup -> string -> Step unit.
Variable rest_of_pipeline : Setup -> KernelList -> M unit.

Local Abbreviation plan_phase :=
  (MainPy.plan_phase check_configuration clear_run read_config write_plan
                     read_plan).
Local Abbreviation main :=
  (MainPy.main check_configuration clear_run read_config write_plan read_plan
               fill_list validate_report prepare_bundle OrbnumFileProduct
               SpiceKernelProduct rest_of_pipeline).

Lemma registers_nothing_bind_result {A B : Type} (m : M A) (k : A -> M B) :
  registers_nothing m ->
  (forall w a w1, m w = (Ok a, w1) -> registers_nothing (k a)) ->
  registers_nothing (bind m k).
Proof.
  intros Hm Hk w r w' H. unfold bind in H.
  destruct (m w) as [[a|e] w1] eqn:E.
  - rewrite (Hk _ _ _ E _ _ _ H). eauto.
  - inversion H; subst. eauto.
Qed.

Lemma set_release_args : forall self w s w',
  set_release self w = (Ok s, w') -> args s = args self.
Proof.
  intros self w s w' H. unfold set_release, bind in H.
  repeat match type of H with
         | (match ?m ?w0 with _ => _ end) = _ =>
             destruct (m w0) as [[?|?] ?]; [|discriminate]
         end.
  inversion H. reflexivity.
Qed.

Lemma KernelList_init_args : forall setup w sl w',
  KernelList_init read_config setup w = (Ok sl, w') ->
  args (fst sl) = args setup.
Proof.
  intros setup w sl w' H. unfold KernelList_init, bind in H.
  repeat match type of H with
         | (match ?m ?w0 with _ => _ end) = _ =>
             destruct (m w0) as [[?|?] ?]; [|discriminate]
         end.
  inversion H. reflexivity.
Qed.

(** The plan phase hands over a setup with the arguments of the run, and
    nothing at all at the faucets [clear] and [plan]. *)
Lemma plan_phase_faucet : forall setup0 w setup lst w',
  plan_phase setup0 w = (Ok (Some (setup, lst)), w') ->
  faucet (args setup) = faucet (args setup0)
  /\ faucet (args setup0) <> "clear" /\ faucet (args setup0) <> "plan".
Proof.
  intros setup0 w setup lst w' H. unfold MainPy.plan_phase in H.
  unfold bind at 1 in H.
  destruct (lift (check_configuration setup0) w) as [[[]|?] w1];
    [|discriminate].
  unfold bind at 1 in H.
  destruct (set_release setup0 w1) as [[s|?] w2] eqn:Es; [|discriminate].
  apply set_release_args in Es.
  unfold bind at 1 in H.
  match type of H with
  | (match ?m w2 with _ => _ end) = _ =>
      destruct (m w2) as [[[]|?] w3]; [|discriminate]
  end.
  destruct (String.eqb_spec (faucet (args s)) "clear") as [|Hc];
    [discriminate|].
  unfold bind at 1 in H.
  destruct (KernelList_init read_config s w3) as [[sl|?] w4] eqn:Ek;
    [|discriminate].
  apply KernelList_init_args in Ek.
  unfold bind at 1 in H.
  match type of H with
  | (match ?m w4 with _ => _ end) = _ =>
      destruct (m w4) as [[[kernels|]|?] w5]; try discriminate
  end.
  destruct (String.eqb_spec (faucet (args (fst sl))) "plan") as [|Hp];
    [discriminate|].
  inversion H; subst. rewrite Ek, Es in *. auto.
Qed.

Lemma registers_nothing_for_each {A : Type} (l : list A) (body : A -> M unit) :
  (forall x, registers_nothing (body x)) ->
  registers_nothing (for_each l body).
Proof.
  intros H. induction l as [|x l IH]; cbn [for_each].
  - apply quiet_registers_nothing, quiet_ret.
  - apply registers_nothing_bind; auto.
Qed.

Lemma validate_registers_nothing : forall setup self,
  (forall c, registers_nothing (validate_report setup self c)) ->
  registers_nothing (validate validate_report setup self).
Proof.
  intros setup self H. unfold validate.
  apply registers_nothing_bind;
    [apply quiet_registers_nothing, quiet_read_lines|].
  intros lines. apply registers_nothing_bind.
  { apply quiet_registers_nothing. quiet_auto. }
  intros _. apply registers_nothing_bind.
  { apply quiet_registers_nothing. apply quiet_for_each. intros ker.
    apply quiet_if; [apply quiet_ret|].
    unfold error_message. quiet_auto. }
  intros _. apply registers_nothing_bind; [|intros _; apply H].
  apply quiet_registers_nothing.
  apply quiet_if; [unfold error_message; quiet_auto|apply quiet_ret].
Qed.

(** X18.  At the faucets [clear], [plan] and [list] the pipeline
    registers no product: it ends before the bundle is set up, whatever
    the steps before it do to the files. *)
Theorem early_faucets_register_nothing : forall setup0,
  In (faucet (args setup0)) ["clear"; "plan"; "list"] ->
  (forall setup lst c, registers_nothing (validate_report setup lst c)) ->
  registers_nothing (main setup0).
Proof.
  intros setup0 Hf Hv. unfold MainPy.main.
  apply registers_nothing_bind_result;
    [apply plan_phase_registers_nothing|].
  intros w [[setup lst]|] w1 Hp;
    [|apply quiet_registers_nothing, quiet_ret].
  destruct (plan_phase_faucet _ _ _ _ _ Hp) as (Ha & Hc & Hpl).
  assert (Hl : faucet (args setup) = "list").
  { rewrite Ha. destruct Hf as [H|[H|[H|[]]]]; congruence. }
  apply registers_nothing_bind.
  - apply registers_nothing_if.
    + unfold write_list. apply registers_nothing_bind.
      * unfold write_list_file, kernel_list_name.
        repeat first
          [ solve [apply quiet_registers_nothing; auto with quiet]
          | apply registers_nothing_lift
          | apply registers_nothing_bind
          | match goal with |- forall _, _ => intro end ].
      * intros self. apply registers_nothing_bind;
          [now apply validate_registers_nothing|].
        intros _. apply quiet_registers_nothing, quiet_ret.
    + unfold read_list. apply registers_nothing_bind.
      * unfold read_list_file, kernel_list_name.
        repeat first
          [ solve [apply quiet_registers_nothing; auto with quiet]
          | apply registers_nothing_copy2
          | apply registers_nothing_bind
          | match goal with |- forall _, _ => intro end ].
      * intros self. apply registers_nothing_bind;
          [now apply validate_registers_nothing|].
        intros _. apply quiet_registers_nothing, quiet_ret.
  - intros lst'. rewrite Hl. cbn. apply quiet_registers_nothing, quiet_ret.
Qed.

End Faucets.

(** ** Sorting *)

Lemma string_compare_trans : forall s1 s2 s3,
  (s1 ?= s2)%string <> Gt -> (s2 ?= s3)%string <> Gt ->
  (s1 ?= s3)%string <> Gt.
Proof.
  induction s1 as [|c1 s1 IH]; intros [|c2 s2] [|c3 s3] H1 H2; simpl in *;
    try congruence.
  unfold Ascii.compare in *.
  destruct (N.compare_spec (N_of_ascii c1) (N_of_ascii c2)) as [E1|L1|G1];
    destruct (N.compare_spec (N_of_ascii c2) (N_of_ascii c3)) as [E2|L2|G2];
    try congruence;
    destruct (N.compare_spec (N_of_ascii c1) (N_of_ascii c3)) as [E3|L3|G3];
    try congruence; try lia; eauto.
Qed.

Lemma leb_trans : forall s1 s2 s3,
  String.leb s1 s2 = true -> String.leb s2 s3 = true ->
  String.leb s1 s3 = true.
Proof.
  intros s1 s2 s3 H1 H2. unfold String.leb in *.
  pose proof (string_compare_trans s1 s2 s3) as H.
  destruct (s1 ?= s2)%string; try discriminate;
    destruct (s2 ?= s3)%string; try discriminate;
    destruct (s1 ?= s3)%string; try reflexivity;
    exfalso; apply H; congruence.
Qed.

Lemma leb_refl : forall s, String.leb s s = true.
Proof. intros s. destruct (String.leb_total s s); assumption. Qed.

Lemma leb_false : forall a b, String.leb a b = false -> String.leb b a = true.
Proof. intros a b H. destruct (String.leb_total a b); congruence. Qed.

Lemma insert_sorted_in : forall x y l,
  In y (Py.insert_sorted x l) <-> y = x \/ In y l.
Proof.
  intros x y l. induction l as [|z l IH]; simpl.
  - intuition.
  - destruct (String.leb x z); simpl; [intuition|].
    rewrite IH. intuition.
Qed.

Lemma sorted_in : forall y l, In y (Py.sorted l) <-> In y l.
Proof.
  intros y l. induction l as [|x l IH]; simpl; [reflexivity|].
  fold (Py.sorted l). rewrite insert_sorted_in, IH. intuition.
Qed.

(** The first element of a sorted list is its least element. *)
Lemma insert_sorted_least : forall x l,
  (forall m, hd_error l = Some m ->
             forall y, In y l -> String.leb m y = true) ->
  exists m, hd_error (Py.insert_sorted x l) = Some m
            /\ forall y, y = x \/ In y l -> String.leb m y = true.
Proof.
  intros x [|z l] H; simpl.
  - exists x. split; [reflexivity|]. intros y [->|[]]. apply leb_refl.
  - specialize (H z eq_refl).
    destruct (String.leb x z) eqn:E; simpl.
    + exists x. split; [reflexivity|]. intros y [->|Hy]; [apply leb_refl|].
      apply (leb_trans x z y E). now apply H.
    + exists z. split; [reflexivity|]. intros y [->|Hy].
      * now apply leb_false.
      * now apply H.
Qed.

Lemma sorted_least : forall l,
  match hd_error (Py.sorted l) with
  | Some m => In m l /\ forall y, In y l -> String.leb m y = true
  | None => l = []
  end.
Proof.
  induction l as [|x l IH]; [reflexivity|].
  simpl. fold (Py.sorted l).
  destruct (insert_sorted_least x (Py.sorted l)) as (m & Hm & Hle).
  - intros m Hm y Hy. rewrite Hm in IH. destruct IH as (_ & IH).
    apply IH. now apply sorted_in.
  - rewrite Hm. split.
    + assert (Hin : In m (Py.insert_sorted x (Py.sorted l))).
      { destruct (Py.insert_sorted x (Py.sorted l)); inversion Hm.
        now left. }
      apply insert_sorted_in in Hin. rewrite sorted_in in Hin.
      destruct Hin; [left; congruence|now right].
    + intros y [->|Hy]; apply Hle; [now left|right; now apply sorted_in].
Qed.

Lemma last_default : forall (l : list string) a b, last (b :: l) a = last l b.
Proof.
  induction l as [|c l IH]; intros a b; [reflexivity|].
  change (last (b :: c :: l) a) with (last (c :: l) a).
  change (last (c :: l) b) with (last (c :: l) b).
  rewrite (IH a c), (IH b c). reflexivity.
Qed.

Lemma last_item_cons : forall (a : string) l,
  l <> [] -> Py.last_item (a :: l) = Py.last_item l.
Proof.
  intros a [|b l] H; [congruence|]. unfold Py.last_item.
  now rewrite last_default.
Qed.

Lemma last_item_in : forall (l : list string) M,
  Py.last_item l = Some M -> In M l.
Proof.
  induction l as [|a l IH]; intros M H; [discriminate|].
  destruct l as [|b l].
  - inversion H. now left.
  - rewrite last_item_cons in H by discriminate. right. now apply IH.
Qed.

Lemma insert_sorted_nonempty : forall x l, Py.insert_sorted x l <> [].
Proof. intros x [|z l]; simpl; [|destruct (String.leb x z)]; discriminate. Qed.

(** The last element of a sorted list is its greatest element. *)
Lemma insert_sorted_greatest : forall x l,
  (forall M, Py.last_item l = Some M ->
             forall y, In y l -> String.leb y M = true) ->
  exists M, Py.last_item (Py.insert_sorted x l) = Some M
            /\ forall y, y = x \/ In y l -> String.leb y M = true.
Proof.
  intros x l. induction l as [|z l IH]; intros H.
  - exists x. split; [reflexivity|]. intros y [->|[]]. apply leb_refl.
  - cbn [Py.insert_sorted]. destruct (String.leb x z) eqn:E.
    + rewrite last_item_cons by discriminate.
      exists (last l z). split; [reflexivity|].
      specialize (H _ eq_refl).
      intros y [->|Hy]; [|now apply H].
      apply (leb_trans x z _ E). apply H. now left.
    + rewrite last_item_cons by apply insert_sorted_nonempty.
      destruct IH as (M & HM & Hle).
      { intros M HM y Hy. apply (H M); [|now right].
        rewrite last_item_cons; [exact HM|]. intros ->. discriminate. }
      exists M. split; [exact HM|].
      intros y [->|[->|Hy]].
      * apply Hle. now left.
      * apply (leb_trans y x M); [now apply leb_false|]. apply Hle. now left.
      * apply Hle. now right.
Qed.

Lemma sorted_greatest : forall l,
  match Py.last_item (Py.sorted l) with
  | Some M => In M l /\ forall y, In y l -> String.leb y M = true
  | None => l = []
  end.
Proof.
  induction l as [|x l IH]; [reflexivity|].
  simpl. fold (Py.sorted l).
  destruct (insert_sorted_greatest x (Py.sorted l)) as (M & HM & Hle).
  - intros M HM y Hy. rewrite HM in IH. destruct IH as (_ & IH).
    apply IH. now apply sorted_in.
  - change (match Py.insert_sorted x (Py.sorted l) with
            | [] => None
            | x0 :: l' => Some (last l' x0)
            end) with (Py.last_item (Py.insert_sorted x (Py.sorted l))).
    rewrite HM. split.
    + apply last_item_in in HM. apply insert_sorted_in in HM.
      rewrite sorted_in in HM. destruct HM; [left; congruence|now right].
    + intros y [->|Hy]; apply Hle; [now left|right; now apply sorted_in].
Qed.

Section LabelTimes.

Import LabelPy.

Local Abbreviation checksums products :=
  (filter (fun product => Py.contains "checksum" (name product)) products).

(** X19.  The label of the inventory of the miscellaneous collection
    spans the checksum products of the collection: its start time is the
    earliest of their start times and its stop time the latest of their
    stop times, in the order of the strings; with no checksum product in
    the collection, the label raises [IndexError]. *)
Theorem miscellaneous_label_spans_the_checksums :
  forall products increment_start increment_finish w,
    match checksums products with
    | [] =>
        inventory_times "miscellaneous" products increment_start
                        increment_finish w = (Raise IndexError, w)
    | _ =>
        exists start stop,
          inventory_times "miscellaneous" products increment_start
                          increment_finish w = (Ok (start, stop), w)
          /\ In start (map start_time (checksums products))
          /\ In stop (map stop_time (checksums products))
          /\ forall product,
               In product (checksums products) ->
               String.leb start (start_time product) = true
               /\ String.leb (stop_time product) stop = true
    end.
Proof.
  intros products increment_start increment_finish w.
  unfold inventory_times. cbn [String.eqb Ascii.eqb Bool.eqb].
  cbv zeta.
  pose proof (sorted_least (map start_time (checksums products))) as Hs.
  pose proof (sorted_greatest (map stop_time (checksums products))) as He.
  destruct (checksums products) as [|c cs] eqn:Ec; [reflexivity|].
  destruct (hd_error (Py.sorted (map start_time (c :: cs)))) as [start|];
    [|discriminate].
  destruct (Py.last_item (Py.sorted (map stop_time (c :: cs)))) as [stop|];
    [|discriminate].
  destruct Hs as (Hs1 & Hs2). destruct He as (He1 & He2).
  exists start, stop. split; [reflexivity|].
  split; [exact Hs1|]. split; [exact He1|].
  intros product Hp. split.
  - apply Hs2. now apply in_map.
  - apply He2. now apply in_map.
Qed.

End LabelTimes.

(** ** The description of a product *)

Section Description.

Import ProductPy ProductBasePy.

Lemma describe_unnamed : forall name lines d,
  (forall line, In line lines -> Py.contains name line = false) ->
  fold_left (describe name) lines (false, d) = (false, d).
Proof.
  intros name lines d. induction lines as [|line lines IH]; intros H;
    [reflexivity|].
  cbn [fold_left]. unfold describe at 2. rewrite (H line) by (now left).
  cbn [fst snd andb]. apply IH. intros l Hl. apply H. now right.
Qed.

Lemma describe_undescribed : forall name lines d,
  (forall line, In line lines -> Py.contains "DESCRIPTION" line = false) ->
  fold_left (describe name) lines (true, d) = (true, d).
Proof.
  intros name lines d. induction lines as [|line lines IH]; intros H;
    [reflexivity|].
  cbn [fold_left]. unfold describe at 2. rewrite (H line) by (now left).
  cbn [fst snd]. rewrite andb_false_r.
  destruct (Py.contains name line); apply IH; intros l Hl; apply H; now right.
Qed.

(** X20.  A product that no line of the kernel list names has no
    description: [get_description] raises, and the files are as they
    were. *)
Theorem undescribed_product_is_an_error :
  forall setup release name w n stored,
    Py.int release = Some n ->
    content (w_fs w) (kernel_list_file setup n) = Some stored ->
    (forall line, In line (map universal_newline stored) ->
                  Py.contains name line = false) ->
    exists e w',
      get_description setup release name w = (Raise e, w')
      /\ w_fs w' = w_fs w.
Proof.
  intros setup release name w n stored Hn Hc Hl.
  unfold get_description. unfold bind at 1. rewrite Hn. cbn [or_raise ret].
  unfold bind at 1, read_lines at 1. rewrite Hc.
  rewrite (describe_unnamed name _ "" Hl). cbn [snd String.eqb].
  unfold KernelListPy.error_message, bind, logging, raise.
  eexists; eexists; split; reflexivity.
Qed.

(** X21.  The description of a product is the value of the first
    [DESCRIPTION] line that follows a line with its name, when no later
    line names the product: what follows the last [=] of that line,
    without the white space around it. *)
Theorem description_follows_the_name :
  forall setup release name w n stored before named between described after,
    Py.int release = Some n ->
    content (w_fs w) (kernel_list_file setup n) = Some stored ->
    map universal_newline stored
      = (before ++ named :: between ++ described :: after)%list ->
    Py.contains name named = true ->
    (forall line, In line (named :: between) ->
                  Py.contains "DESCRIPTION" line = false) ->
    Py.contains "DESCRIPTION" described = true ->
    (forall line, In line after -> Py.contains name line = false) ->
    Py.strip (Py.final (Py.split described "=")) <> "" ->
    get_description setup release name w
    = (Ok (Py.strip (Py.final (Py.split described "="))), w).
Proof.
  intros setup release name w n stored before named between described after
         Hn Hc Hl Hnamed Hb Hd Ha Hv.
  assert (Hfold :
    fold_left (describe name)
              (before ++ named :: between ++ described :: after)%list
              (false, "")
    = (false, Py.strip (Py.final (Py.split described "=")))).
  { rewrite fold_left_app. cbn [fold_left].
    destruct (fold_left (describe name) before (false, "")) as [g d].
    assert (E1 : describe name (g, d) named = (true, d)).
    { unfold describe. rewrite Hnamed, (Hb named) by (now left).
      reflexivity. }
    rewrite E1, fold_left_app.
    rewrite describe_undescribed by (intros l Hin; apply Hb; now right).
    cbn [fold_left].
    assert (E2 : describe name (true, d) described
                 = (false, Py.strip (Py.final (Py.split described "=")))).
    { unfold describe. rewrite Hd. cbn [fst].
      now destruct (Py.contains name described). }
    rewrite E2. now apply describe_unnamed. }
  unfold get_description. unfold bind at 1. rewrite Hn. cbn [or_raise ret].
  unfold bind at 1, read_lines at 1. rewrite Hc, Hl, Hfold. cbn [snd].
  destruct (String.eqb_spec (Py.strip (Py.final (Py.split described "="))) "");
    [contradiction|reflexivity].
Qed.

End Description.

(** ** The next meta-kernel of the release plan *)

Section NextMetaKernel.

Import WritePlanPy.

Lemma take_digits_append : forall d rest,
  all_digits d = true -> take_digits rest = "" ->
  take_digits (d ++ rest) = d.
Proof.
  induction d as [|c d IH]; intros rest Hd Hr; [exact Hr|].
  simpl in Hd. apply andb_true_iff in Hd. destruct Hd as (Hc & Hd).
  cbn [append take_digits]. now rewrite Hc, IH.
Qed.

(** No [_v] starts in [stem ++ "_"]: none starts in [stem], whatever
    follows the underscore. *)
Lemma no_version_in_stem : forall stem t,
  Py.contains "_v" (stem ++ "_") = false ->
  forall c s, stem = String c s ->
  prefix "_v" (stem ++ "_" ++ t) = false.
Proof.
  intros stem t H c s ->.
  replace (String c s ++ "_" ++ t) with ((String c s ++ "_") ++ t)
    by (now rewrite append_assoc).
  rewrite prefix_append_short.
  - cbn [append] in H. now destruct (contains_cons _ _ _ H).
  - rewrite length_append. simpl. lia.
Qed.

Lemma contains_stem_tail : forall c s,
  Py.contains "_v" (String c s ++ "_") = false ->
  Py.contains "_v" (s ++ "_") = false.
Proof.
  intros c s H. cbn [append] in H. now destruct (contains_cons _ _ _ H).
Qed.

Lemma first_version_of_name : forall stem d rest,
  Py.contains "_v" (stem ++ "_") = false ->
  all_digits d = true -> d <> "" -> take_digits rest = "" ->
  first_version (stem ++ "_v" ++ d ++ rest) = Some ("_v" ++ d).
Proof.
  induction stem as [|c s IH]; intros d rest H Hd Hne Hr.
  - cbn [append first_version prefix Py.drop].
    rewrite (take_digits_append d rest Hd Hr).
    destruct (ascii_dec "_" "_"); [|contradiction].
    destruct (ascii_dec "v" "v"); [|contradiction].
    destruct d; [contradiction|reflexivity].
  - pose proof (no_version_in_stem (String c s) ("v" ++ d ++ rest) H c s
                  eq_refl) as Hp.
    cbn [append] in Hp. cbn [append first_version].
    rewrite Hp. cbn [andb].
    apply IH; try assumption. now apply (contains_stem_tail c).
Qed.

Lemma no_longer_version_in_stem : forall stem d t,
  Py.contains "_v" (stem ++ "_") = false ->
  prefix ("_v" ++ d) ("_v" ++ t) = false ->
  occurs "_" t = false ->
  Py.contains ("_v" ++ d) (stem ++ "_v" ++ t) = false.
Proof.
  induction stem as [|c s IH]; intros d t H Hp Ht.
  - cbn [append] in *. cbn [Py.contains]. rewrite Hp. cbn [orb].
    apply (contains_occurs "_" (String "v" d)). simpl. exact Ht.
  - pose proof (IH d t (contains_stem_tail c s H) Hp Ht) as Hi.
    pose proof (no_version_in_stem (String c s) ("v" ++ t) H c s eq_refl)
      as Hn.
    cbn [append] in Hi, Hn |- *. cbn [Py.contains]. rewrite Hi, orb_false_r.
    match goal with |- ?p = false => destruct p eqn:E end; [|reflexivity].
    apply (prefix_append_l "_v" d) in E. congruence.
Qed.

Lemma prefix_longer : forall p s,
  (length s < length p)%nat -> prefix p s = false.
Proof.
  intros p s H. destruct (prefix p s) eqn:E; [|reflexivity].
  apply prefix_length in E. lia.
Qed.

Lemma all_digits_drop_last : forall d,
  all_digits d = true -> all_digits (Py.drop_last d) = true.
Proof.
  induction d as [|c d IH]; intros H; [reflexivity|].
  simpl in H. apply andb_true_iff in H. destruct H as (Hc & Hd).
  destruct d as [|c' d]; [reflexivity|].
  change (Py.drop_last (String c (String c' d)))
    with (String c (Py.drop_last (String c' d))).
  cbn [all_digits]. now rewrite Hc, IH.
Qed.

Lemma drop_last_version : forall d,
  d <> "" -> Py.drop_last ("_v" ++ d) = "_v" ++ Py.drop_last d.
Proof. intros [|c d] H; [contradiction|reflexivity]. Qed.

(** X22.  The meta-kernel that [write_plan] plans after the latest one
    of the archive has the same name with the version that follows: the
    number after the first [_v] is increased by one and padded with zeros
    to the width it had, and the rest of the name is kept. *)
Theorem next_meta_kernel_follows : forall stem width n rest w,
  (0 <= n)%Z ->
  Py.contains "_v" (stem ++ "_") = false ->
  take_digits rest = "" ->
  Py.contains "_v" rest = false ->
  next_meta_kernel (stem ++ "_v" ++ Py.zfill width n ++ rest) w
  = (Ok (stem ++ "_v"
         ++ Py.zfill (length (Py.zfill width n)) (n + 1) ++ rest), w).
Proof.
  intros stem width n rest w Hn Hs Hr Hv.
  set (d := Py.zfill width n).
  assert (Hd : all_digits d = true) by (now apply all_digits_zfill).
  assert (Hne : d <> "").
  { intros E. pose proof (int_zfill width n) as Hi. fold d in Hi.
    rewrite E in Hi. discriminate. }
  unfold next_meta_kernel. unfold bind at 1.
  rewrite (first_version_of_name stem d rest Hs Hd Hne Hr).
  cbn [or_raise ret]. unfold bind at 1.
  change (Py.drop 2 ("_v" ++ d)) with d.
  unfold d at 1. rewrite int_zfill. cbn [or_raise ret].
  replace (length ("_v" ++ d) - 2)%nat with (length d)
    by (cbn [append length]; lia).
  replace (stem ++ "_v" ++ d ++ rest) with (stem ++ ("_v" ++ d) ++ rest)
    by (now rewrite !append_assoc).
  rewrite split_first.
  - rewrite split_no_match by (now apply contains_longer).
    cbn [Py.first Py.final hd last]. now rewrite !append_assoc.
  - rewrite drop_last_version by assumption.
    apply no_longer_version_in_stem; [assumption| |].
    + apply prefix_longer. cbn [append length].
      rewrite length_drop_last. destruct d; [contradiction|simpl; lia].
    + apply all_digits_occurs; [now apply all_digits_drop_last|reflexivity].
Qed.

Lemma next_meta_kernel_follows_witness :
  next_meta_kernel "insight_v09.tm" (world0 []) = (Ok "insight_v10.tm", world0 []).
Proof.
  apply (next_meta_kernel_follows "insight" 2 9 ".tm" (world0 []));
    [lia|reflexivity|reflexivity|reflexivity].
Defined.

End NextMetaKernel.

(** ** The release as a number *)

Section NumericRelease.

Import SetupPy.

Lemma release_from_clear_numeric : forall self w r w',
  release_from_clear self w = (Ok r, w') ->
  exists n, r_release r = Py.zfill 3 n.
Proof.
  intros self w r w' H. unfold release_from_clear, bind, or_raise in H.
  destruct (file_list_number self) as [n|]; [|discriminate].
  inversion H. now exists n.
Qed.

Lemma release_from_bundle_label_numeric : forall self w r w',
  release_from_bundle_label self w = (Ok r, w') ->
  exists n, r_release r = Py.zfill 3 n.
Proof.
  intros self w r w' H.
  unfold release_from_bundle_label, bind, or_raise, get_fs in H.
  destruct (Py.last_item _) as [latest|]; [|discriminate].
  cbn [ret] in H.
  destruct (bundle_label_number latest) as [n|]; [|discriminate].
  cbn [ret] in H. rewrite int_zfill in H. inversion H. now exists (n + 1)%Z.
Qed.

Lemma release_from_kernel_list_numeric : forall self e w r w',
  release_from_kernel_list self e w = (Ok r, w') ->
  exists n, r_release r = Py.zfill 3 n.
Proof.
  intros self e w r w' H.
  unfold release_from_kernel_list, bind, or_raise, get_fs, logging, raise in H.
  destruct (truthy (kerlist (args self))); [discriminate|].
  cbn [ret w_fs] in H.
  destruct (Py.last_item _) as [latest|]; [|discriminate].
  cbn [ret] in H.
  destruct (kernel_list_number latest) as [n|]; [|discriminate].
  cbn [ret] in H. rewrite int_zfill in H. inversion H. now exists (n + 1)%Z.
Qed.

Lemma resolve_release_numeric : forall self w r w',
  resolve_release self w = (Ok r, w') ->
  exists n, r_release r = Py.zfill 3 n.
Proof.
  intros self w r w' H. unfold resolve_release in H.
  destruct (truthy (clear (args self)));
    [now apply release_from_clear_numeric in H|].
  unfold try_except in H.
  destruct (release_from_bundle_label self w) as [[r0|e] w1] eqn:Eb.
  - inversion H; subst. now apply release_from_bundle_label_numeric in Eb.
  - unfold bind at 1, logging at 1 in H.
    match type of H with
    | context [release_from_kernel_list self e ?w0] =>
        destruct (release_from_kernel_list self e w0) as [[r1|e1] w2] eqn:Ek
    end.
    + inversion H; subst. now apply release_from_kernel_list_numeric in Ek.
    + unfold first_release, bind, logging, ret in H. inversion H.
      now exists 1%Z.
Qed.

(** A number formatted with zero padding to a width fills it. *)
Lemma length_zeros : forall k, length (Py.zeros k) = k.
Proof. induction k as [|k IH]; simpl; congruence. Qed.

Lemma length_zfill : forall width n, (width <= length (Py.zfill width n))%nat.
Proof.
  intros width n. unfold Py.zfill.
  destruct (n <? 0)%Z; cbv zeta; cbn [length];
    rewrite length_append, length_zeros; lia.
Qed.

(** X23.  Whatever tier resolves it, the release that [set_release]
    assigns is a whole number [n] in the format [03]: at least three
    characters, all of them digits when [n] is not negative (the file
    list of a release [-5] gives [-05]).  [int] reads it back as [n], as
    the kernel list and the bundle do, and the VID of the bundle is [n]
    followed by [.0]. *)
Theorem release_is_a_number : forall self w s w',
  set_release self w = (Ok s, w') ->
  exists n,
    release s = Py.zfill 3 n
    /\ (3 <= length (release s))%nat
    /\ ((0 <= n)%Z -> all_digits (release s) = true)
    /\ Py.int (release s) = Some n
    /\ forall w0, BundlePy.bundle_vid (release s) w0
                  = (Ok (Py.str n ++ ".0"), w0).
Proof.
  intros self w s w' H. unfold set_release in H.
  unfold bind, logging, ret in H.
  assert (Hr : exists r wa wb,
             resolve_release self wa = (Ok r, wb) /\ release s = r_release r).
  { destruct (negb (silent (args self)) && negb (verbose (args self)));
      cbn in H;
      match type of H with
      | context [resolve_release self ?wa] =>
          destruct (resolve_release self wa) as [[r|e] wb] eqn:Er;
          [|discriminate]; exists r, wa, wb
      end; inversion H; split; auto. }
  destruct Hr as (r & wa & wb & Hr & ->).
  destruct (resolve_release_numeric _ _ _ _ Hr) as (n & ->).
  exists n. split; [reflexivity|]. split; [apply length_zfill|].
  split; [apply all_digits_zfill|]. split; [apply int_zfill|].
  intros w0. unfold BundlePy.bundle_vid, bind. now rewrite int_zfill.
Qed.

Lemma release_is_a_number_witness :
  exists s w' n,
    set_release (Scenario.release_setup "" "")
                (world0 Scenario.bundle_of_release_8) = (Ok s, w')
    /\ release s = Py.zfill 3 n
    /\ BundlePy.bundle_vid (release s) (world0 [])
       = (Ok (Py.str n ++ ".0"), world0 []).
Proof.
  assert (Hs : exists s w',
             set_release (Scenario.release_setup "" "")
                         (world0 Scenario.bundle_of_release_8) = (Ok s, w'))
    by (eexists; eexists; vm_compute; reflexivity).
  destruct Hs as (s & w' & Hs).
  destruct (release_is_a_number _ _ _ _ Hs) as (n & Hz & _ & _ & _ & Hv).
  exists s, w', n. auto.
Defined.

End NumericRelease.

(** ** The version of the SPICEDS document *)

Section SpicedsVersion.

Import ProductPy SpicedsProductPy.

(** X24.  The name [SpicedsProduct] gives to version [n] of the SPICEDS
    document is read back by the next run: when it is the latest document
    of the collection in the final area, the new document is version
    [n + 1] and is named accordingly. *)
Theorem spiceds_version_follows_name : forall setup collection w n,
  increment setup = true ->
  (0 <= n)%Z ->
  Py.last_item
    (Py.sorted (glob_fs (w_fs w) (collection_path setup collection)
                        "spiceds_v" ".html"))
    = Some (collection_path setup collection ++ "/"
            ++ SpicedsProduct_name n) ->
  SpicedsProduct_version setup collection w
  = (Ok ((n + 1)%Z,
         collection_path setup collection ++ "/" ++ SpicedsProduct_name n), w).
Proof.
  intros setup collection w n Hi Hn Hl.
  unfold SpicedsProduct_version. rewrite Hi.
  unfold bind at 1. unfold glob at 1. cbn iota. rewrite Hl.
  unfold try_except, bind, or_raise, ret.
  assert (E : Py.int (Py.first (Py.split (Py.final (Py.split
                (collection_path setup collection ++ "/"
                 ++ SpicedsProduct_name n) "_v")) ".")) = Some n).
  { unfold SpicedsProduct_name.
    replace (collection_path setup collection ++ "/" ++ "spiceds_v"
             ++ Py.zfill 3 n ++ ".html")
      with ((collection_path setup collection ++ "/" ++ "spiceds") ++ "_v"
            ++ Py.zfill 3 n ++ "." ++ "html")
      by (now rewrite !append_assoc).
    now apply number_after_separator. }
  now rewrite E.
Qed.

Lemma spiceds_version_follows_name_witness :
  SpicedsProduct_version (Scenario.setup true)
    {| Collection.name := "document"; Collection.type := "document";
       Collection.product := [] |}
    (world0 [("final/insight_spice/document/spiceds_v002.html", [])])
  = (Ok (3%Z, "final/insight_spice/document/spiceds_v002.html"),
     world0 [("final/insight_spice/document/spiceds_v002.html", [])]).
Proof.
  apply (spiceds_version_follows_name (Scenario.setup true)
           {| Collection.name := "document"; Collection.type := "document";
              Collection.product := [] |}
           (world0 [("final/insight_spice/document/spiceds_v002.html", [])])
           2); [reflexivity|lia|vm_compute; reflexivity].
Defined.

End SpicedsVersion.

(** ** The comparison of a meta-kernel in a first release *)

Section CompareTemplate.

Import ProductPy.

Variable compare_files : string -> string -> string -> string -> M unit.

(** X25.  With no meta-kernel in the archive that starts with the first
    character of the name, the search of [compare] ends after one
    iteration, and the meta-kernel is compared with the template of the
    mission. *)
Theorem compare_without_archive_uses_template :
  forall fuel setup name path w,
    (2 < length (Py.final (Py.split name "/")))%nat ->
    glob_fs (w_fs w) (mk_directory setup)
            (Py.take 1 (Py.final (Py.split name "/"))) ".tm" = [] ->
    MetaKernelProduct_compare compare_files (S fuel) setup name path w
    = (logging WARNING ("-- No other version of " ++ name
                        ++ " has been found.") ;;;
       logging WARNING "-- Comparing with meta-kernel template." ;;;
       logging INFO "" ;;;
       compare_files (root_dir setup ++ "/config/" ++ mission_accronym setup
                      ++ "_metakernel.tm")
                     path (working_directory setup) "all" ;;;
       input_if (interactive setup) ">> Press enter to continue..." ;;;
       ret (Some tt)) w.
Proof.
  intros fuel setup name path w Hlen Hg.
  unfold MetaKernelProduct_compare.
  cbn [search_loop]. unfold search_start at 1. cbn [match_flag].
  unfold search_step at 1, search_start. cbn [i val_mk match_flag].
  replace (1 <? Z.of_nat (length (Py.final (Py.split name "/"))) - 1)%Z
    with true by (symmetry; apply Z.ltb_lt; lia).
  change (Z.to_nat 1) with 1%nat. rewrite Hg.
  destruct fuel; reflexivity.
Qed.

End CompareTemplate.

Lemma compare_without_archive_uses_template_witness :
  exists w',
    ProductPy.MetaKernelProduct_compare Scenario.no_compare 1
      (Scenario.setup false) "insight_v01.tm"
      "staging/spice_kernels/mk/insight_v01.tm" (world0 [])
    = (Ok (Some tt), w')
    /\ In (WARNING, "-- Comparing with meta-kernel template.") (w_log w').
Proof.
  rewrite (compare_without_archive_uses_template Scenario.no_compare 0
             (Scenario.setup false) "insight_v01.tm"
             "staging/spice_kernels/mk/insight_v01.tm" (world0 []));
    [|vm_compute; lia|reflexivity].
  eexists. split; [reflexivity|]. simpl. tauto.
Defined.

Lemma early_faucets_register_nothing_witness :
  w_catalog (snd (Samples.run_until "list" (world0 []))) = []
  /\ fst (Samples.run_until "list" (world0 [])) = Ok tt
  /\ w_catalog (snd (Samples.run_until "" (world0 [])))
     = [("spice_kernels", "insight_v06.tf"); ("miscellaneous", "insight.orb")].
Proof.
  split; [|split; vm_compute; reflexivity].
  apply (early_faucets_register_nothing
           (fun _ => Scenario.idle tt) (fun _ => Scenario.idle tt)
           (fun _ => Scenario.idle [])
           (fun _ => Scenario.idle (true, ["insight_v06.tf"; "insight.orb"]))
           (fun _ _ => Scenario.idle []) Samples.fill_written
           (fun _ _ _ => ret tt)
           (fun _ _ => Scenario.idle tt) (fun _ _ => Scenario.idle tt)
           (fun _ _ => Scenario.idle tt) (fun _ _ => ret tt)
           (Samples.release_8 "" "" "list"))
    with (w := world0 []) (r := fst (Samples.run_until "list" (world0 []))).
  - simpl. tauto.
  - intros setup lst c. apply quiet_registers_nothing, quiet_ret.
  - apply surjective_pairing.
Defined.

Section DescriptionWitnesses.

Import ProductPy ProductBasePy.

Lemma undescribed_product_is_an_error_witness :
  exists e w',
    get_description (Scenario.setup true) "008" "insight_v07.tf"
                    (world0 Samples.working_list) = (Raise e, w')
    /\ w_fs w' = Samples.working_list.
Proof.
  apply (undescribed_product_is_an_error (Scenario.setup true) "008"
           "insight_v07.tf" (world0 Samples.working_list) 8
           Samples.written_list); [reflexivity|reflexivity|].
  intros line H. vm_compute in H.
  repeat (destruct H as [<-|H]; [reflexivity|]). contradiction.
Defined.

Lemma description_follows_the_name_witness :
  get_description (Scenario.setup true) "008" "insight_v06.tf"
                  (world0 Samples.working_list)
  = (Ok "InSight frames kernel.", world0 Samples.working_list).
Proof.
  apply (description_follows_the_name (Scenario.setup true) "008"
           "insight_v06.tf" (world0 Samples.working_list) 8
           Samples.written_list Samples.list_header
           (WriteListPy.file_line Samples.fk_entry)
           [WriteListPy.options_line Samples.fk_entry]
           (WriteListPy.description_line Samples.fk_entry)
           (WriteListPy.entry_lines (WriteListPy.void_entry "insight.orb")));
    try reflexivity.
  - intros line [<-|[<-|[]]]; reflexivity.
  - intros line H. vm_compute in H.
    repeat (destruct H as [<-|H]; [reflexivity|]). contradiction.
  - discriminate.
Defined.

End DescriptionWitnesses.
